(** * plotly_resampler.figure_resampler

    A shallow embedding of [FigureResampler]: the high-frequency store
    [_hf_data], the range slicing of [check_update_trace_data] and
    [_slice_time], the name decoration, the batch update
    [check_update_figure_dict], the admission logic of [add_trace], the
    constructor and the callback [update_graph] of [show_dash].

    Conventions.  Python objects that the code mutates in place (the trace,
    the figure dict, [self]) are threaded through a small state-and-exception
    monad [Mut]; a raised exception keeps the mutations made before it.
    Finite numbers (ints, finite floats, nanosecond timestamps) are exact
    rationals [Q]; a float that is not a number is [NaN]. *)

From Stdlib Require Import ZArith QArith Qround String Ascii List Lia Lqa DecimalString.
From stdpp Require Import base gmap strings list sorting.

Open Scope string_scope.

(** ** Python runtime: exceptions and in-place mutation *)

Inductive exn :=
  | AssertionError | AttributeError | IndexError | KeyError | TypeError | ValueError
  | AmbiguousTimeError | NonExistentTimeError.

Inductive result (A : Type) :=
  | Ok (a : A)
  | Raise (e : exn).
Arguments Ok {A} a.
Arguments Raise {A} e.

Definition Mut (S A : Type) : Type := S → result A * S.

#[export] Instance mut_ret {S} : MRet (Mut S) := λ A a s, (Ok a, s).
#[export] Instance mut_bind {S} : MBind (Mut S) := λ A B k m s,
  match m s with
  | (Ok a, s') => k a s'
  | (Raise e, s') => (Raise e, s')
  end.

Definition get {S} : Mut S S := λ s, (Ok s, s).
Definition modify {S} (f : S → S) : Mut S unit := λ s, (Ok tt, f s).
Definition lift {S A} (r : result A) : Mut S A := λ s, (r, s).
Definition py_assert {S} (b : bool) : Mut S unit :=
  lift (if b then Ok tt else Raise AssertionError).

Definition is_ok {A} (r : result A) : bool :=
  match r with Ok _ => true | Raise _ => false end.

(** ** Python [str] methods used by the module *)

(** [s.startswith(p)] *)
Definition startswith (s p : string) : bool := String.prefix p s.

(** [s[n:]] and [s[:n]] for a non-negative [n] *)
Fixpoint str_drop (n : nat) (s : string) : string :=
  match n, s with
  | O, _ => s
  | S n', String _ s' => str_drop n' s'
  | S _, EmptyString => EmptyString
  end.

Fixpoint str_take (n : nat) (s : string) : string :=
  match n, s with
  | O, _ => EmptyString
  | S n', String c s' => String c (str_take n' s')
  | S _, EmptyString => EmptyString
  end.

(** [s.endswith(p)] *)
Definition endswith (s p : string) : bool :=
  (String.length p <=? String.length s)%nat
  && String.eqb (str_drop (String.length s - String.length p) s) p.

(** [len(s)] used as a truth value *)
Definition nonempty (s : string) : bool := negb (String.length s =? 0)%nat.

Definition lower_ascii (c : ascii) : ascii :=
  let n := nat_of_ascii c in
  if ((65 <=? n) && (n <=? 90))%nat then ascii_of_nat (n + 32) else c.

(** [s.lower()] on ASCII text *)
Fixpoint lower (s : string) : string :=
  match s with
  | EmptyString => EmptyString
  | String c s' => String (lower_ascii c) (lower s')
  end.

Fixpoint char_in (c : ascii) (chars : string) : bool :=
  match chars with
  | EmptyString => false
  | String d chars' => Ascii.eqb c d || char_in c chars'
  end.

(** [s.lstrip(chars)]: drops the leading characters that occur in [chars] *)
Fixpoint lstrip (chars s : string) : string :=
  match s with
  | EmptyString => EmptyString
  | String c s' => if char_in c chars then lstrip chars s' else s
  end.

(** [str(n)] for a length *)
Definition str_of_nat (n : nat) : string := NilEmpty.string_of_uint (Nat.to_uint n).

(** ** Name decoration of [check_update_trace_data] (lines 161-171) *)

(** The [if] branch: the name that is written when the view is aggregated. *)
Definition decorate_name (prefix suffix name : string) : string :=
  let name := (if startswith name prefix then "" else prefix) +:+ name in
  name +:+ (if negb (endswith name suffix) then suffix else "").

(** The [else] branch.  The local [name] is read once; both assignments slice
    that same local, so the second one, when it fires, replaces the result
    of the first. *)
Definition strip_prefix_assign (prefix name : string) (current : string) : string :=
  if nonempty prefix && startswith name prefix
  then str_drop (String.length prefix) name
  else current.

Definition strip_suffix_assign (suffix name : string) (current : string) : string :=
  if nonempty suffix && endswith name suffix
  then str_take (String.length name - String.length suffix) name
  else current.

Definition undecorate_name (prefix suffix name : string) : string :=
  strip_suffix_assign suffix name (strip_prefix_assign prefix name name).

(** A name counts as decorated when it starts with the prefix and ends with
    the suffix. *)
Definition decorated (prefix suffix name : string) : bool :=
  startswith name prefix && endswith name suffix.

(** A name on which the [else] branch would still fire. *)
Definition strippable (prefix suffix name : string) : bool :=
  (nonempty prefix && startswith name prefix)
  || (nonempty suffix && endswith name suffix).

(** ** Data: arrays, indexes, timestamps, series *)

(** A float cell: a finite number, or not-a-number. *)
Inductive yval :=
  | Num (q : Q)
  | NaN.

(** What holds the cells: plain Python sequences, or array types that accept
    a boolean mask as subscript. *)
Inductive container := py_list | py_tuple | ndarray | pd_series | pd_index.

Inductive dtype :=
  | float64 | int64 | uint8 | uint16 | uint32 | bool_ | object_ | category.

(** What a wall-clock reading is in a zone: it occurs once, twice (where the
    clocks are set back) or never (where they are set forward). *)
Inductive wall_kind := exists_once | ambiguous | nonexistent.

(** A [tzinfo] object, by the three kinds that reach the code:
    - a zone of pytz by name ([pytz.timezone(name)], [pytz.UTC]), which is
      what pandas keeps for [tz="Europe/Brussels"]; its offset from UTC and
      the kind of a reading depend on the wall-clock reading;
    - a fixed offset of pytz ([pytz.FixedOffset], never zero), which is what
      a time parsed with an offset carries; pytz keeps one object per
      offset;
    - a tzinfo of another library ([datetime.timezone], dateutil), with the
      key by which pandas tells such zones apart.
    Readings and offsets are in nanoseconds. *)
Inductive tzinfo :=
  | pytz_zone (name : string) (offset_at : Q → Q) (kind_at : Q → wall_kind)
  | pytz_fixed (offset : Q)
  | other_tzinfo (key : string) (offset_at : Q → Q) (kind_at : Q → wall_kind).

(** [tz.zone]: the name of a named pytz zone, [None] on a fixed offset of
    pytz, and no such attribute on other tzinfo objects. *)
Definition zone (z : tzinfo) : result (option string) :=
  match z with
  | pytz_zone name _ _ => Ok (Some name)
  | pytz_fixed _ => Ok None
  | other_tzinfo _ _ _ => Raise AttributeError
  end.

(** The offset from UTC at a wall-clock reading. *)
Definition utcoffset (z : tzinfo) (w : Q) : Q :=
  match z with
  | pytz_zone _ offset_at _ => offset_at w
  | pytz_fixed offset => offset
  | other_tzinfo _ offset_at _ => offset_at w
  end.

Definition wall_kind_at (z : tzinfo) (w : Q) : wall_kind :=
  match z with
  | pytz_zone _ _ kind_at => kind_at w
  | pytz_fixed _ => exists_once
  | other_tzinfo _ _ kind_at => kind_at w
  end.

(** [pd.Timestamp]: wall-clock reading in nanoseconds and an optional zone. *)
Record Timestamp := { wall : Q; tz : option tzinfo }.

(** The [pd.Index] subclass that pandas builds for the positions. *)
Inductive index_kind :=
  | Int64Index
  | UInt64Index
  | Float64Index
  | DatetimeIndex (itz : option tzinfo).

(** x data: [hf_x], [trace["x"]], [series.index]. *)
Record XArr := { x_cont : container; x_kind : index_kind; x_labels : list Q }.

(** y data: [hf_y], [trace["y"]], [series.values]. *)
Record YArr := { y_cont : container; y_dtype : dtype; y_vals : list yval }.

(** [pd.Series(data=hf_y, index=hf_x)]: positions paired with values. *)
Record Series := { s_kind : index_kind; s_dtype : dtype; s_samples : list (Q * yval) }.

(** Hover text: absent, one string for the whole trace, a list, tuple or
    ndarray with one (possibly missing) text per point, or a [pd.Series] of
    texts indexed by position. *)
Inductive Hover :=
  | HNone
  | HStr (s : string)
  | HArr (c : container) (l : list (option string))
  | HSeries (k : index_kind) (l : list (Q * option string)).

(** A view bound: a number, as the front-end sends it for a linear axis, or
    a time, as a [pd.Timestamp]. *)
Inductive Bound :=
  | BNum (q : Q)
  | BTime (t : Timestamp).

Inductive AxisType := date | linear.

(** A trace, as plotly object or as dict of the figure dict. *)
Record Trace := {
  uid : option string;
  type_ : string;
  name : option string;
  x : option XArr;
  y : option YArr;
  text : Hover;
  hovertext : Hover;
  yaxis : option string;
}.

Definition set_uid (v : option string) (t : Trace) : Trace :=
  {| uid := v; type_ := type_ t; name := name t; x := x t; y := y t;
     text := text t; hovertext := hovertext t; yaxis := yaxis t |}.
Definition set_name (v : option string) (t : Trace) : Trace :=
  {| uid := uid t; type_ := type_ t; name := v; x := x t; y := y t;
     text := text t; hovertext := hovertext t; yaxis := yaxis t |}.
Definition set_x (v : option XArr) (t : Trace) : Trace :=
  {| uid := uid t; type_ := type_ t; name := name t; x := v; y := y t;
     text := text t; hovertext := hovertext t; yaxis := yaxis t |}.
Definition set_y (v : option YArr) (t : Trace) : Trace :=
  {| uid := uid t; type_ := type_ t; name := name t; x := x t; y := v;
     text := text t; hovertext := hovertext t; yaxis := yaxis t |}.
Definition set_text (v : Hover) (t : Trace) : Trace :=
  {| uid := uid t; type_ := type_ t; name := name t; x := x t; y := y t;
     text := v; hovertext := hovertext t; yaxis := yaxis t |}.
Definition set_hovertext (v : Hover) (t : Trace) : Trace :=
  {| uid := uid t; type_ := type_ t; name := name t; x := x t; y := y t;
     text := text t; hovertext := v; yaxis := yaxis t |}.

(** The interface [AbstractSeriesDownsampler]: [downsample(series, n_out)],
    for downsamplers that return. *)
Definition Downsampler : Type := Series → Z → Series.

(** One value of the dict [_hf_data]. *)
Record HFEntry := {
  max_n_samples : Z;
  hf_series : Series;
  axis_type : AxisType;
  downsampler : Downsampler;
  e_hovertext : Hover;
}.

Record FigureResampler := {
  _hf_data : gmap string HFEntry;
  _global_n_shown_samples : Z;
  _prefix : string;
  _suffix : string;
  _global_downsampler : Downsampler;
  data : list Trace;
}.

Definition set_hf_data (m : gmap string HFEntry) (self : FigureResampler) : FigureResampler :=
  {| _hf_data := m; _global_n_shown_samples := _global_n_shown_samples self;
     _prefix := _prefix self; _suffix := _suffix self;
     _global_downsampler := _global_downsampler self; data := data self |}.
Definition set_data (d : list Trace) (self : FigureResampler) : FigureResampler :=
  {| _hf_data := _hf_data self; _global_n_shown_samples := _global_n_shown_samples self;
     _prefix := _prefix self; _suffix := _suffix self;
     _global_downsampler := _global_downsampler self; data := d |}.

(** The layout entry of one axis, and the figure dict of the front-end. *)
Record AxisLayout := { anchor : option string }.
Record FigureDict := { fd_data : list Trace; fd_layout : gmap string AxisLayout }.

(** ** numpy and pandas primitives *)

#[export] Instance result_ret : MRet result := λ A a, Ok a.
#[export] Instance result_bind : MBind result := λ A B k m,
  match m with
  | Ok a => k a
  | Raise e => Raise e
  end.

Definition Qlt_bool (a b : Q) : bool := negb (Qle_bool b a).

(** Python's [round(x)] with one argument: nearest integer, ties to even. *)
Definition py_round (q : Q) : Z :=
  let f := Qfloor q in
  match ((q - inject_Z f) ?= 1#2)%Q with
  | Lt => f
  | Gt => (f + 1)%Z
  | Eq => if Z.even f then f else (f + 1)%Z
  end.

Inductive Side := left_ | right_.

(** The comparison of the binary search: whether a cell lies before the
    insertion point of [v]. *)
Definition before (side : Side) (v cell : Q) : bool :=
  match side with
  | left_ => Qlt_bool cell v
  | right_ => Qle_bool cell v
  end.

(** The binary search of [np.searchsorted]: with [left_] the first position
    whose cell is not below [v], with [right_] the first whose cell is above. *)
Fixpoint bisect (side : Side) (fuel : nat) (a : list Q) (v : Q) (lo hi : nat) : nat :=
  match fuel with
  | O => lo
  | S fuel' =>
    if (lo <? hi)%nat then
      let mid := (lo + (hi - lo) / 2)%nat in
      if before side v (nth mid a 0%Q)
      then bisect side fuel' a v (S mid) hi
      else bisect side fuel' a v lo mid
    else lo
  end.

Definition searchsorted (a : list Q) (v : Q) (side : Side) : nat :=
  bisect side (length a) a v 0 (length a).

(** The key by which pandas orders a label of an index: the label itself, or
    for a zone-aware time its UTC instant. *)
Definition key_of (k : index_kind) (label : Q) : Q :=
  match k with
  | DatetimeIndex (Some z) => (label - utcoffset z label)%Q
  | _ => label
  end.

Definition instant (t : Timestamp) : Q := key_of (DatetimeIndex (tz t)) (wall t).

Definition series_keys (s : Series) : list Q :=
  map (λ p, key_of (s_kind s) p.1) (s_samples s).

(** [len(series)] *)
Definition series_len (s : Series) : nat := length (s_samples s).

(** [series.iloc[a:b]] *)
Definition iloc (s : Series) (a b : nat) : Series :=
  {| s_kind := s_kind s; s_dtype := s_dtype s;
     s_samples := take (b - a) (drop a (s_samples s)) |}.

(** [series.index] and [series.values] *)
Definition series_index (s : Series) : XArr :=
  {| x_cont := pd_index; x_kind := s_kind s; x_labels := map fst (s_samples s) |}.
Definition series_values (s : Series) : YArr :=
  {| y_cont := ndarray; y_dtype := s_dtype s; y_vals := map snd (s_samples s) |}.

(** [index.is_monotonic_increasing]: keys never decrease. *)
Fixpoint is_monotonic_increasing (keys : list Q) : bool :=
  match keys with
  | [] => true
  | a :: rest =>
    match rest with
    | [] => true
    | b :: _ => Qle_bool a b && is_monotonic_increasing rest
    end
  end.

Fixpoint is_monotonic_decreasing (keys : list Q) : bool :=
  match keys with
  | [] => true
  | a :: rest =>
    match rest with
    | [] => true
    | b :: _ => Qle_bool b a && is_monotonic_decreasing rest
    end
  end.

(** [ts.tz_localize(z)] with the defaults [ambiguous="raise"] and
    [nonexistent="raise"]: the wall-clock reading is kept and the zone
    replaced.  [None] takes the zone off; a zone can only be given to a
    naive time, and only where the reading occurs exactly once in it. *)
Definition tz_localize (ts : Timestamp) (z : option tzinfo) : result Timestamp :=
  match z with
  | None => Ok {| wall := wall ts; tz := None |}
  | Some r =>
    match tz ts with
    | Some _ => Raise TypeError
    | None =>
      match wall_kind_at r (wall ts) with
      | exists_once => Ok {| wall := wall ts; tz := Some r |}
      | ambiguous => Raise AmbiguousTimeError
      | nonexistent => Raise NonExistentTimeError
      end
    end
  end.

(** The whole number of nanoseconds that pandas keeps of a number: the
    fraction is cut off, towards zero. *)
Definition whole_ns (q : Q) : Q := inject_Z (Z.quot (Qnum q) (Z.pos (Qden q))).

(** [pd.to_datetime] of a bound: a time is kept, a number is that many
    nanoseconds since the epoch, without zone. *)
Definition to_datetime (b : option Bound) : option Timestamp :=
  match b with
  | None => None
  | Some (BTime t) => Some t
  | Some (BNum q) => Some {| wall := whole_ns q; tz := None |}
  end.

(** [pd.merge_asof(..., direction="nearest")], one left key at a time: the
    last right row at or before the key, the first at or after it, and of the
    two the closer one, the earlier on a tie. *)
Fixpoint asof_backward {V} (key : Q) (r : list (Q * V)) : option (Q * V) :=
  match r with
  | [] => None
  | (k, v) :: r' =>
    if Qle_bool k key then
      match asof_backward key r' with
      | Some p => Some p
      | None => Some (k, v)
      end
    else None
  end.

Fixpoint asof_forward {V} (key : Q) (r : list (Q * V)) : option (Q * V) :=
  match r with
  | [] => None
  | (k, v) :: r' => if Qle_bool key k then Some (k, v) else asof_forward key r'
  end.

Definition asof_nearest {V} (key : Q) (r : list (Q * V)) : option (Q * V) :=
  match asof_backward key r, asof_forward key r with
  | Some (kb, vb), Some (kf, vf) =>
    if Qle_bool (key - kb) (kf - key) then Some (kb, vb) else Some (kf, vf)
  | Some b, None => Some b
  | None, f => f
  end.

(** The hovertext column of the join of [s_res] with the hovertext series,
    which carries a name, as the one built at line 440 does; pandas refuses
    unsorted keys on either side. *)
Definition merge_asof_nearest (s_res : Series) (k : index_kind)
    (h : list (Q * option string)) : result (list (option string)) :=
  let rows := map (λ p, (key_of k p.1, p.2)) h in
  if is_monotonic_increasing (series_keys s_res) && is_monotonic_increasing (map fst rows)
  then Ok (map (λ key, p ← asof_nearest key rows; p.2) (series_keys s_res))
  else Raise ValueError.

(** ** Range slicing *)

(** [index[0]] or [index[-1]], given the label there if any. *)
Definition index_item (k : index_kind) (label : option Q) : result Bound :=
  match label with
  | None => Raise IndexError
  | Some q =>
    Ok match k with
       | DatetimeIndex z => BTime {| wall := q; tz := z |}
       | _ => BNum q
       end
  end.

(** [round(b)] *)
Definition round_bound (b : Bound) : result Bound :=
  match b with
  | BNum q => Ok (BNum (inject_Z (py_round q)))
  | BTime _ => Raise TypeError
  end.

(** The key of a bound when it is searched in an index of kind [k]; numbers
    and times do not compare. *)
Definition key_of_bound (k : index_kind) (b : Bound) : result Q :=
  match k, b with
  | DatetimeIndex _, BTime t => Ok (instant t)
  | DatetimeIndex _, BNum _ => Raise TypeError
  | _, BNum q => Ok q
  | _, BTime _ => Raise TypeError
  end.

Definition is_int_index (k : index_kind) : bool :=
  match k with
  | Int64Index | UInt64Index => true
  | _ => false
  end.

(** The [else] branch at lines 150-159: the slice on a linear axis. *)
Definition slice_linear (hf_series : Series) (start end_ : option Bound) : result Series :=
  let labels := map fst (s_samples hf_series) in
  start ← match start with
          | None => index_item (s_kind hf_series) (head labels)
          | Some b => Ok b
          end;
  end_ ← match end_ with
         | None => index_item (s_kind hf_series) (last labels)
         | Some b => Ok b
         end;
  start ← (if is_int_index (s_kind hf_series) then round_bound start else Ok start);
  end_ ← (if is_int_index (s_kind hf_series) then round_bound end_ else Ok end_);
  start_key ← key_of_bound (s_kind hf_series) start;
  end_key ← key_of_bound (s_kind hf_series) end_;
  let start_idx := searchsorted (series_keys hf_series) start_key left_ in
  let end_idx := searchsorted (series_keys hf_series) end_key left_ in
  Ok (iloc hf_series start_idx end_idx).

(** The inner function [to_same_tz] of [_slice_time]. *)
Definition to_same_tz (reference_tz : option tzinfo) (ts : option Timestamp)
    : result (option Timestamp) :=
  match ts with
  | None => Ok None
  | Some ts =>
    match reference_tz with
    | Some r =>
      match tz ts with
      | Some z =>
        ts_zone ← zone z;
        reference_zone ← zone r;
        if bool_decide (ts_zone = reference_zone) then Ok (Some ts)
        else Raise AssertionError
      | None => t ← tz_localize ts (Some r); Ok (Some t)
      end
    | None =>
      match tz ts with
      | Some _ => t ← tz_localize ts None; Ok (Some t)
      | None => Ok (Some ts)
      end
    end
  end.

(** Whether pandas takes two zones for the same ([tz_compare]): named zones
    of pytz by their name, fixed offsets of pytz by the object, of which
    there is one per offset, other tzinfo objects by their key. *)
Definition tz_compare (a b : option tzinfo) : bool :=
  match a, b with
  | None, None => true
  | Some (pytz_zone n _ _), Some (pytz_zone m _ _) => String.eqb n m
  | Some (pytz_fixed o), Some (pytz_fixed o') => Qeq_bool o o'
  | Some (other_tzinfo k _ _), Some (other_tzinfo k' _ _) => String.eqb k k'
  | _, _ => false
  end.

(** The positions, from [i] on, of the cells that equal [v]. *)
Fixpoint positions_of (v : Q) (keys : list Q) (i : nat) : list nat :=
  match keys with
  | [] => []
  | k :: rest => (if Qeq_bool k v then [i] else []) ++ positions_of v rest (S i)
  end.

Definition other_side (side : Side) : Side :=
  match side with
  | left_ => right_
  | right_ => left_
  end.

(** [index.get_slice_bound(label, side)].  On keys that never decrease the
    bound is found by binary search, whether the label occurs or not.
    Otherwise the label is looked up: where it occurs once, or several times
    in one run, the bound is the start of the run or the position after its
    end; where it occurs in several runs, and where it does not occur and
    the keys are not sorted downwards either, pandas raises [KeyError]. *)
Definition get_slice_bound (keys : list Q) (v : Q) (side : Side) : result nat :=
  if is_monotonic_increasing keys then Ok (searchsorted keys v side)
  else
    match positions_of v keys 0 with
    | [] =>
      if is_monotonic_decreasing keys
      then Ok (length keys - searchsorted (rev keys) v (other_side side))%nat
      else Raise KeyError
    | first :: more =>
      let last := List.last more first in
      if (S (last - first) =? length (first :: more))%nat
      then Ok match side with
              | left_ => first
              | right_ => S last
              end
      else Raise KeyError
    end.

(** [series[a:b]] on a time index, for bounds that are zone-aware exactly
    when the index is: label slicing, both ends included, the bounds
    compared by their instant.  Two bounds in zones that pandas does not
    take for the same are refused with [ValueError]. *)
Definition label_slice (s : Series) (a b : option Timestamp) : result Series :=
  match a, b with
  | Some ta, Some tb =>
    if tz_compare (tz ta) (tz tb) then Ok tt else Raise ValueError
  | _, _ => Ok tt
  end;;
  lo ← match a with
       | None => Ok O
       | Some t => get_slice_bound (series_keys s) (instant t) left_
       end;
  hi ← match b with
       | None => Ok (series_len s)
       | Some t => get_slice_bound (series_keys s) (instant t) right_
       end;
  Ok (iloc s lo hi).

(** [_slice_time] *)
Definition _slice_time (hf_series : Series) (t_start t_stop : option Timestamp)
    : result Series :=
  reference_tz ← match s_kind hf_series with
                 | DatetimeIndex z => Ok z
                 | _ => Raise AttributeError
                 end;
  a ← to_same_tz reference_tz t_start;
  b ← to_same_tz reference_tz t_stop;
  label_slice hf_series a b.

(** ** The view synchronizer *)

(** [_query_hf_data]: the entry under the uid of the trace, if any.  Lines
    101-105, which gather the properties of a trace without entry for the
    verbose message, are left out: on a dict, as the traces of a figure dict
    are, they change nothing; on a plotly object [trace.keys()] raises
    [AttributeError] there, so that for a plotly object without entry the
    properties below speak of the state only. *)
Definition _query_hf_data (self : FigureResampler) (trace : Trace) : option HFEntry :=
  u ← uid trace; _hf_data self !! u.

(** Lines 144-159: the sub-series of the view. *)
Definition slice_view (hf_data : HFEntry) (start end_ : option Bound) : result Series :=
  match axis_type hf_data with
  | date => _slice_time (hf_series hf_data) (to_datetime start) (to_datetime end_)
  | linear => slice_linear (hf_series hf_data) start end_
  end.

(** Lines 161-171: the name that the trace carries afterwards. *)
Definition updated_name (self : FigureResampler) (hf_data : HFEntry) (view : Series)
    (name : string) : string :=
  if (Z.of_nat (series_len view) >? max_n_samples hf_data)%Z
  then decorate_name (_prefix self) (_suffix self) name
  else undecorate_name (_prefix self) (_suffix self) name.

(** Lines 181-192: the hovertext that is written. *)
Definition updated_hovertext (hf_data : HFEntry) (s_res : Series) : result Hover :=
  match e_hovertext hf_data with
  | HSeries k h => r ← merge_asof_nearest s_res k h; Ok (HArr ndarray r)
  | other => Ok other
  end.

(** [check_update_trace_data]; the trace is the state.  On a trace without
    name the run raises once the view is sliced: [AttributeError], as on a
    plotly object whose name is [None] where [startswith] or [endswith]
    reads it (a dict without the key raises [KeyError] at line 161). *)
Definition check_update_trace_data (self : FigureResampler) (start end_ : option Bound)
    : Mut Trace unit :=
  trace ← get;
  match _query_hf_data self trace with
  | Some hf_data =>
    view ← lift (slice_view hf_data start end_);
    name ← lift (match name trace with
                 | Some n => Ok n
                 | None => Raise AttributeError
                 end);
    modify (set_name (Some (updated_name self hf_data view name)));;
    let s_res := downsampler hf_data view (max_n_samples hf_data) in
    modify (set_x (Some (series_index s_res)));;
    modify (set_y (Some (series_values s_res)));;
    h ← lift (updated_hovertext hf_data s_res);
    modify (set_hovertext h)
  | None => mret tt
  end.

(** ** The batch update *)

(** Whether the loop body reaches [check_update_trace_data] for a trace
    (lines 230-250); [KeyError] when the layout lacks the y-axis entry. *)
Definition passes_filter (layout : gmap string AxisLayout) (xaxis_filter : option string)
    (trace : Trace) : result bool :=
  match xaxis_filter with
  | None => Ok true
  | Some xaxis_filter =>
    let xaxis_filter_short := "x" +:+ lstrip "xaxis_filter" xaxis_filter in
    let y_axis := match yaxis trace with
                  | None => "y" +:+ str_drop 1 xaxis_filter
                  | Some ya => "yaxis" +:+ str_drop 1 ya
                  end in
    match layout !! y_axis with
    | None => Raise KeyError
    | Some ax =>
      let x_anchor_trace := anchor ax in
      let skip :=
        (String.eqb xaxis_filter_short "x"
         && negb (bool_decide (x_anchor_trace = None)
                  || bool_decide (x_anchor_trace = Some "x")))
        || (negb (String.eqb xaxis_filter_short "x")
            && negb (bool_decide (x_anchor_trace = Some xaxis_filter_short))) in
      Ok (negb skip)
    end
  end.

(** A [for] loop whose body mutates the element it visits; an exception
    leaves the loop with the elements before it already mutated. *)
Fixpoint for_each {S} (body : Mut S unit) (l : list S) : result unit * list S :=
  match l with
  | [] => (Ok tt, [])
  | s :: rest =>
    match body s with
    | (Ok _, s') => let '(r, rest') := for_each body rest in (r, s' :: rest')
    | (Raise e, s') => (Raise e, s' :: rest)
    end
  end.

Definition update_one (self : FigureResampler) (layout : gmap string AxisLayout)
    (start stop : option Bound) (xaxis_filter : option string) : Mut Trace unit :=
  trace ← get;
  go ← lift (passes_filter layout xaxis_filter trace);
  if go : bool then check_update_trace_data self start stop else mret tt.

(** [check_update_figure_dict]; the figure dict is the state. *)
Definition check_update_figure_dict (self : FigureResampler) (start stop : option Bound)
    (xaxis_filter : option string) : Mut FigureDict unit :=
  λ figure,
    let '(r, d) := for_each (update_one self (fd_layout figure) start stop xaxis_filter)
                            (fd_data figure) in
    (r, {| fd_data := d; fd_layout := fd_layout figure |}).

(** ** Admission: [add_trace] *)

(** The keyword arguments of [add_trace], and the uuid it draws. *)
Record AddArgs := {
  a_max_n_samples : option Z;
  a_downsampler : option Downsampler;
  a_limit_to_view : bool;
  a_hf_x : option XArr;
  a_hf_y : option YArr;
  a_hf_hovertext : Hover;
  a_uuid4 : string;
}.

(** [np.isnan] is defined on numeric cells only: float, integer and bool
    cells are accepted, object and categorical cells raise [TypeError]. *)
Definition supports_isnan (d : dtype) : bool :=
  match d with
  | object_ | category => false
  | _ => true
  end.

Definition isnan (v : yval) : bool :=
  match v with
  | NaN => true
  | Num _ => false
  end.

(** Whether [a[mask]] with a boolean array is defined on the container. *)
Definition maskable (c : container) : bool :=
  match c with
  | ndarray | pd_series | pd_index => true
  | py_list | py_tuple => false
  end.

(** [a[mask]]: the cells where the mask holds. *)
Fixpoint mask_select {A} (mask : list bool) (l : list A) : list A :=
  match mask, l with
  | b :: mask', a :: l' => if b then a :: mask_select mask' l' else mask_select mask' l'
  | _, _ => []
  end.

(** The local variables that the NaN block reads and assigns. *)
Record Locals := { hf_x : option XArr; hf_y : option YArr; hf_hovertext : Hover }.

Definition set_hf_x (v : option XArr) (l : Locals) : Locals :=
  {| hf_x := v; hf_y := hf_y l; hf_hovertext := hf_hovertext l |}.
Definition set_hf_y (v : option YArr) (l : Locals) : Locals :=
  {| hf_x := hf_x l; hf_y := v; hf_hovertext := hf_hovertext l |}.
Definition set_hf_hovertext (v : Hover) (l : Locals) : Locals :=
  {| hf_x := hf_x l; hf_y := hf_y l; hf_hovertext := v |}.

(** [~np.isnan(hf_y)] *)
Definition nan_values_mask (hf_y : option YArr) : result (list bool) :=
  match hf_y with
  | None => Raise TypeError
  | Some ya =>
    if supports_isnan (y_dtype ya)
    then Ok (map (λ v, negb (isnan v)) (y_vals ya))
    else Raise TypeError
  end.

(** [hf_x[nan_values_mask]] *)
Definition mask_x (mask : list bool) (hf_x : option XArr) : result XArr :=
  match hf_x with
  | None => Raise TypeError
  | Some xa =>
    if negb (maskable (x_cont xa)) then Raise TypeError
    else if negb (length (x_labels xa) =? length mask)%nat then Raise IndexError
    else Ok {| x_cont := x_cont xa; x_kind := x_kind xa;
               x_labels := mask_select mask (x_labels xa) |}
  end.

(** [hf_y[nan_values_mask]] *)
Definition mask_y (mask : list bool) (hf_y : option YArr) : result YArr :=
  match hf_y with
  | None => Raise TypeError
  | Some ya =>
    if negb (maskable (y_cont ya)) then Raise TypeError
    else Ok {| y_cont := y_cont ya; y_dtype := y_dtype ya;
               y_vals := mask_select mask (y_vals ya) |}
  end.

(** Lines 423-425: uint8 and uint16 are widened to uint32. *)
Definition widen (ya : YArr) : YArr :=
  match y_cont ya, y_dtype ya with
  | (ndarray | pd_series), (uint8 | uint16) =>
    {| y_cont := y_cont ya; y_dtype := uint32; y_vals := y_vals ya |}
  | _, _ => ya
  end.

(** Lines 428-429: [np.array(hf_hovertext)[nan_values_mask]] for a list, an
    ndarray or a Series; anything else is kept. *)
Definition mask_hovertext (mask : list bool) (h : Hover) : result Hover :=
  let select (l : list (option string)) :=
    if negb (length l =? length mask)%nat then Raise IndexError
    else Ok (HArr ndarray (mask_select mask l)) in
  match h with
  | HArr (py_list | ndarray) l => select l
  | HSeries _ rows => select (map snd rows)
  | _ => Ok h
  end.

(** The body of the [try] at lines 419-429. *)
Definition remove_nans_body : Mut Locals unit :=
  l ← get;
  mask ← lift (nan_values_mask (hf_y l));
  xa ← lift (mask_x mask (hf_x l));
  modify (set_hf_x (Some xa));;
  ya ← lift (mask_y mask (hf_y l));
  modify (set_hf_y (Some ya));;
  modify (set_hf_y (Some (widen ya)));;
  h ← lift (mask_hovertext mask (hf_hovertext l));
  modify (set_hf_hovertext h).

(** [try: ... except: pass]: whatever is raised inside is dropped, the
    assignments made before it stay. *)
Definition try_except_pass {S} (body : Mut S unit) : Mut S unit :=
  λ s, (Ok tt, (body s).2).

Definition remove_nans (l : Locals) : Locals := (try_except_pass remove_nans_body l).2.

(** [len(a)] of a local that may be [None]. *)
Definition len_x (hf_x : option XArr) : result nat :=
  match hf_x with
  | None => Raise TypeError
  | Some xa => Ok (length (x_labels xa))
  end.
Definition len_y (hf_y : option YArr) : result nat :=
  match hf_y with
  | None => Raise TypeError
  | Some ya => Ok (length (y_vals ya))
  end.

(** Lines 439-442: an ndarray of hovertext becomes a Series over [hf_x]. *)
Definition hovertext_series (xa : XArr) (h : Hover) : result Hover :=
  match h with
  | HArr ndarray l =>
    if (length l =? length (x_labels xa))%nat
    then Ok (HSeries (x_kind xa) (zip (x_labels xa) l))
    else Raise ValueError
  | _ => Ok h
  end.

(** [pd.Series(data=hf_y, index=hf_x)] *)
Definition make_series (xa : XArr) (ya : YArr) : Series :=
  {| s_kind := x_kind xa; s_dtype := y_dtype ya; s_samples := zip (x_labels xa) (y_vals ya) |}.

(** Line 470 *)
Definition axis_type_of (xa : XArr) : AxisType :=
  match x_cont xa, x_kind xa with
  | pd_index, DatetimeIndex _ => date
  | _, _ => linear
  end.

(** [x.values if isinstance(x, pd.Series) else x] *)
Definition x_values_of_series (xa : XArr) : XArr :=
  match x_cont xa with
  | pd_series => {| x_cont := ndarray; x_kind := x_kind xa; x_labels := x_labels xa |}
  | _ => xa
  end.
Definition y_values_of_series (ya : YArr) : YArr :=
  match y_cont ya with
  | pd_series => {| y_cont := ndarray; y_dtype := y_dtype ya; y_vals := y_vals ya |}
  | _ => ya
  end.

Definition is_none (h : Hover) : bool :=
  match h with
  | HNone => true
  | _ => false
  end.

Definition high_frequency_traces : list string := ["scatter"; "scattergl"].

Definition is_high_frequency (trace : Trace) : bool :=
  bool_decide (lower (type_ trace) ∈ high_frequency_traces).

(** The state of [add_trace]: [self] and the trace object passed in. *)
Definition on_self {A} (m : Mut FigureResampler A) : Mut (FigureResampler * Trace) A :=
  λ st, let '(r, self') := m st.1 in (r, (self', st.2)).
Definition on_trace {A} (m : Mut Trace A) : Mut (FigureResampler * Trace) A :=
  λ st, let '(r, trace') := m st.2 in (r, (st.1, trace')).

(** [super().add_trace(trace)]: the trace joins [self.data].  (The
    [trace_kwargs], which place the trace in a subplot, are left out.) *)
Definition super_add_trace : Mut (FigureResampler * Trace) unit :=
  st ← get; on_self (modify (set_data (data st.1 ++ [st.2]))).

(** Lines 433-490: the scatter branch after the NaN block. *)
Definition admit_high_frequency (args : AddArgs) (max_n_samples : Z) (l : Locals)
    : Mut (FigureResampler * Trace) unit :=
  n_x ← lift (len_x (hf_x l));
  py_assert (0 <? n_x)%nat;;
  n_y ← lift (len_y (hf_y l));
  py_assert (n_x =? n_y)%nat;;
  match hf_x l, hf_y l with
  | Some xa, Some ya =>
    hf_hovertext ← lift (hovertext_series xa (hf_hovertext l));
    let n_samples := n_x in
    if (Z.of_nat n_samples >? max_n_samples)%Z || a_limit_to_view args then
      let hf_series := make_series xa ya in
      py_assert (is_monotonic_increasing (series_keys hf_series));;
      st ← get;
      (if name st.2 is None
       then on_trace (modify (set_name (Some ("trace " +:+ str_of_nat (length (data st.1))))))
       else mret tt);;
      let d := default (_global_downsampler st.1) (a_downsampler args) in
      on_self (modify (λ self, set_hf_data
        (<[a_uuid4 args := {| max_n_samples := max_n_samples;
                              hf_series := hf_series;
                              axis_type := axis_type_of xa;
                              downsampler := d;
                              e_hovertext := hf_hovertext |}]> (_hf_data self)) self));;
      st ← get;
      on_trace (check_update_trace_data st.1 None None);;
      super_add_trace
    else
      on_trace (modify (set_x (Some xa)));;
      on_trace (modify (set_y (Some ya)));;
      on_trace (modify (set_text hf_hovertext));;
      super_add_trace
  | _, _ => lift (Raise TypeError)
  end.

(** Lines 492-499: every other trace type. *)
Definition admit_other (args : AddArgs) : Mut (FigureResampler * Trace) unit :=
  st ← get;
  on_trace (modify (set_x (if a_hf_x args is Some v then Some v else x st.2)));;
  on_trace (modify (set_y (if a_hf_y args is Some v then Some v else y st.2)));;
  st ← get;
  n_x ← lift (len_x (x st.2));
  py_assert (0 <? n_x)%nat;;
  (* line 498 takes the length of a comparison: an array compared with a
     number is an array of that length, a tuple or list compared with it is
     a bool, which has no length *)
  _ ← lift (len_y (y st.2));
  match x st.2 with
  | Some xa => if maskable (x_cont xa) then mret tt else lift (Raise TypeError)
  | None => lift (Raise TypeError)
  end;;
  super_add_trace.

(** Lines 392-408: the high-frequency data, from the arguments or else from
    the trace. *)
Definition initial_locals (args : AddArgs) (trace : Trace) : Locals :=
  {| hf_x := if a_hf_x args is Some v then Some (x_values_of_series v) else x trace;
     hf_y := if a_hf_y args is Some v then Some (y_values_of_series v) else y trace;
     hf_hovertext :=
       if negb (is_none (a_hf_hovertext args)) then a_hf_hovertext args
       else if negb (is_none (hovertext trace)) then hovertext trace
       else text trace |}.

(** [add_trace] *)
Definition add_trace (args : AddArgs) : Mut (FigureResampler * Trace) unit :=
  st ← get;
  let max_n_samples := default (_global_n_shown_samples st.1) (a_max_n_samples args) in
  on_trace (modify (set_uid (Some (a_uuid4 args))));;
  st ← get;
  let trace := st.2 in
  if is_high_frequency trace then
    let l := initial_locals args trace in
    on_trace (modify (set_text HNone));;
    let l := remove_nans l in
    admit_high_frequency args max_n_samples l
  else admit_other args.

(** ** The default downsampler *)

Fixpoint every_nth {A} (stride countdown : nat) (l : list A) : list A :=
  match l with
  | [] => []
  | a :: l' =>
    match countdown with
    | O => a :: every_nth stride (stride - 1) l'
    | S c => every_nth stride c l'
    end
  end.

(** Modelled from the spec: the module [downsamplers] with the class
    [EveryNthPoint] is not among the sources.  "Every-Nth-point: selects
    samples at a fixed computed stride ceil(len(series)/budget)", with
    "len(result) <= budget": the samples at the positions 0, stride,
    2 * stride, ...  (The spec's "always including the first and last
    sample" cannot be had together with that bound, as five samples and a
    budget of two show, and is not followed for the last sample; a budget
    of zero, for which the spec asks a failure, is not in the range of this
    function.) *)
Definition EveryNthPoint : Downsampler := λ s n_out,
  let n := series_len s in
  let stride := Nat.max 1 (Z.to_nat ((Z.of_nat n + n_out - 1) / n_out)) in
  {| s_kind := s_kind s; s_dtype := s_dtype s;
     s_samples := every_nth stride 0 (s_samples s) |}.

(** ** The constructor *)

(** [__init__]: the store starts empty, the traces of the wrapped figure
    become the data as they are, and the decoration must be a pair.  (The
    verbose flag, which only prints, is left out.) *)
Definition __init__ (figure_data : list Trace) (default_n_shown_samples : Z)
    (default_downsampler : Downsampler) (resampled_trace_prefix_suffix : list string)
    : result FigureResampler :=
  match resampled_trace_prefix_suffix with
  | [prefix; suffix] =>
    Ok {| _hf_data := ∅; _global_n_shown_samples := default_n_shown_samples;
          _prefix := prefix; _suffix := suffix;
          _global_downsampler := default_downsampler; data := figure_data |}
  | _ => Raise AssertionError
  end.

(** ** The callback [update_graph] of [show_dash] *)

(** A value of the [relayoutData] dict: null, a boolean (autorange), or a
    range bound. *)
Inductive LayoutValue :=
  | VNull
  | VBool (b : bool)
  | VBound (b : Bound).

Definition newline : ascii := "010"%char.

(** [\d] on ASCII text *)
Definition is_digit (c : ascii) : bool := char_in c "0123456789".

(** The tail [\d*.] followed by a literal, matched at the start of [s] with
    the backtracking of [re]: any character but a newline may stand for the
    dot, digits before it are skipped. *)
Fixpoint match_digits_dot (literal s : string) : bool :=
  match s with
  | EmptyString => false
  | String c s' =>
    (negb (Ascii.eqb c newline) && startswith s' literal)
    || (is_digit c && match_digits_dot literal s')
  end.

(** [re.compile(r"xaxis\d*.<literal>").match(item) is not None] *)
Definition re_match_axis (literal item : string) : bool :=
  startswith item "xaxis" && match_digits_dot literal (str_drop 5 item).

(** The order of [sorted] on strings. *)
Definition str_le (a b : string) : Prop := String.leb a b = true.

#[export] Instance str_le_dec : RelDecision str_le :=
  λ a b, decide (String.leb a b = true).

(** The inner function [get_matches]: the items that match, sorted. *)
Definition get_matches (literal : string) (strings : list string) : list string :=
  merge_sort str_le (List.filter (re_match_axis literal) strings).

(** [s.split(".")[0]] *)
Fixpoint before_dot (s : string) : string :=
  match s with
  | EmptyString => EmptyString
  | String c s' => if Ascii.eqb c "."%char then EmptyString else String c (before_dot s')
  end.

(** [changed_layout[key]], passed on as a bound.  A boolean is the number 0
    or 1, as it is for [round] and [np.searchsorted] on a linear axis; on a
    date axis [pd.to_datetime] rejects a boolean, which this does not show
    (the front end sends booleans under autorange keys only, and these are
    never passed on as bounds). *)
Definition layout_item (changed_layout : gmap string LayoutValue) (key : string)
    : result (option Bound) :=
  match changed_layout !! key with
  | None => Raise KeyError
  | Some VNull => Ok None
  | Some (VBool b) => Ok (Some (BNum (if b then 1 else 0)))
  | Some (VBound b) => Ok (Some b)
  end.

(** The loop at lines 552-560 over the zipped start and stop keys. *)
Fixpoint update_ranges (self : FigureResampler) (changed_layout : gmap string LayoutValue)
    (pairs : list (string * string)) : Mut FigureDict unit :=
  match pairs with
  | [] => mret tt
  | (t_start_key, t_stop_key) :: rest =>
    py_assert (String.eqb (before_dot t_start_key) (before_dot t_stop_key));;
    start ← lift (layout_item changed_layout t_start_key);
    stop ← lift (layout_item changed_layout t_stop_key);
    check_update_figure_dict self start stop (Some (before_dot t_start_key));;
    update_ranges self changed_layout rest
  end.

(** [update_graph(changed_layout, current_graph)]; the figure dict is the
    state and is what the callback returns.  The keys of the dict are
    visited in the order of the map, which [sorted] makes irrelevant.  (The
    verbose branch, which prints and keeps a reference for debugging, is
    left out.) *)
Definition update_graph (self : FigureResampler)
    (changed_layout : option (gmap string LayoutValue)) : Mut FigureDict unit :=
  match changed_layout with
  | None => mret tt
  | Some changed_layout =>
    if bool_decide (changed_layout = ∅) then mret tt
    else
      let cl_keys := (map_to_list changed_layout).*1 in
      let start_matches := get_matches "range[0]" cl_keys in
      let stop_matches := get_matches "range[1]" cl_keys in
      if negb (length start_matches =? 0)%nat && negb (length stop_matches =? 0)%nat
      then update_ranges self changed_layout (zip start_matches stop_matches)
      else if negb (length (get_matches "autorange" cl_keys) =? 0)%nat
      then check_update_figure_dict self None None None
      else mret tt
  end.

(** * Vocabulary of the properties *)

(** The loop invariant of [bisect]: cells left of [lo] lie before the
    insertion point, cells from [hi] on do not. *)
Definition bracket (side : Side) (a : list Q) (v : Q) (lo hi : nat) : Prop :=
  (lo <= hi <= length a)%nat
  ∧ (∀ i, (i < lo)%nat → before side v (nth i a 0%Q) = true)
  ∧ (∀ i, (hi <= i < length a)%nat → before side v (nth i a 0%Q) = false).

(** The key of one sample of a series. *)
Definition sample_key (s : Series) (p : Q * yval) : Q := key_of (s_kind s) p.1.

(** A series with the same index kind and dtype over other samples. *)
Definition with_samples (s : Series) (l : list (Q * yval)) : Series :=
  {| s_kind := s_kind s; s_dtype := s_dtype s; s_samples := l |}.

Definition numeric_kind (k : index_kind) : bool :=
  match k with
  | DatetimeIndex _ => false
  | _ => true
  end.

(** The number a linear bound stands for: the given one, or the label at
    that end of the index when none is given. *)
Definition given_or (given : option Bound) (label : option Q) : option Q :=
  match given with
  | Some (BNum q) => Some q
  | Some (BTime _) => None
  | None => label
  end.

(** A bound after the rounding that integer indexes get. *)
Definition rounded (k : index_kind) (q : Q) : Q :=
  if is_int_index k then inject_Z (py_round q) else q.

(** The closed interval [[a, b]] of keys, either end possibly open. *)
Definition in_closed (a b : option Q) (key : Q) : bool :=
  from_option (λ a, Qle_bool a key) true a && from_option (λ b, Qle_bool key b) true b.

(** The half-open interval [[a, b)] of keys. *)
Definition in_half_open (a b : Q) (key : Q) : bool := Qle_bool a key && Qlt_bool key b.

(** Timezone handling as the specification words it: a naive bound takes
    the zone of the series with its wall-clock reading kept, a zone-aware
    bound loses its zone when the series is naive, anything else is kept. *)
Definition spec_normalize (series_tz : option tzinfo) (bound : Timestamp) : Timestamp :=
  match series_tz, tz bound with
  | Some z, None => {| wall := wall bound; tz := Some z |}
  | None, Some _ => {| wall := wall bound; tz := None |}
  | _, _ => bound
  end.

(** A zone-aware bound against a series that is zone-aware under another
    [zone] attribute: another name, or a name against [None]. *)
Definition zone_mismatch (series_tz : option tzinfo) (bound : option Timestamp) : bool :=
  match series_tz, bound ≫= tz with
  | Some r, Some z =>
    match zone z, zone r with
    | Ok a, Ok b => negb (bool_decide (a = b))
    | _, _ => false
    end
  | _, _ => false
  end.

(** Where the code compares the zone of a bound with that of the series,
    both carry the attribute [zone]. *)
Definition zones_named (series_tz : option tzinfo) (bound : option Timestamp) : bool :=
  match series_tz, bound ≫= tz with
  | Some r, Some z => is_ok (zone z) && is_ok (zone r)
  | _, _ => true
  end.

Definition once (k : wall_kind) : bool :=
  match k with
  | exists_once => true
  | _ => false
  end.

(** A naive bound under a zone-aware series reads a wall-clock time that
    occurs exactly once in the zone of the series. *)
Definition localizable (series_tz : option tzinfo) (bound : option Timestamp) : bool :=
  match series_tz, bound with
  | Some r, Some ts =>
    match tz ts with
    | None => once (wall_kind_at r (wall ts))
    | Some _ => true
    end
  | _, _ => true
  end.

(** Two bounds, where both are given, are in zones that pandas takes for the
    same. *)
Definition bounds_agree (a b : option Timestamp) : bool :=
  match a, b with
  | Some ta, Some tb => tz_compare (tz ta) (tz tb)
  | _, _ => true
  end.

(** Distance between two keys. *)
Definition dist (a b : Q) : Q := if Qle_bool a b then (b - a)%Q else (a - b)%Q.

(** [out] is the payload of a row whose key is as close to [key] as any
    row's; with no rows there is no payload. *)
Definition nearest_payload {V} (key : Q) (rows : list (Q * V)) (out : option V) : Prop :=
  match rows with
  | [] => out = None
  | _ => ∃ k v, out = Some v ∧ In (k, v) rows
         ∧ ∀ k' v', In (k', v') rows → (dist key k <= dist key k')%Q
  end.

(** The text written for one reduced position: the text of a nearest row of
    the stored hovertext (which may itself be a missing text). *)
Definition nearest_text (key : Q) (rows : list (Q * option string)) (text : option string)
    : Prop :=
  ∃ o, nearest_payload key rows o ∧ text = o ≫= id.

(** The rows of a stored hovertext series, by key. *)
Definition hover_rows (k : index_kind) (h : list (Q * option string))
    : list (Q * option string) :=
  map (λ p, (key_of k p.1, p.2)) h.

(** Whether the view of a trace exceeds the budget of its entry. *)
Definition view_exceeds (self : FigureResampler) (start end_ : option Bound) (t : Trace)
    : bool :=
  match _query_hf_data self t with
  | Some hf_data =>
    match slice_view hf_data start end_ with
    | Ok view => (Z.of_nat (series_len view) >? max_n_samples hf_data)%Z
    | Raise _ => false
    end
  | None => false
  end.

(** The name of a trace needs no further stripping. *)
Definition name_settled (self : FigureResampler) (t : Trace) : Prop :=
  ∀ n, name t = Some n → strippable (_prefix self) (_suffix self) n = false.

(** The trace after the name, x and y assignments of the synchronizer. *)
Definition with_view (self : FigureResampler) (hf_data : HFEntry) (view : Series)
    (n : string) (t : Trace) : Trace :=
  let s_res := downsampler hf_data view (max_n_samples hf_data) in
  set_y (Some (series_values s_res))
    (set_x (Some (series_index s_res))
       (set_name (Some (updated_name self hf_data view n)) t)).

(** *** Admission *)

(** The trace once [add_trace] has stamped it with the drawn uuid. *)
Definition tagged (args : AddArgs) (trace : Trace) : Trace :=
  set_uid (Some (a_uuid4 args)) trace.

(** The local variables after the NaN block. *)
Definition admission_locals (args : AddArgs) (trace : Trace) : Locals :=
  remove_nans (initial_locals args (tagged args trace)).

(** The budget in force: the argument, or else the default of the figure. *)
Definition budget (args : AddArgs) (self : FigureResampler) : Z :=
  default (_global_n_shown_samples self) (a_max_n_samples args).

(** The condition of line 447 on [n] samples. *)
Definition to_store (args : AddArgs) (self : FigureResampler) (n : nat) : bool :=
  (Z.of_nat n >? budget args self)%Z || a_limit_to_view args.

(** The entry of lines 472-478. *)
Definition new_entry (args : AddArgs) (self : FigureResampler) (xa : XArr) (ya : YArr)
    (h : Hover) : HFEntry :=
  {| max_n_samples := budget args self;
     hf_series := make_series xa ya;
     axis_type := axis_type_of xa;
     downsampler := default (_global_downsampler self) (a_downsampler args);
     e_hovertext := h |}.

Definition register (args : AddArgs) (self : FigureResampler) (e : HFEntry)
    : FigureResampler :=
  set_hf_data (<[a_uuid4 args := e]> (_hf_data self)) self.

(** Lines 464-465: a trace without a name is named after its position. *)
Definition with_default_name (self : FigureResampler) (t : Trace) : Trace :=
  if name t is None
  then set_name (Some ("trace " +:+ str_of_nat (length (data self)))) t
  else t.

(** The checks of lines 433-442 pass on the locals, with these arrays and
    this hovertext as outcome. *)
Definition checked (l : Locals) (xa : XArr) (ya : YArr) (h : Hover) : Prop :=
  hf_x l = Some xa ∧ hf_y l = Some ya
  ∧ (0 < length (x_labels xa))%nat
  ∧ length (x_labels xa) = length (y_vals ya)
  ∧ hovertext_series xa (hf_hovertext l) = Ok h.

(** The trace shown without resampling (lines 487-489). *)
Definition raw_trace (args : AddArgs) (trace : Trace) (xa : XArr) (ya : YArr) (h : Hover)
    : Trace :=
  set_text h (set_y (Some ya) (set_x (Some xa) (set_text HNone (tagged args trace)))).

(** The trace of another type with [hf_x] and [hf_y] merged in (lines 495-496). *)
Definition merged_trace (args : AddArgs) (trace : Trace) : Trace :=
  set_y (if a_hf_y args is Some v then Some v else y trace)
    (set_x (if a_hf_x args is Some v then Some v else x trace) (tagged args trace)).

(** A store holds only entries with at least one sample and sorted keys. *)
Definition valid_entry (e : HFEntry) : Prop :=
  s_samples (hf_series e) ≠ []
  ∧ is_monotonic_increasing (series_keys (hf_series e)) = true.

(** The mask of the NaN block on the cells of an array. *)
Definition not_nan_mask (ya : YArr) : list bool := map (λ v, negb (isnan v)) (y_vals ya).

(** The (position, value) pairs of two arrays, without the NaN values. *)
Definition non_nan_pairs (xa : XArr) (ya : YArr) : list (Q * yval) :=
  List.filter (λ p, negb (isnan p.2)) (zip (x_labels xa) (y_vals ya)).

(** A hovertext that the NaN block treats as an array. *)
Definition hover_cells (h : Hover) : option (list (option string)) :=
  match h with
  | HArr (py_list | ndarray) l => Some l
  | HSeries _ rows => Some (map snd rows)
  | _ => None
  end.

(** *** The batch update *)

Fixpoint all_digits (s : string) : bool :=
  match s with
  | EmptyString => true
  | String c s' => char_in c "0123456789" && all_digits s'
  end.

(** The x-axis a trace belongs to by plotly's rules: the anchor of its
    y-axis, where a trace that names no y-axis is on the first one, ["y"],
    and a y-axis without anchor is anchored to the first x-axis, ["x"]. *)
Definition plotly_anchor (layout : gmap string AxisLayout) (t : Trace) : string :=
  let ya := default "y" (yaxis t) in
  match layout !! ("yaxis" +:+ str_drop 1 ya) with
  | Some ax => default "x" (anchor ax)
  | None => "x"
  end.

(** The rule that the loop applies for the x-axis numbered [d] (empty for
    the first): the layout entry looked at is that of the y-axis of the
    trace and, for a trace that names none, that of the y-axis numbered
    [d]; the trace is taken when the entry is anchored to the x-axis
    numbered [d], or, for the first x-axis, has no anchor. *)
Definition filter_rule (layout : gmap string AxisLayout) (d : string) (t : Trace)
    : result bool :=
  let y_axis := match yaxis t with
                | None => "yaxis" +:+ d
                | Some ya => "yaxis" +:+ str_drop 1 ya
                end in
  match layout !! y_axis with
  | None => Raise KeyError
  | Some ax =>
    Ok (if nonempty d
        then bool_decide (anchor ax = Some ("x" +:+ d))
        else bool_decide (anchor ax = None) || bool_decide (anchor ax = Some "x"))
  end.

(** *** The callback *)

(** The layout name of the x-axis with the number [d] (empty for the first
    one), and a key of the event dict below an axis. *)
Definition xaxis (d : string) : string := "xaxis" +:+ d.
Definition axis_key (axis field : string) : string := axis +:+ "." +:+ field.

(** * Concrete objects for the examples *)

Definition dquote : string := String "034"%char "".

(** The default [resampled_trace_prefix_suffix] of the constructor. *)
Definition default_prefix : string :=
  "<b style=" +:+ dquote +:+ "color:sandybrown" +:+ dquote +:+ ">[R]</b> ".
Definition default_suffix : string := "".

(** A figure with the default decoration and one with the prefix and suffix
    that the test-suite passes; a budget of two samples keeps the data small. *)
Definition fig_default : FigureResampler :=
  {| _hf_data := ∅; _global_n_shown_samples := 2;
     _prefix := default_prefix; _suffix := default_suffix;
     _global_downsampler := EveryNthPoint; data := [] |}.

Definition fig_tests : FigureResampler :=
  {| _hf_data := ∅; _global_n_shown_samples := 2;
     _prefix := "<b>[r]</b>"; _suffix := "~~";
     _global_downsampler := EveryNthPoint; data := [] |}.

Definition empty_trace (kind : string) (name : option string) : Trace :=
  {| uid := None; type_ := kind; name := name; x := None; y := None;
     text := HNone; hovertext := HNone; yaxis := None |}.

Definition no_args (uuid : string) : AddArgs :=
  {| a_max_n_samples := None; a_downsampler := None; a_limit_to_view := false;
     a_hf_x := None; a_hf_y := None; a_hf_hovertext := HNone; a_uuid4 := uuid |}.

Definition int_array (l : list Q) : XArr :=
  {| x_cont := ndarray; x_kind := Int64Index; x_labels := l |}.
Definition float_array (l : list yval) : YArr :=
  {| y_cont := ndarray; y_dtype := float64; y_vals := l |}.

(** Five points at positions 0..4. *)
Definition five_x : XArr := int_array [0; 1; 2; 3; 4]%Q.
Definition five_y : YArr := float_array [Num 10; Num 20; Num 30; Num 40; Num 50].

Definition five_args (uuid : string) : AddArgs :=
  {| a_max_n_samples := None; a_downsampler := None; a_limit_to_view := false;
     a_hf_x := Some five_x; a_hf_y := Some five_y; a_hf_hovertext := HNone;
     a_uuid4 := uuid |}.

(** Three points at positions 0, 1, 2, on an integer and on a time index. *)
Definition three_samples : list (Q * yval) := [(0, Num 10); (1, Num 20); (2, Num 30)]%Q.
Definition int_series : Series :=
  {| s_kind := Int64Index; s_dtype := float64; s_samples := three_samples |}.
Definition naive_time_series : Series :=
  {| s_kind := DatetimeIndex None; s_dtype := float64; s_samples := three_samples |}.

Definition naive (w : Q) : Timestamp := {| wall := w; tz := None |}.

(** Two zones of the test-suite, at their winter offsets (seconds here). *)
Definition UTC : tzinfo := pytz_zone "UTC" (λ _, 0%Q) (λ _, exists_once).
Definition Brussels : tzinfo :=
  pytz_zone "Europe/Brussels" (λ _, 3600%Q) (λ _, exists_once).
Definition utc_series : Series :=
  {| s_kind := DatetimeIndex (Some UTC); s_dtype := float64; s_samples := three_samples |}.

Definition entry_of (s : Series) (a : AxisType) (budget : Z) (h : Hover) : HFEntry :=
  {| max_n_samples := budget; hf_series := s; axis_type := a;
     downsampler := EveryNthPoint; e_hovertext := h |}.

(** A store with one entry under the uid ["u"]: the three integer positions,
    a budget of five, so that every view is within budget. *)
Definition small_store (self : FigureResampler) (h : Hover) : FigureResampler :=
  set_hf_data {["u" := entry_of int_series linear 5 h]} self.

Definition stored_trace (name : string) (h : Hover) : Trace :=
  {| uid := Some "u"; type_ := "scatter"; name := Some name; x := None; y := None;
     text := HNone; hovertext := h; yaxis := None |}.

(** Hovertext stored per position, at the positions 0, 1, 2. *)
Definition three_texts : Hover :=
  HSeries Int64Index [(0, Some "zero"); (1, Some "one"); (2, Some "two")]%Q.

(** The values 1, NaN, 3 at the positions 0, 1, 2, as float cells and as
    cells of an object array; [limit_to_view] has the trace stored. *)
Definition nan_x : XArr := int_array [0; 1; 2]%Q.
Definition nan_y (d : dtype) : YArr :=
  {| y_cont := ndarray; y_dtype := d; y_vals := [Num 1; NaN; Num 3] |}.
Definition nan_args (d : dtype) : AddArgs :=
  {| a_max_n_samples := None; a_downsampler := None; a_limit_to_view := true;
     a_hf_x := Some nan_x; a_hf_y := Some (nan_y d);
     a_hf_hovertext := HArr py_list [Some "a"; Some "b"; Some "c"]; a_uuid4 := "u" |}.

(** Two points whose positions go down, within the budget of two. *)
Definition unsorted_args : AddArgs :=
  {| a_max_n_samples := None; a_downsampler := None; a_limit_to_view := false;
     a_hf_x := Some (int_array [2; 1]%Q); a_hf_y := Some (float_array [Num 10; Num 20]);
     a_hf_hovertext := HNone; a_uuid4 := "u" |}.

(** Values that are all NaN: nothing is left after the NaN block. *)
Definition all_nan_args : AddArgs :=
  {| a_max_n_samples := None; a_downsampler := None; a_limit_to_view := false;
     a_hf_x := Some (int_array [0; 1]%Q); a_hf_y := Some (float_array [NaN; NaN]);
     a_hf_hovertext := HNone; a_uuid4 := "u" |}.

(** A figure with two x-axes: the first trace names no axis (it is on the
    first subplot), the second is on the second y-axis. *)
Definition two_axis_layout : gmap string AxisLayout :=
  {[ "yaxis" := {| anchor := Some "x" |}; "yaxis2" := {| anchor := Some "x2" |} ]}.

Definition two_axis_store : FigureResampler :=
  set_hf_data {[ "u" := entry_of int_series linear 5 HNone;
                 "v" := entry_of int_series linear 5 HNone ]} fig_default.

Definition first_subplot_trace : Trace :=
  {| uid := Some "u"; type_ := "scatter"; name := Some "a"; x := None; y := None;
     text := HNone; hovertext := HNone; yaxis := None |}.
Definition second_subplot_trace : Trace :=
  {| uid := Some "v"; type_ := "scatter"; name := Some "b"; x := None; y := None;
     text := HNone; hovertext := HNone; yaxis := Some "y2" |}.

Definition two_axis_figure : FigureDict :=
  {| fd_data := [first_subplot_trace; second_subplot_trace]; fd_layout := two_axis_layout |}.

(** A store with one entry under the uid ["u"]: five samples at the
    positions 0..4 and a budget of two, so that the full extent exceeds the
    budget and the range from 1 to 3 does not. *)
Definition five_series : Series :=
  {| s_kind := Int64Index; s_dtype := float64;
     s_samples := [(0, Num 10); (1, Num 20); (2, Num 30); (3, Num 40); (4, Num 50)]%Q |}.

Definition five_store : FigureResampler :=
  set_hf_data {["u" := entry_of five_series linear 2 HNone]} fig_default.

(** A store with one entry on a time axis in UTC. *)
Definition utc_store : FigureResampler :=
  set_hf_data {["u" := entry_of utc_series date 5 HNone]} fig_default.

(** A uint8 array, and a list where an array is expected. *)
Definition uint8_y : YArr :=
  {| y_cont := ndarray; y_dtype := uint8; y_vals := [Num 1; Num 2; Num 3] |}.
Definition list_y : YArr :=
  {| y_cont := py_list; y_dtype := float64; y_vals := [Num 1; NaN; Num 3] |}.
Definition list_y_args : AddArgs :=
  {| a_max_n_samples := None; a_downsampler := None; a_limit_to_view := false;
     a_hf_x := Some nan_x; a_hf_y := Some list_y; a_hf_hovertext := HNone;
     a_uuid4 := "u" |}.

(** A store with a time series in UTC under ["t"] and the integer series
    under ["u"], and a figure dict whose first trace is the time trace and
    whose other two are on the integer series. *)
Definition mixed_store : FigureResampler :=
  set_hf_data {[ "t" := entry_of utc_series date 5 HNone;
                 "u" := entry_of int_series linear 5 HNone ]} fig_default.

Definition time_trace : Trace :=
  {| uid := Some "t"; type_ := "scatter"; name := Some "time"; x := None; y := None;
     text := HNone; hovertext := HNone; yaxis := None |}.

Definition mixed_figure : FigureDict :=
  {| fd_data := [time_trace; stored_trace "a" HNone; stored_trace "b" HNone];
     fd_layout := ∅ |}.

Definition one_utc : Bound := BTime {| wall := 1; tz := Some UTC |}.

(** Events of the graph: a zoom on the second x-axis (with the y-range that
    the browser sends along), a reset of the axes, a pan of the y-axis only,
    and an event that carries the start of one axis and the stop of
    another. *)
Definition zoom_event : gmap string LayoutValue :=
  {[ "xaxis2.range[0]" := VBound (BNum 1); "xaxis2.range[1]" := VBound (BNum 3);
     "yaxis2.range[0]" := VBound (BNum 0) ]}.

Definition reset_event : gmap string LayoutValue :=
  {[ "xaxis.autorange" := VBool true; "xaxis2.autorange" := VBool true;
     "yaxis.autorange" := VBool true ]}.

Definition y_event : gmap string LayoutValue :=
  {[ "yaxis.range[0]" := VBound (BNum 0); "yaxis.range[1]" := VBound (BNum 1) ]}.

Definition crossed_event : gmap string LayoutValue :=
  {[ "xaxis.range[0]" := VBound (BNum 1); "xaxis2.range[1]" := VBound (BNum 3) ]}.


(** A named zone whose clocks are set forward by an hour at the reading 100:
    the readings from 100 up to 3700 do not occur. *)
Definition spring_zone : tzinfo :=
  pytz_zone "Europe/Brussels"
    (λ w, if Qlt_bool w 100 then 3600%Q else 7200%Q)
    (λ w, if Qle_bool 100 w && Qlt_bool w 3700 then nonexistent else exists_once).
Definition spring_series : Series :=
  {| s_kind := DatetimeIndex (Some spring_zone); s_dtype := float64;
     s_samples := three_samples |}.

(** The three samples at the readings 2, 0, 1. *)
Definition unsorted_time_series : Series :=
  {| s_kind := DatetimeIndex None; s_dtype := float64;
     s_samples := [(2, Num 30); (0, Num 10); (1, Num 20)]%Q |}.

(** A bar trace built from Python lists, which plotly keeps as tuples, and a
    histogram that has an x only. *)
Definition tuple_x : XArr :=
  {| x_cont := py_tuple; x_kind := Int64Index; x_labels := [0; 1; 2]%Q |}.
Definition tuple_y : YArr :=
  {| y_cont := py_tuple; y_dtype := float64; y_vals := [Num 10; Num 20; Num 30] |}.
Definition tuple_bar : Trace :=
  {| uid := None; type_ := "bar"; name := Some "b"; x := Some tuple_x; y := Some tuple_y;
     text := HNone; hovertext := HNone; yaxis := None |}.
Definition histogram : Trace :=
  {| uid := None; type_ := "histogram"; name := Some "h"; x := Some nan_x; y := None;
     text := HNone; hovertext := HNone; yaxis := None |}.

(** Two values for three positions. *)
Definition two_y : YArr := float_array [Num 10; Num 20].
Definition short_y_args : AddArgs :=
  {| a_max_n_samples := None; a_downsampler := None; a_limit_to_view := false;
     a_hf_x := Some nan_x; a_hf_y := Some two_y; a_hf_hovertext := HNone;
     a_uuid4 := "u" |}.

(** * Properties *)

(** ** Strings *)

Lemma append_cons (c : ascii) (s t : string) : String c s +:+ t = String c (s +:+ t).
Proof. reflexivity. Qed.

Lemma append_empty_l (s : string) : "" +:+ s = s.
Proof. reflexivity. Qed.

Lemma append_empty_r (s : string) : s +:+ "" = s.
Proof. induction s as [|c s IH]; [done | by rewrite append_cons, IH]. Qed.

Lemma length_append (a b : string) :
  String.length (a +:+ b) = (String.length a + String.length b)%nat.
Proof.
  induction a as [|c a IH]; [done |]. rewrite append_cons. simpl. by rewrite IH.
Qed.

Lemma startswith_append (p s : string) : startswith (p +:+ s) p = true.
Proof.
  unfold startswith. induction p as [|c p IH].
  - rewrite append_empty_l. by destruct s.
  - rewrite append_cons. simpl. destruct (ascii_dec c c); [done | congruence].
Qed.

Lemma startswith_append_r (s p t : string) :
  startswith s p = true → startswith (s +:+ t) p = true.
Proof.
  unfold startswith. revert s. induction p as [|c p IH]; intros s H; simpl in *.
  - by destruct (s +:+ t).
  - destruct s as [|d s]; [done |]. rewrite append_cons. simpl in *.
    destruct (ascii_dec c d); [by apply IH | done].
Qed.

Lemma str_drop_append (a b : string) : str_drop (String.length a) (a +:+ b) = b.
Proof. induction a as [|c a IH]; [done | rewrite append_cons; exact IH]. Qed.

Lemma endswith_append (s p : string) : endswith (s +:+ p) p = true.
Proof.
  unfold endswith. rewrite length_append.
  apply andb_true_iff. split.
  - apply Nat.leb_le. lia.
  - replace (String.length s + String.length p - String.length p)%nat
      with (String.length s) by lia.
    rewrite str_drop_append. apply String.eqb_refl.
Qed.

Lemma startswith_empty (s : string) : startswith s "" = true.
Proof. unfold startswith. by destruct s. Qed.

Lemma str_drop_all (s : string) : str_drop (String.length s) s = "".
Proof. induction s as [|c s IH]; simpl; [done | exact IH]. Qed.

Lemma endswith_empty (s : string) : endswith s "" = true.
Proof.
  unfold endswith. simpl. rewrite Nat.sub_0_r, str_drop_all. done.
Qed.

(** ** Name decoration *)

(** The aggregated branch always leaves a name that starts with the prefix
    and ends with the suffix. *)
Lemma decorate_name_decorated (prefix suffix name : string) :
  decorated prefix suffix (decorate_name prefix suffix name) = true.
Proof.
  unfold decorated, decorate_name.
  set (n1 := (if startswith name prefix then "" else prefix) +:+ name).
  assert (H1 : startswith n1 prefix = true).
  { unfold n1. destruct (startswith name prefix) eqn:E; [done |].
    apply startswith_append. }
  apply andb_true_iff. split.
  - by apply startswith_append_r.
  - destruct (endswith n1 suffix) eqn:E; cbn [negb].
    + by rewrite append_empty_r.
    + apply endswith_append.
Qed.

(** On a decorated name the aggregated branch changes nothing. *)
Lemma decorate_name_fixed (prefix suffix name : string) :
  decorated prefix suffix name = true → decorate_name prefix suffix name = name.
Proof.
  unfold decorated, decorate_name. intros [H1 H2]%andb_true_iff.
  rewrite H1, append_empty_l, H2. cbn [negb]. apply append_empty_r.
Qed.

(** Decorating is idempotent: the prefix and suffix are never doubled. *)
Lemma decorate_name_idempotent (prefix suffix name : string) :
  decorate_name prefix suffix (decorate_name prefix suffix name)
  = decorate_name prefix suffix name.
Proof. apply decorate_name_fixed, decorate_name_decorated. Qed.

(** The other branch changes a name exactly when it is still strippable. *)
Lemma undecorate_name_fixed (prefix suffix name : string) :
  strippable prefix suffix name = false → undecorate_name prefix suffix name = name.
Proof.
  unfold strippable, undecorate_name, strip_suffix_assign, strip_prefix_assign.
  intros [H1 H2]%orb_false_iff. by rewrite H1, H2.
Qed.

Lemma str_drop_length (n : nat) (s : string) :
  String.length (str_drop n s) = (String.length s - n)%nat.
Proof.
  revert s. induction n as [|n IH]; intros [|c s]; simpl; try done.
Qed.

Lemma str_take_length (n : nat) (s : string) :
  String.length (str_take n s) = Nat.min n (String.length s).
Proof.
  revert s. induction n as [|n IH]; intros [|c s]; simpl; try done.
  by rewrite IH.
Qed.

Lemma nonempty_length (s : string) : nonempty s = true → (0 < String.length s)%nat.
Proof.
  unfold nonempty. destruct (String.length s); simpl; [done | lia].
Qed.

Lemma endswith_length (s p : string) :
  endswith s p = true → (String.length p <= String.length s)%nat.
Proof. unfold endswith. intros [H _]%andb_true_iff. by apply Nat.leb_le in H. Qed.

Lemma startswith_length (s p : string) :
  startswith s p = true → (String.length p <= String.length s)%nat.
Proof.
  unfold startswith. revert s. induction p as [|c p IH]; intros s H; simpl in *.
  - lia.
  - destruct s as [|d s]; [done |]. simpl in H.
    destruct (ascii_dec c d); [|done].
    apply IH in H. simpl. lia.
Qed.

(** Conversely, on a strippable name the branch writes a shorter name. *)
Lemma undecorate_name_shorter (prefix suffix name : string) :
  strippable prefix suffix name = true →
  (String.length (undecorate_name prefix suffix name) < String.length name)%nat.
Proof.
  unfold strippable, undecorate_name, strip_suffix_assign, strip_prefix_assign.
  intros H.
  destruct (nonempty suffix && endswith name suffix) eqn:E2.
  - apply andb_true_iff in E2 as [Hn He].
    apply nonempty_length in Hn. apply endswith_length in He.
    rewrite str_take_length. lia.
  - rewrite orb_false_r in H. rewrite H.
    apply andb_true_iff in H as [Hn Hs].
    apply nonempty_length in Hn. apply startswith_length in Hs.
    rewrite str_drop_length. lia.
Qed.

(** ** Sorted keys and the binary search *)

Lemma Qlt_bool_iff (a b : Q) : Qlt_bool a b = true ↔ (a < b)%Q.
Proof.
  unfold Qlt_bool. rewrite negb_true_iff. split.
  - intros H. apply Qnot_le_lt. intros Hle. apply Qle_bool_iff in Hle. congruence.
  - intros H. destruct (Qle_bool b a) eqn:E; [|done].
    apply Qle_bool_iff in E. exfalso. by apply (Qlt_not_le a b).
Qed.

(** A smaller cell lies before the insertion point whenever a larger does. *)
Lemma before_downward (side : Side) (v c c' : Q) :
  (c <= c')%Q → before side v c' = true → before side v c = true.
Proof.
  intros Hle. destruct side; simpl.
  - rewrite !Qlt_bool_iff. intros H. by apply Qle_lt_trans with c'.
  - rewrite !Qle_bool_iff. intros H. by apply Qle_trans with c'.
Qed.

Lemma monotonic_cons (a : Q) (l : list Q) :
  is_monotonic_increasing (a :: l) = true →
  is_monotonic_increasing l = true ∧ ∀ b, In b l → (a <= b)%Q.
Proof.
  revert a. induction l as [|b l IH]; intros a H.
  - split; [done | intros ? []].
  - simpl in H. apply andb_true_iff in H as [Hab Hl].
    apply Qle_bool_iff in Hab. split; [exact Hl |].
    intros c [<- | Hc]; [exact Hab |].
    apply Qle_trans with b; [exact Hab |].
    by apply (IH b Hl).
Qed.

(** [is_monotonic_increasing] orders any two positions of the list. *)
Lemma monotonic_nth (l : list Q) (i j : nat) :
  is_monotonic_increasing l = true →
  (i <= j)%nat → (j < length l)%nat → (nth i l 0 <= nth j l 0)%Q.
Proof.
  revert i j. induction l as [|a l IH]; intros i j Hm Hij Hj; simpl in Hj; [lia |].
  apply monotonic_cons in Hm as [Hl Ha].
  destruct i as [|i], j as [|j]; simpl; try lia.
  - apply Qle_refl.
  - apply Ha, nth_In. lia.
  - apply IH; [done | lia | lia].
Qed.

Section bisect.
Context (side : Side) (a : list Q) (v : Q).
Hypothesis sorted : is_monotonic_increasing a = true.

Lemma bisect_step (fuel lo hi : nat) :
  bisect side (S fuel) a v lo hi =
  if (lo <? hi)%nat then
    if before side v (nth (lo + (hi - lo) / 2) a 0%Q)
    then bisect side fuel a v (S (lo + (hi - lo) / 2)) hi
    else bisect side fuel a v lo (lo + (hi - lo) / 2)
  else lo.
Proof. reflexivity. Qed.

Lemma bisect_bracket (fuel lo hi : nat) :
  bracket side a v lo hi → (hi - lo <= fuel)%nat →
  let r := bisect side fuel a v lo hi in bracket side a v r r.
Proof using sorted.
  revert lo hi. induction fuel as [|fuel IH]; intros lo hi (Hb & Hlo & Hhi) Hf.
  - simpl. assert (lo = hi) as -> by lia. by repeat split; try lia.
  - cbv zeta. rewrite bisect_step.
    destruct (Nat.ltb_spec lo hi) as [Hlt | Hge].
    + set (mid := (lo + (hi - lo) / 2)%nat).
      assert (Hmid : (lo <= mid < hi)%nat).
      { unfold mid. pose proof (Nat.div_mod_eq (hi - lo) 2).
        pose proof (Nat.mod_upper_bound (hi - lo) 2). lia. }
      destruct (before side v (nth mid a 0%Q)) eqn:E.
      * apply IH; [|lia]. repeat split; try lia; [|exact Hhi].
        intros i Hi. apply before_downward with (nth mid a 0%Q); [|exact E].
        apply monotonic_nth; [exact sorted | lia | lia].
      * apply IH; [|lia]. repeat split; try lia; [exact Hlo |].
        intros i Hi. destruct (before side v (nth i a 0%Q)) eqn:E'; [|done].
        rewrite <- E. symmetry. apply before_downward with (nth i a 0%Q); [|exact E'].
        apply monotonic_nth; [exact sorted | lia | lia].
    + assert (lo = hi) as -> by lia. by repeat split; try lia.
Qed.

(** On sorted cells [searchsorted] returns the boundary: every cell before
    it lies before the insertion point and no cell from it on does. *)
Lemma searchsorted_bracket :
  let r := searchsorted a v side in bracket side a v r r.
Proof using sorted.
  unfold searchsorted. apply bisect_bracket; [|lia].
  repeat split; intros; lia.
Qed.
End bisect.

(** A position that splits a list into the cells that satisfy [P] and those
    that do not is the number of cells that satisfy it. *)
Lemma take_drop_boundary {A} (P : A → bool) (l : list A) (r : nat) :
  (∀ i y, l !! i = Some y → (i < r)%nat → P y = true) →
  (∀ i y, l !! i = Some y → (r <= i)%nat → P y = false) →
  take r l = List.filter P l ∧ drop r l = List.filter (λ y, negb (P y)) l.
Proof.
  revert r. induction l as [|y l IH]; intros r Hlt Hge.
  - by destruct r.
  - destruct r as [|r].
    + assert (Hy : P y = false) by (apply (Hge 0%nat); [done | lia]).
      destruct (IH 0%nat) as [IH1 IH2].
      { intros i z Hz Hi. lia. }
      { intros i z Hz _. apply (Hge (S i)); [done | lia]. }
      simpl. rewrite Hy. simpl. split; [by rewrite <- IH1; destruct l |].
      f_equal. rewrite <- IH2. by destruct l.
    + assert (Hy : P y = true) by (apply (Hlt 0%nat); [done | lia]).
      destruct (IH r) as [IH1 IH2].
      { intros i z Hz Hi. apply (Hlt (S i)); [done | lia]. }
      { intros i z Hz Hi. apply (Hge (S i)); [done | lia]. }
      simpl. rewrite Hy. simpl. by rewrite IH1, IH2.
Qed.

(** ** Slices of a sorted series *)

Lemma filter_filter_and {A} (P R : A → bool) (l : list A) :
  List.filter R (List.filter P l) = List.filter (λ y, P y && R y) l.
Proof.
  induction l as [|y l IH]; simpl; [done |].
  destruct (P y); simpl; [|exact IH].
  destruct (R y); by rewrite IH.
Qed.

Lemma series_keys_nth (s : Series) (i : nat) (p : Q * yval) :
  s_samples s !! i = Some p →
  nth i (series_keys s) 0%Q = key_of (s_kind s) p.1 ∧ (i < length (series_keys s))%nat.
Proof.
  intros H. unfold series_keys. split.
  - revert i H. induction (s_samples s) as [|y l IH]; intros [|i] H; simpl in *;
      try done; [by inversion H | by apply IH].
  - rewrite length_map. by apply lookup_lt_Some in H.
Qed.

Section sorted_series.
Context (s : Series).
Hypothesis sorted : is_monotonic_increasing (series_keys s) = true.

(** Between two searched positions lie exactly the samples whose key is
    not before the first insertion point and is before the second. *)
Lemma iloc_searchsorted (a b : Q) (sa sb : Side) :
  s_samples (iloc s (searchsorted (series_keys s) a sa)
                    (searchsorted (series_keys s) b sb))
  = List.filter (λ p, negb (before sa a (sample_key s p)) && before sb b (sample_key s p)) (s_samples s).
Proof using sorted.
  destruct (searchsorted_bracket sa (series_keys s) a sorted) as (Ha & Ha1 & Ha2).
  destruct (searchsorted_bracket sb (series_keys s) b sorted) as (Hb & Hb1 & Hb2).
  set (lo := searchsorted (series_keys s) a sa) in *.
  set (hi := searchsorted (series_keys s) b sb) in *.
  unfold iloc. simpl.
  destruct (take_drop_boundary (λ p, before sa a (sample_key s p)) (s_samples s) lo) as [_ Hdrop].
  { intros i p Hp Hi. cbv beta. unfold sample_key. destruct (series_keys_nth s i p Hp) as [<- _]. by apply Ha1. }
  { intros i p Hp Hi. cbv beta. unfold sample_key. destruct (series_keys_nth s i p Hp) as [<- Hlen].
    apply Ha2. lia. }
  destruct (take_drop_boundary (λ p, before sb b (sample_key s p)) (drop lo (s_samples s))
              (hi - lo)) as [Htake _].
  { intros i p Hp Hi. cbv beta. unfold sample_key. rewrite lookup_drop in Hp.
    destruct (series_keys_nth s _ p Hp) as [<- _]. apply Hb1. lia. }
  { intros i p Hp Hi. cbv beta. unfold sample_key. rewrite lookup_drop in Hp.
    destruct (series_keys_nth s _ p Hp) as [<- Hlen]. apply Hb2. lia. }
  rewrite Htake, Hdrop. apply filter_filter_and.
Qed.

(** When a bound is left open on a time axis the samples run to that end. *)
Lemma iloc_from_start (b : Q) (sb : Side) :
  s_samples (iloc s 0 (searchsorted (series_keys s) b sb))
  = List.filter (λ p, before sb b (sample_key s p)) (s_samples s).
Proof using sorted.
  destruct (searchsorted_bracket sb (series_keys s) b sorted) as (Hb & Hb1 & Hb2).
  set (hi := searchsorted (series_keys s) b sb) in *.
  unfold iloc. simpl. rewrite Nat.sub_0_r.
  destruct (take_drop_boundary (λ p, before sb b (sample_key s p)) (s_samples s) hi) as [Htake _].
  { intros i p Hp Hi. cbv beta. unfold sample_key. destruct (series_keys_nth s i p Hp) as [<- _]. by apply Hb1. }
  { intros i p Hp Hi. cbv beta. unfold sample_key. destruct (series_keys_nth s i p Hp) as [<- Hlen].
    apply Hb2. lia. }
  exact Htake.
Qed.

Lemma iloc_to_end (a : Q) (sa : Side) :
  s_samples (iloc s (searchsorted (series_keys s) a sa) (series_len s))
  = List.filter (λ p, negb (before sa a (sample_key s p))) (s_samples s).
Proof using sorted.
  destruct (searchsorted_bracket sa (series_keys s) a sorted) as (Ha & Ha1 & Ha2).
  set (lo := searchsorted (series_keys s) a sa) in *.
  unfold iloc, series_len. simpl.
  destruct (take_drop_boundary (λ p, before sa a (sample_key s p)) (s_samples s) lo) as [_ Hdrop].
  { intros i p Hp Hi. cbv beta. unfold sample_key. destruct (series_keys_nth s i p Hp) as [<- _]. by apply Ha1. }
  { intros i p Hp Hi. cbv beta. unfold sample_key. destruct (series_keys_nth s i p Hp) as [<- Hlen].
    apply Ha2. lia. }
  rewrite <- Hdrop. apply take_ge. rewrite length_drop. lia.
Qed.
End sorted_series.

Lemma iloc_all (s : Series) : iloc s 0 (series_len s) = s.
Proof.
  unfold iloc, series_len. destruct s as [k d l]. simpl. f_equal.
  rewrite Nat.sub_0_r. apply take_ge. done.
Qed.

(** ** The two slicers *)

Lemma iloc_with_samples (s : Series) (lo hi : nat) :
  iloc s lo hi = with_samples s (s_samples (iloc s lo hi)).
Proof. reflexivity. Qed.

Lemma filter_all {A} (P : A → bool) (l : list A) :
  (∀ y, P y = true) → List.filter P l = l.
Proof.
  intros H. induction l as [|y l IH]; simpl; [done |]. by rewrite H, IH.
Qed.

Lemma key_of_numeric (k : index_kind) (q : Q) : numeric_kind k = true → key_of k q = q.
Proof. by destruct k. Qed.

Lemma key_of_bound_numeric (k : index_kind) (q : Q) :
  numeric_kind k = true → key_of_bound k (BNum q) = Ok q.
Proof. by destruct k. Qed.

Lemma index_item_numeric (k : index_kind) (q : Q) :
  numeric_kind k = true → index_item k (Some q) = Ok (BNum q).
Proof. by destruct k. Qed.

(** X1.  On a linear axis the slice of a sorted series holds exactly the samples
    at positions in [[start, end)], after the rounding on integer indexes:
    the sample at [end] itself is left out. *)
Lemma slice_linear_half_open (s : Series) (start end_ : option Bound) (a b : Q) :
  numeric_kind (s_kind s) = true →
  is_monotonic_increasing (series_keys s) = true →
  given_or start (head (map fst (s_samples s))) = Some a →
  given_or end_ (last (map fst (s_samples s))) = Some b →
  slice_linear s start end_
  = Ok (with_samples s
          (List.filter (λ p, in_half_open (rounded (s_kind s) a) (rounded (s_kind s) b) p.1)
                       (s_samples s))).
Proof.
  intros Hk Hs Ha Hb.
  assert (Hstart : match start with
                   | None => index_item (s_kind s) (head (map fst (s_samples s)))
                   | Some b0 => Ok b0
                   end = Ok (BNum a)).
  { destruct start as [[q | t] |]; simpl in Ha; simplify_eq; [done |].
    rewrite Ha. by apply index_item_numeric. }
  assert (Hend : match end_ with
                 | None => index_item (s_kind s) (last (map fst (s_samples s)))
                 | Some b0 => Ok b0
                 end = Ok (BNum b)).
  { destruct end_ as [[q | t] |]; simpl in Hb; simplify_eq; [done |].
    rewrite Hb. by apply index_item_numeric. }
  unfold slice_linear. rewrite Hstart, Hend. unfold mbind, result_bind.
  assert (Hr : ∀ q, (if is_int_index (s_kind s) then round_bound (BNum q) else Ok (BNum q))
                    = Ok (BNum (rounded (s_kind s) q))).
  { intros q. unfold rounded. by destruct (is_int_index (s_kind s)). }
  rewrite !Hr, !key_of_bound_numeric by done.
  rewrite iloc_with_samples, iloc_searchsorted by done.
  do 2 f_equal. apply List.filter_ext. intros p.
  unfold sample_key, in_half_open. rewrite key_of_numeric by done.
  simpl. unfold Qlt_bool. by rewrite negb_involutive.
Qed.

Lemma to_same_tz_spec (ref : option tzinfo) (bound : option Timestamp) :
  zones_named ref bound = true →
  localizable ref bound = true →
  to_same_tz ref bound
  = if zone_mismatch ref bound then Raise AssertionError
    else Ok (spec_normalize ref <$> bound).
Proof.
  destruct bound as [[w [z |]] |], ref as [r |]; simpl; try done.
  - intros Hn _. unfold mbind, result_bind.
    destruct (zone z) as [a | e], (zone r) as [b | e']; try done.
    by case_bool_decide.
  - intros _ Hl. unfold tz_localize. simpl.
    by destruct (wall_kind_at r w).
Qed.

Lemma get_slice_bound_sorted (keys : list Q) (v : Q) (side : Side) :
  is_monotonic_increasing keys = true →
  get_slice_bound keys v side = Ok (searchsorted keys v side).
Proof. intros H. unfold get_slice_bound. by rewrite H. Qed.

(** Label slicing on a sorted time index keeps exactly the samples whose
    instant lies in the closed interval of the two bounds. *)
Lemma label_slice_closed (s : Series) (a b : option Timestamp) :
  is_monotonic_increasing (series_keys s) = true →
  bounds_agree a b = true →
  label_slice s a b
  = Ok (with_samples s
          (List.filter (λ p, in_closed (instant <$> a) (instant <$> b) (sample_key s p))
                       (s_samples s))).
Proof.
  intros Hs Hab. unfold label_slice.
  destruct a as [ta |], b as [tb |]; simpl in Hab; rewrite ?Hab;
    unfold mbind, result_bind; rewrite ?get_slice_bound_sorted by done;
    rewrite iloc_with_samples; do 2 f_equal.
  - rewrite iloc_searchsorted by done. apply List.filter_ext. intros p.
    unfold in_closed. simpl. unfold Qlt_bool. by rewrite negb_involutive.
  - rewrite iloc_to_end by done. apply List.filter_ext. intros p.
    unfold in_closed. simpl. unfold Qlt_bool. by rewrite negb_involutive, andb_true_r.
  - rewrite iloc_from_start by done. apply List.filter_ext. intros p. done.
  - rewrite iloc_all. symmetry. by apply filter_all.
Qed.

(** Bounds under a naive series, and bounds without mismatch under a series
    in a named zone of pytz, always agree once they are normalized. *)
Lemma bounds_agree_naive (a b : option Timestamp) :
  bounds_agree (spec_normalize None <$> a) (spec_normalize None <$> b) = true.
Proof. destruct a as [[? [|]] |], b as [[? [|]] |]; done. Qed.

Lemma bounds_agree_named (name : string) (offset_at : Q → Q) (kind_at : Q → wall_kind)
    (a b : option Timestamp) :
  let r := Some (pytz_zone name offset_at kind_at) in
  zones_named r a = true → zones_named r b = true →
  zone_mismatch r a = false → zone_mismatch r b = false →
  bounds_agree (spec_normalize r <$> a) (spec_normalize r <$> b) = true.
Proof.
  destruct a as [[wa [za |]] |], b as [[wb [zb |]] |]; simpl; try done;
    repeat match goal with
           | z : tzinfo |- _ => destruct z; simpl
           end;
    intros; repeat case_bool_decide; simplify_eq; try done;
    by rewrite ?String.eqb_refl.
Qed.

(** ** The nearest join *)

Lemma Qle_bool_false (a b : Q) : Qle_bool a b = false → (b < a)%Q.
Proof.
  intros H. apply Qnot_le_lt. intros Hle. apply Qle_bool_iff in Hle. congruence.
Qed.

Lemma monotonic_tail (a : Q) (l : list Q) :
  is_monotonic_increasing (a :: l) = true → is_monotonic_increasing l = true.
Proof. intros H. by apply monotonic_cons in H as [H _]. Qed.

Lemma asof_backward_spec {V} (key : Q) (rows : list (Q * V)) :
  is_monotonic_increasing (map fst rows) = true →
  match asof_backward key rows with
  | Some (k, v) => In (k, v) rows ∧ (k <= key)%Q
                   ∧ ∀ k' v', In (k', v') rows → (k' <= key)%Q → (k' <= k)%Q
  | None => ∀ k' v', In (k', v') rows → (key < k')%Q
  end.
Proof.
  induction rows as [|[k v] rows IH]; intros Hs; simpl.
  - intros ? ? [].
  - simpl in Hs. pose proof (monotonic_cons _ _ Hs) as [Hs' Hmin].
    specialize (IH Hs').
    destruct (Qle_bool k key) eqn:E.
    + apply Qle_bool_iff in E.
      destruct (asof_backward key rows) as [[kb vb] |].
      * destruct IH as (Hin & Hle & Hmax). repeat split; [by right | done |].
        intros k' v' [[= <- <-] | Hin'] Hk'; [|by eapply Hmax].
        apply Hmin. by apply (in_map fst) in Hin.
      * repeat split; [by left | done |].
        intros k' v' [[= <- <-] | Hin'] Hk'; [apply Qle_refl |].
        apply IH in Hin'. lra.
    + apply Qle_bool_false in E.
      intros k' v' [[= <- <-] | Hin']; [done |].
      apply (in_map fst) in Hin'. apply Hmin in Hin'. simpl in Hin'. lra.
Qed.

Lemma asof_forward_spec {V} (key : Q) (rows : list (Q * V)) :
  is_monotonic_increasing (map fst rows) = true →
  match asof_forward key rows with
  | Some (k, v) => In (k, v) rows ∧ (key <= k)%Q
                   ∧ ∀ k' v', In (k', v') rows → (key <= k')%Q → (k <= k')%Q
  | None => ∀ k' v', In (k', v') rows → (k' < key)%Q
  end.
Proof.
  induction rows as [|[k v] rows IH]; intros Hs; simpl.
  - intros ? ? [].
  - simpl in Hs. pose proof (monotonic_cons _ _ Hs) as [Hs' Hmin].
    specialize (IH Hs').
    destruct (Qle_bool key k) eqn:E.
    + apply Qle_bool_iff in E. repeat split; [by left | done |].
      intros k' v' [[= <- <-] | Hin'] Hk'; [apply Qle_refl |].
      apply (in_map fst) in Hin'. by apply Hmin in Hin'.
    + apply Qle_bool_false in E.
      destruct (asof_forward key rows) as [[kf vf] |].
      * destruct IH as (Hin & Hle & Hmax). repeat split; [by right | done |].
        intros k' v' [[= <- <-] | Hin'] Hk'; [lra | by eapply Hmax].
      * intros k' v' [[= <- <-] | Hin']; [done | by eapply IH].
Qed.

Lemma dist_le (key k : Q) : (k <= key)%Q → (dist key k == key - k)%Q.
Proof.
  intros H. unfold dist. destruct (Qle_bool key k) eqn:E; [|reflexivity].
  apply Qle_bool_iff in E. lra.
Qed.

Lemma dist_ge (key k : Q) : (key <= k)%Q → (dist key k == k - key)%Q.
Proof.
  intros H. unfold dist. destruct (Qle_bool key k) eqn:E; [reflexivity |].
  apply Qle_bool_false in E. lra.
Qed.

(** On sorted rows the join picks a row at the least distance. *)
Lemma asof_nearest_closest {V} (key : Q) (rows : list (Q * V)) :
  is_monotonic_increasing (map fst rows) = true →
  match asof_nearest key rows with
  | Some (k, v) => In (k, v) rows
                   ∧ ∀ k' v', In (k', v') rows → (dist key k <= dist key k')%Q
  | None => rows = []
  end.
Proof.
  intros Hs. unfold asof_nearest.
  pose proof (asof_backward_spec key rows Hs) as Hb.
  pose proof (asof_forward_spec key rows Hs) as Hf.
  assert (Hcase : ∀ k', (k' <= key)%Q ∨ (key <= k')%Q).
  { intros k'. destruct (Qlt_le_dec key k'); [right | left]; lra. }
  destruct (asof_backward key rows) as [[kb vb] |], (asof_forward key rows) as [[kf vf] |].
  - destruct Hb as (Hbin & Hble & Hbmax), Hf as (Hfin & Hfle & Hfmin).
    destruct (Qle_bool (key - kb) (kf - key)) eqn:E.
    + apply Qle_bool_iff in E. split; [done |]. intros k' v' Hin.
      rewrite (dist_le key kb) by done.
      destruct (Hcase k') as [Hk' | Hk'].
      * rewrite (dist_le key k') by done. pose proof (Hbmax k' v' Hin Hk'). lra.
      * rewrite (dist_ge key k') by done. pose proof (Hfmin k' v' Hin Hk'). lra.
    + apply Qle_bool_false in E. split; [done |]. intros k' v' Hin.
      rewrite (dist_ge key kf) by done.
      destruct (Hcase k') as [Hk' | Hk'].
      * rewrite (dist_le key k') by done. pose proof (Hbmax k' v' Hin Hk'). lra.
      * rewrite (dist_ge key k') by done. pose proof (Hfmin k' v' Hin Hk'). lra.
  - destruct Hb as (Hbin & Hble & Hbmax). split; [done |]. intros k' v' Hin.
    pose proof (Hf k' v' Hin) as Hlt.
    rewrite (dist_le key kb), (dist_le key k') by lra.
    pose proof (Hbmax k' v' Hin). lra.
  - destruct Hf as (Hfin & Hfle & Hfmin). split; [done |]. intros k' v' Hin.
    pose proof (Hb k' v' Hin) as Hlt.
    rewrite (dist_ge key kf), (dist_ge key k') by lra.
    pose proof (Hfmin k' v' Hin). lra.
  - destruct rows as [|[k v] rows]; [done |].
    pose proof (Hb k v (or_introl eq_refl)). pose proof (Hf k v (or_introl eq_refl)). lra.
Qed.

Lemma asof_nearest_payload {V} (key : Q) (rows : list (Q * V)) :
  is_monotonic_increasing (map fst rows) = true →
  nearest_payload key rows (snd <$> asof_nearest key rows).
Proof.
  intros Hs. pose proof (asof_nearest_closest key rows Hs) as H.
  unfold nearest_payload. destruct rows as [|row rows].
  - done.
  - destruct (asof_nearest key (row :: rows)) as [[k v] |]; [|done].
    destruct H as [Hin Hmin]. by exists k, v.
Qed.

(** ** Timezones of the time slicer *)




(** The cases one by one, on the inner function. *)
Lemma to_same_tz_localizes (r : tzinfo) (ts : Timestamp) :
  tz ts = None →
  wall_kind_at r (wall ts) = exists_once →
  to_same_tz (Some r) (Some ts) = Ok (Some {| wall := wall ts; tz := Some r |}).
Proof. intros H Hw. simpl. rewrite H. unfold tz_localize. by rewrite ?H, Hw. Qed.

Lemma to_same_tz_not_localizable (r : tzinfo) (ts : Timestamp) :
  tz ts = None →
  to_same_tz (Some r) (Some ts)
  = match wall_kind_at r (wall ts) with
    | exists_once => Ok (Some {| wall := wall ts; tz := Some r |})
    | ambiguous => Raise AmbiguousTimeError
    | nonexistent => Raise NonExistentTimeError
    end.
Proof.
  intros H. simpl. rewrite H. unfold tz_localize. rewrite ?H.
  by destruct (wall_kind_at r (wall ts)).
Qed.

Lemma to_same_tz_drops_zone (ts : Timestamp) :
  to_same_tz None (Some ts) = Ok (Some {| wall := wall ts; tz := None |}).
Proof. destruct ts as [w [z |]]; done. Qed.

Lemma to_same_tz_rejects_other_zone (r z : tzinfo) (ts : Timestamp) (a b : option string) :
  tz ts = Some z → zone z = Ok a → zone r = Ok b → a ≠ b →
  to_same_tz (Some r) (Some ts) = Raise AssertionError.
Proof.
  intros H Ha Hb Hne. simpl. rewrite H, Ha, Hb. simpl. by case_bool_decide.
Qed.

Lemma to_same_tz_without_zone_attribute (r z : tzinfo) (ts : Timestamp) :
  tz ts = Some z → is_ok (zone z) && is_ok (zone r) = false →
  to_same_tz (Some r) (Some ts) = Raise AttributeError.
Proof.
  intros H Hz. simpl. rewrite H. by destruct z, r.
Qed.

(** The test [test_time_tz_slicing_different_timestamp]: bounds in the zone
    of Brussels against a series in UTC. *)
Example utc_series_brussels_bounds :
  _slice_time utc_series (Some {| wall := 1; tz := Some Brussels |})
                         (Some {| wall := 2; tz := Some Brussels |})
  = Raise AssertionError.
Proof. reflexivity. Qed.

(** A naive bound that falls where the clocks of the zone are set forward,
    and a bound that is no label of an unsorted index. *)
Example bound_in_the_gap :
  _slice_time spring_series (Some (naive 200)) None = Raise NonExistentTimeError.
Proof. reflexivity. Qed.

Example unsorted_index_key_error :
  _slice_time unsorted_time_series (Some (naive 5)) None = Raise KeyError
  ∧ _slice_time unsorted_time_series (Some (naive 0)) (Some (naive 1))
    = Ok (with_samples unsorted_time_series [(0, Num 10); (1, Num 20)]%Q).
Proof. split; reflexivity. Qed.

(** X2.  A time slice of a sorted series, with bounds that can be brought to
    the zone of the series, without zone mismatch and in zones that pandas
    takes for the same, holds exactly the samples whose instant lies in the
    closed interval of the normalized bounds; a bound that is absent leaves
    that end open. *)
Lemma slice_time_closed (s : Series) (series_tz : option tzinfo)
    (t_start t_stop : option Timestamp) :
  s_kind s = DatetimeIndex series_tz →
  is_monotonic_increasing (series_keys s) = true →
  zones_named series_tz t_start = true → zones_named series_tz t_stop = true →
  localizable series_tz t_start = true → localizable series_tz t_stop = true →
  zone_mismatch series_tz t_start = false →
  zone_mismatch series_tz t_stop = false →
  bounds_agree (spec_normalize series_tz <$> t_start)
               (spec_normalize series_tz <$> t_stop) = true →
  _slice_time s t_start t_stop
  = Ok (with_samples s
         (List.filter
            (λ p, in_closed (instant <$> (spec_normalize series_tz <$> t_start))
                            (instant <$> (spec_normalize series_tz <$> t_stop))
                            (sample_key s p))
            (s_samples s))).
Proof.
  intros Hk Hs Hna Hnb Hla Hlb Ha Hb Hab. unfold _slice_time. rewrite Hk.
  unfold mbind, result_bind.
  rewrite !to_same_tz_spec, Ha, Hb by done. by rewrite label_slice_closed.
Qed.

(** ** The end of a linear slice *)

(** C4.  On a linear axis the sample at the end bound is left out.  With
    three samples at positions 0, 1, 2 the slice without bounds, standing
    for the full extent, and the slice from 0 to 2 both hold the samples at 0
    and 1 only; the time slicer on the same three positions returns all
    three.  Fractional bounds on the integer index are rounded first. *)
Theorem linear_slice_excludes_end :
  slice_linear int_series None None
  = Ok (with_samples int_series [(0, Num 10); (1, Num 20)]%Q)
  ∧ slice_linear int_series (Some (BNum 0)) (Some (BNum 2))
    = Ok (with_samples int_series [(0, Num 10); (1, Num 20)]%Q)
  ∧ slice_linear int_series (Some (BNum (-(2 # 5)))) (Some (BNum (8 # 5)))
    = Ok (with_samples int_series [(0, Num 10); (1, Num 20)]%Q)
  ∧ _slice_time naive_time_series (Some (naive 0)) (Some (naive 2))
    = Ok naive_time_series
  ∧ _slice_time naive_time_series None None = Ok naive_time_series.
Proof. repeat split; reflexivity. Qed.

(** The same through the synchronizer: the first view of a stored trace
    with positions 0, 1, 2 and a budget of five shows positions 0 and 1. *)
Example full_extent_view_misses_last :
  let self := set_hf_data {["u" := entry_of int_series linear 5 HNone]} fig_default in
  let trace := set_uid (Some "u") (empty_trace "scatter" (Some "a")) in
  x (check_update_trace_data self None None trace).2
  = Some {| x_cont := pd_index; x_kind := Int64Index; x_labels := [0; 1]%Q |}.
Proof. reflexivity. Qed.

Example py_round_ties_to_even :
  py_round (1 # 2) = 0%Z ∧ py_round (3 # 2) = 2%Z ∧ py_round (5 # 2) = 2%Z
  ∧ py_round (-(1 # 2)) = 0%Z ∧ py_round (7 # 4) = 2%Z ∧ py_round (-(7 # 4)) = (-2)%Z.
Proof. repeat split; reflexivity. Qed.

(** ** The synchronizer, step by step *)

Ltac run_mut :=
  unfold mbind, mut_bind, mret, mut_ret, get, modify, lift, py_assert; cbn beta iota.

Lemma sync_no_entry (self : FigureResampler) (start end_ : option Bound) (t : Trace) :
  _query_hf_data self t = None →
  check_update_trace_data self start end_ t = (Ok tt, t).
Proof. intros H. unfold check_update_trace_data. run_mut. by rewrite H. Qed.

Lemma sync_slice_raises (self : FigureResampler) (start end_ : option Bound) (t : Trace)
    (hf_data : HFEntry) (e : exn) :
  _query_hf_data self t = Some hf_data →
  slice_view hf_data start end_ = Raise e →
  check_update_trace_data self start end_ t = (Raise e, t).
Proof. intros H1 H2. unfold check_update_trace_data. run_mut. by rewrite H1, H2. Qed.

Lemma sync_no_name (self : FigureResampler) (start end_ : option Bound) (t : Trace)
    (hf_data : HFEntry) (view : Series) :
  _query_hf_data self t = Some hf_data →
  slice_view hf_data start end_ = Ok view →
  name t = None →
  check_update_trace_data self start end_ t = (Raise AttributeError, t).
Proof.
  intros H1 H2 H3. unfold check_update_trace_data. run_mut. by rewrite H1, H2, H3.
Qed.

Lemma sync_hovertext_raises (self : FigureResampler) (start end_ : option Bound)
    (t : Trace) (hf_data : HFEntry) (view : Series) (n : string) (e : exn) :
  _query_hf_data self t = Some hf_data →
  slice_view hf_data start end_ = Ok view →
  name t = Some n →
  updated_hovertext hf_data (downsampler hf_data view (max_n_samples hf_data)) = Raise e →
  check_update_trace_data self start end_ t = (Raise e, with_view self hf_data view n t).
Proof.
  intros H1 H2 H3 H4. unfold check_update_trace_data. run_mut.
  by rewrite H1, H2, H3, H4.
Qed.

Lemma sync_ok (self : FigureResampler) (start end_ : option Bound)
    (t : Trace) (hf_data : HFEntry) (view : Series) (n : string) (h : Hover) :
  _query_hf_data self t = Some hf_data →
  slice_view hf_data start end_ = Ok view →
  name t = Some n →
  updated_hovertext hf_data (downsampler hf_data view (max_n_samples hf_data)) = Ok h →
  check_update_trace_data self start end_ t
  = (Ok tt, set_hovertext h (with_view self hf_data view n t)).
Proof.
  intros H1 H2 H3 H4. unfold check_update_trace_data. run_mut.
  by rewrite H1, H2, H3, H4.
Qed.

(** A successful run on a trace with an entry went through all the steps. *)
Lemma sync_ok_inv (self : FigureResampler) (start end_ : option Bound)
    (t t' : Trace) (hf_data : HFEntry) :
  _query_hf_data self t = Some hf_data →
  check_update_trace_data self start end_ t = (Ok tt, t') →
  ∃ view n h,
    slice_view hf_data start end_ = Ok view
    ∧ name t = Some n
    ∧ updated_hovertext hf_data (downsampler hf_data view (max_n_samples hf_data)) = Ok h
    ∧ t' = set_hovertext h (with_view self hf_data view n t).
Proof.
  intros Hq Hrun.
  destruct (slice_view hf_data start end_) as [view | e] eqn:Hs.
  2: { rewrite (sync_slice_raises _ _ _ _ _ e Hq Hs) in Hrun. done. }
  destruct (name t) as [n |] eqn:Hn.
  2: { rewrite (sync_no_name _ _ _ _ _ view Hq Hs Hn) in Hrun. done. }
  destruct (updated_hovertext hf_data (downsampler hf_data view (max_n_samples hf_data)))
    as [h | e] eqn:Hh.
  2: { rewrite (sync_hovertext_raises _ _ _ _ _ view n e Hq Hs Hn Hh) in Hrun. done. }
  rewrite (sync_ok _ _ _ _ _ view n h Hq Hs Hn Hh) in Hrun.
  exists view, n, h. by simplify_eq.
Qed.

Lemma merge_asof_nearest_texts (s_res : Series) (k : index_kind)
    (h : list (Q * option string)) (r : list (option string)) :
  merge_asof_nearest s_res k h = Ok r →
  Forall2 (λ key text, nearest_text key (hover_rows k h) text) (series_keys s_res) r.
Proof.
  unfold merge_asof_nearest. fold (hover_rows k h).
  destruct (is_monotonic_increasing (series_keys s_res)
            && is_monotonic_increasing (map fst (hover_rows k h))) eqn:E; [|done].
  apply andb_true_iff in E as [_ Hs]. intros [= <-].
  induction (series_keys s_res) as [|key keys IH]; simpl; constructor; [|exact IH].
  exists (snd <$> asof_nearest key (hover_rows k h)). split.
  - by apply asof_nearest_payload.
  - by destruct (asof_nearest key (hover_rows k h)).
Qed.

(** ** Decoration through the synchronizer *)

(** X5.  A successful run on a view over budget leaves a name that starts
    with the prefix and ends with the suffix. *)
Lemma sync_decorates (self : FigureResampler) (start end_ : option Bound) (t t' : Trace) :
  check_update_trace_data self start end_ t = (Ok tt, t') →
  view_exceeds self start end_ t = true →
  ∃ n', name t' = Some n' ∧ decorated (_prefix self) (_suffix self) n' = true.
Proof.
  intros Hrun Hex. unfold view_exceeds in Hex.
  destruct (_query_hf_data self t) as [hf |] eqn:Hq; [|done].
  destruct (sync_ok_inv _ _ _ _ _ _ Hq Hrun) as (view & n & h & Hs & Hn & Hh & ->).
  rewrite Hs in Hex. eexists. split; [reflexivity |].
  unfold updated_name. rewrite Hex. apply decorate_name_decorated.
Qed.

(** With only a prefix configured, a name that carries it once is stripped
    by a run on a view within budget. *)
Lemma undecorate_prefix_only (prefix name : string) :
  startswith name prefix = false →
  undecorate_name prefix "" (decorate_name prefix "" name) = name.
Proof.
  intros H. unfold decorate_name, undecorate_name. rewrite H, endswith_empty.
  cbn [negb]. rewrite append_empty_r.
  unfold strip_suffix_assign, strip_prefix_assign. cbn [nonempty String.length Nat.eqb negb andb].
  rewrite startswith_append, andb_true_r.
  destruct (nonempty prefix) eqn:E.
  - apply str_drop_append.
  - unfold nonempty in E. destruct prefix; [done | done].
Qed.

(** C1.  With the prefix and suffix of the test-suite a trace named "test"
    over five points and a budget of two is admitted with the decorated
    name; a following run on a view of two points, within budget, writes a
    name that has lost the suffix but still starts with the prefix. *)
Theorem narrow_view_keeps_prefix :
  let st := (add_trace (five_args "u") (fig_tests, empty_trace "scatter" (Some "test"))).2 in
  let narrow := check_update_trace_data st.1 (Some (BNum 1)) (Some (BNum 3)) st.2 in
  name st.2 = Some "<b>[r]</b>test~~"
  ∧ narrow.1 = Ok tt
  ∧ view_exceeds st.1 (Some (BNum 1)) (Some (BNum 3)) st.2 = false
  ∧ x narrow.2 = Some {| x_cont := pd_index; x_kind := Int64Index; x_labels := [1; 2]%Q |}
  ∧ name narrow.2 = Some "<b>[r]</b>test"
  ∧ startswith "<b>[r]</b>test" (_prefix st.1) = true.
Proof. repeat split; reflexivity. Qed.

(** ** Running the synchronizer twice *)

(** X7.  Two runs with the same range write the same x, y and hovertext as
    one run; the whole outcome is the same when the view exceeds the budget, or
    when the name after the first run no longer starts with a non-empty
    prefix nor ends with a non-empty suffix. *)
Lemma sync_twice_same_range (self : FigureResampler) (start end_ : option Bound)
    (t : Trace) :
  let once := check_update_trace_data self start end_ t in
  let twice := (check_update_trace_data self start end_;;
                check_update_trace_data self start end_) t in
  x twice.2 = x once.2 ∧ y twice.2 = y once.2 ∧ hovertext twice.2 = hovertext once.2
  ∧ (view_exceeds self start end_ t = true ∨ name_settled self once.2 → twice = once).
Proof.
  cbv zeta. unfold mbind at 1 2 3 4, mut_bind.
  destruct (_query_hf_data self t) as [hf |] eqn:Hq.
  2: { rewrite (sync_no_entry _ _ _ _ Hq). by rewrite (sync_no_entry _ _ _ _ Hq). }
  destruct (slice_view hf start end_) as [view | e] eqn:Hs.
  2: { by rewrite (sync_slice_raises _ _ _ _ _ e Hq Hs). }
  destruct (name t) as [n |] eqn:Hn.
  2: { by rewrite (sync_no_name _ _ _ _ _ view Hq Hs Hn). }
  destruct (updated_hovertext hf (downsampler hf view (max_n_samples hf)))
    as [h | e] eqn:Hh.
  2: { by rewrite (sync_hovertext_raises _ _ _ _ _ view n e Hq Hs Hn Hh). }
  rewrite (sync_ok _ _ _ _ _ view n h Hq Hs Hn Hh).
  set (t1 := set_hovertext h (with_view self hf view n t)).
  assert (Hq1 : _query_hf_data self t1 = Some hf) by exact Hq.
  rewrite (sync_ok self start end_ t1 hf view (updated_name self hf view n) h Hq1 Hs
             eq_refl Hh).
  repeat split. intros Hset. f_equal.
  assert (Hname : updated_name self hf view (updated_name self hf view n)
                  = updated_name self hf view n).
  { unfold updated_name.
    destruct (Z.of_nat (series_len view) >? max_n_samples hf)%Z eqn:Hex.
    - apply decorate_name_idempotent.
    - destruct Hset as [Hset | Hset].
      + unfold view_exceeds in Hset. rewrite Hq, Hs in Hset. congruence.
      + apply undecorate_name_fixed. specialize (Hset _ eq_refl).
        unfold updated_name in Hset. by rewrite Hex in Hset. }
  unfold t1, with_view, set_hovertext, set_y, set_x, set_name. simpl.
  by rewrite Hname.
Qed.

(** With the default decoration and a name that carries the prefix once,
    the second run changes nothing. *)
Lemma sync_twice_same_range_witness :
  let self := small_store fig_default HNone in
  let t := stored_trace (default_prefix +:+ "a") HNone in
  name_settled self (check_update_trace_data self None None t).2
  ∧ (check_update_trace_data self None None;; check_update_trace_data self None None) t
    = check_update_trace_data self None None t.
Proof.
  cbv zeta.
  assert (H : name_settled (small_store fig_default HNone)
                (check_update_trace_data (small_store fig_default HNone) None None
                   (stored_trace (default_prefix +:+ "a") HNone)).2).
  { intros n Hn. vm_compute in Hn. injection Hn as <-. reflexivity. }
  split; [exact H |].
  apply (sync_twice_same_range (small_store fig_default HNone) None None
           (stored_trace (default_prefix +:+ "a") HNone)).
  right. exact H.
Defined.

(** A name that starts with the prefix twice loses one copy per run on a
    view within budget. *)
Example sync_twice_doubled_prefix :
  let self := small_store fig_default HNone in
  let t := stored_trace (default_prefix +:+ default_prefix +:+ "a") HNone in
  let once := check_update_trace_data self None None t in
  let twice := (check_update_trace_data self None None;;
                check_update_trace_data self None None) t in
  name once.2 = Some (default_prefix +:+ "a") ∧ name twice.2 = Some "a".
Proof. split; reflexivity. Qed.

(** C8.  With the prefix and suffix of the test-suite, the trace of five
    points admitted under the name "test" with a budget of two, and the
    range from 1 to 3 (a view of two points): one run leaves the name
    "<b>[r]</b>test", a second run with the same range leaves "test"; x, y
    and hovertext are the same after both, the traces are not. *)
Theorem second_run_changes_name :
  let st := (add_trace (five_args "u") (fig_tests, empty_trace "scatter" (Some "test"))).2 in
  let sync := check_update_trace_data st.1 (Some (BNum 1)) (Some (BNum 3)) in
  let once := sync st.2 in
  let twice := (sync;; sync) st.2 in
  once.1 = Ok tt ∧ twice.1 = Ok tt
  ∧ name once.2 = Some "<b>[r]</b>test"
  ∧ name twice.2 = Some "test"
  ∧ x twice.2 = x once.2 ∧ y twice.2 = y once.2 ∧ hovertext twice.2 = hovertext once.2
  ∧ twice.2 ≠ once.2.
Proof.
  cbv zeta. do 7 (split; [reflexivity |]).
  intros H. apply (f_equal name) in H. vm_compute in H. discriminate H.
Qed.

(** ** What a run writes back *)

(** C9, as stated, fails: the entry holds no hovertext, the trace does, and
    the run replaces it by [None]. *)
Lemma sync_clears_hovertext_counterexample :
  let self := small_store fig_default HNone in
  let t := stored_trace "a" (HStr "note") in
  (e_hovertext <$> _query_hf_data self t) = Some HNone
  ∧ hovertext t = HStr "note"
  ∧ (check_update_trace_data self None None t).1 = Ok tt
  ∧ hovertext (check_update_trace_data self None None t).2 = HNone.
Proof. repeat split; reflexivity. Qed.

(** C9, amended.  A successful run on a trace with an entry writes the index
    and the values of the reduced series into x and y; when the entry holds
    a hovertext series, it writes for each reduced position the text of a
    stored row nearest to it; when the entry holds anything else (a single
    string, a tuple, nothing), it writes that value over the hovertext of
    the trace.  The uid, type, text and y-axis of the trace are untouched. *)
Theorem sync_writes_back (self : FigureResampler) (start end_ : option Bound)
    (t t' : Trace) (hf_data : HFEntry) :
  _query_hf_data self t = Some hf_data →
  check_update_trace_data self start end_ t = (Ok tt, t') →
  ∃ view,
    slice_view hf_data start end_ = Ok view
    ∧ let s_res := downsampler hf_data view (max_n_samples hf_data) in
      x t' = Some (series_index s_res)
      ∧ y t' = Some (series_values s_res)
      ∧ match e_hovertext hf_data with
        | HSeries k h =>
          ∃ r, hovertext t' = HArr ndarray r
               ∧ Forall2 (λ key text, nearest_text key (hover_rows k h) text)
                         (series_keys s_res) r
        | other => hovertext t' = other
        end
      ∧ uid t' = uid t ∧ type_ t' = type_ t ∧ text t' = text t ∧ yaxis t' = yaxis t.
Proof.
  intros Hq Hrun.
  destruct (sync_ok_inv _ _ _ _ _ _ Hq Hrun) as (view & n & h & Hs & Hn & Hh & ->).
  exists view. split; [exact Hs |]. cbv zeta. repeat split.
  unfold updated_hovertext in Hh. simpl.
  destruct (e_hovertext hf_data) as [| s | c l | k rows]; try by simplify_eq.
  unfold mbind, result_bind in Hh.
  destruct (merge_asof_nearest _ k rows) as [r |] eqn:Hm; [|done].
  simplify_eq. exists r. split; [done |]. by apply merge_asof_nearest_texts.
Qed.

Lemma sync_writes_back_witness :
  let self := small_store fig_default three_texts in
  let t := stored_trace "a" HNone in
  let run := check_update_trace_data self (Some (BNum 1)) (Some (BNum 3)) t in
  _query_hf_data self t = Some (entry_of int_series linear 5 three_texts)
  ∧ run = (Ok tt, run.2)
  ∧ x run.2 = Some {| x_cont := pd_index; x_kind := Int64Index; x_labels := [1; 2]%Q |}
  ∧ hovertext run.2 = HArr ndarray [Some "one"; Some "two"]
  ∧ text run.2 = text t.
Proof.
  cbv zeta.
  destruct (sync_writes_back (small_store fig_default three_texts)
              (Some (BNum 1)) (Some (BNum 3)) (stored_trace "a" HNone)
              (check_update_trace_data (small_store fig_default three_texts)
                 (Some (BNum 1)) (Some (BNum 3)) (stored_trace "a" HNone)).2
              (entry_of int_series linear 5 three_texts) eq_refl eq_refl)
    as (view & Hs & Hx & Hy & Hh & Hu & Hty & Htx & Hya).
  split; [reflexivity |]. split; [reflexivity |]. split; [reflexivity |].
  split; [reflexivity | exact Htx].
Defined.

(** ** Admission, path by path *)

Ltac run_add :=
  unfold add_trace, admit_high_frequency, admit_other, super_add_trace, on_trace, on_self;
  run_mut; cbn [fst snd].

Lemma is_high_frequency_tagged (args : AddArgs) (trace : Trace) :
  is_high_frequency (tagged args trace) = is_high_frequency trace.
Proof. reflexivity. Qed.

Lemma checked_lens (l : Locals) (xa : XArr) (ya : YArr) (h : Hover) :
  checked l xa ya h →
  len_x (hf_x l) = Ok (length (x_labels xa))
  ∧ len_y (hf_y l) = Ok (length (y_vals ya))
  ∧ (0 <? length (x_labels xa))%nat = true
  ∧ (length (x_labels xa) =? length (y_vals ya))%nat = true.
Proof.
  intros (Hx & Hy & Hpos & Hlen & _). rewrite Hx, Hy. repeat split.
  - by apply Nat.ltb_lt.
  - by apply Nat.eqb_eq.
Qed.

(** No samples after the NaN block: the assertion of line 433 fails. *)
Lemma add_trace_empty (args : AddArgs) (self : FigureResampler) (trace : Trace) :
  is_high_frequency trace = true →
  len_x (hf_x (admission_locals args trace)) = Ok 0%nat →
  add_trace args (self, trace)
  = (Raise AssertionError, (self, set_text HNone (tagged args trace))).
Proof.
  intros Hhf Hlen. run_add. fold (tagged args trace).
  rewrite is_high_frequency_tagged, Hhf. fold (admission_locals args trace).
  run_mut. by rewrite Hlen.
Qed.

(** Unsorted positions on a trace that is to be stored: the assertion of
    line 458 fails, before anything is stored. *)
Lemma add_trace_unsorted (args : AddArgs) (self : FigureResampler) (trace : Trace)
    (xa : XArr) (ya : YArr) (h : Hover) :
  is_high_frequency trace = true →
  checked (admission_locals args trace) xa ya h →
  to_store args self (length (x_labels xa)) = true →
  is_monotonic_increasing (series_keys (make_series xa ya)) = false →
  add_trace args (self, trace)
  = (Raise AssertionError, (self, set_text HNone (tagged args trace))).
Proof.
  intros Hhf Hc Hst Hm. pose proof (checked_lens _ _ _ _ Hc) as (Hlx & Hly & Hpos & Heq).
  destruct Hc as (Hx & Hy & _ & _ & Hh).
  run_add. fold (tagged args trace).
  rewrite is_high_frequency_tagged, Hhf. fold (admission_locals args trace).
  run_mut. rewrite Hlx, Hpos, Hly, Heq, Hx, Hy, Hh.
  fold (budget args self). fold (to_store args self (length (x_labels xa))).
  by rewrite Hst, Hm.
Qed.

(** Within budget and without [limit_to_view]: the trace takes the data as
    it is and nothing is stored. *)
Lemma add_trace_raw (args : AddArgs) (self : FigureResampler) (trace : Trace)
    (xa : XArr) (ya : YArr) (h : Hover) :
  is_high_frequency trace = true →
  checked (admission_locals args trace) xa ya h →
  to_store args self (length (x_labels xa)) = false →
  add_trace args (self, trace)
  = (Ok tt, (set_data (data self ++ [raw_trace args trace xa ya h]) self,
             raw_trace args trace xa ya h)).
Proof.
  intros Hhf Hc Hst. pose proof (checked_lens _ _ _ _ Hc) as (Hlx & Hly & Hpos & Heq).
  destruct Hc as (Hx & Hy & _ & _ & Hh).
  run_add. fold (tagged args trace).
  rewrite is_high_frequency_tagged, Hhf. fold (admission_locals args trace).
  run_mut. rewrite Hlx, Hpos, Hly, Heq, Hx, Hy, Hh.
  fold (budget args self). fold (to_store args self (length (x_labels xa))).
  by rewrite Hst.
Qed.

(** Over budget or with [limit_to_view]: the entry is stored and the first
    view comes from the synchronizer, called without bounds. *)
Lemma add_trace_stored (args : AddArgs) (self : FigureResampler) (trace : Trace)
    (xa : XArr) (ya : YArr) (h : Hover) :
  is_high_frequency trace = true →
  checked (admission_locals args trace) xa ya h →
  to_store args self (length (x_labels xa)) = true →
  is_monotonic_increasing (series_keys (make_series xa ya)) = true →
  let self1 := register args self (new_entry args self xa ya h) in
  let first := check_update_trace_data self1 None None
                 (with_default_name self (set_text HNone (tagged args trace))) in
  add_trace args (self, trace)
  = match first.1 with
    | Ok _ => (Ok tt, (set_data (data self1 ++ [first.2]) self1, first.2))
    | Raise e => (Raise e, (self1, first.2))
    end.
Proof.
  intros Hhf Hc Hst Hm. pose proof (checked_lens _ _ _ _ Hc) as (Hlx & Hly & Hpos & Heq).
  destruct Hc as (Hx & Hy & _ & _ & Hh).
  cbv zeta. run_add. fold (tagged args trace).
  rewrite is_high_frequency_tagged, Hhf. fold (admission_locals args trace).
  run_mut. rewrite Hlx, Hpos, Hly, Heq, Hx, Hy, Hh.
  fold (budget args self). fold (to_store args self (length (x_labels xa))).
  rewrite Hst, Hm. unfold with_default_name.
  fold (new_entry args self xa ya h).
  destruct (name (set_text HNone (tagged args trace))) as [n |] eqn:Hn;
    cbn beta iota; cbn [fst snd]; rewrite ?Hn; cbn beta iota; cbn [fst snd];
    fold (register args self (new_entry args self xa ya h));
    by destruct (check_update_trace_data _ None None _) as [[[] | e] t'].
Qed.

(** Any other trace type. *)
Lemma add_trace_other_ok (args : AddArgs) (self : FigureResampler) (trace : Trace)
    (st' : FigureResampler * Trace) :
  is_high_frequency trace = false →
  add_trace args (self, trace) = (Ok tt, st') →
  st' = (set_data (data self ++ [merged_trace args trace]) self, merged_trace args trace).
Proof.
  intros Hhf. run_add. fold (tagged args trace).
  rewrite is_high_frequency_tagged, Hhf. run_mut. cbn [fst snd].
  change (set_y _ (set_x _ (tagged args trace))) with (merged_trace args trace).
  destruct (len_x (x (merged_trace args trace))) as [n |]; [|done].
  destruct (0 <? n)%nat; [|done].
  destruct (len_y (y (merged_trace args trace))) as [m |]; [|done].
  destruct (x (merged_trace args trace)) as [xa |]; [|done].
  destruct (maskable (x_cont xa)); [|done].
  by intros [= <-].
Qed.

Lemma add_trace_other_store (args : AddArgs) (self : FigureResampler) (trace : Trace) :
  is_high_frequency trace = false →
  _hf_data (add_trace args (self, trace)).2.1 = _hf_data self.
Proof.
  intros Hhf. run_add. fold (tagged args trace).
  rewrite is_high_frequency_tagged, Hhf. run_mut. cbn [fst snd].
  change (set_y _ (set_x _ (tagged args trace))) with (merged_trace args trace).
  destruct (len_x (x (merged_trace args trace))) as [n |]; [|done].
  destruct (0 <? n)%nat; [|done].
  destruct (len_y (y (merged_trace args trace))) as [m |]; [|done].
  destruct (x (merged_trace args trace)) as [xa |]; [|done].
  by destruct (maskable (x_cont xa)).
Qed.

(** A scatter trace on which a check of lines 433-442 fails. *)
Lemma add_trace_check_fails (args : AddArgs) (self : FigureResampler) (trace : Trace) :
  is_high_frequency trace = true →
  (∀ xa ya h, ¬ checked (admission_locals args trace) xa ya h) →
  ∃ e, add_trace args (self, trace) = (Raise e, (self, set_text HNone (tagged args trace))).
Proof.
  intros Hhf Hno. run_add. fold (tagged args trace).
  rewrite is_high_frequency_tagged, Hhf. fold (admission_locals args trace).
  run_mut.
  destruct (hf_x (admission_locals args trace)) as [xa |] eqn:Hx; [|by eexists].
  simpl. destruct (Nat.ltb_spec 0 (length (x_labels xa))) as [Hpos | _]; [|by eexists].
  destruct (hf_y (admission_locals args trace)) as [ya |] eqn:Hy; [|by eexists].
  simpl. destruct (Nat.eqb_spec (length (x_labels xa)) (length (y_vals ya))) as [Heq | _];
    [|by eexists].
  destruct (hovertext_series xa (hf_hovertext (admission_locals args trace)))
    as [h |] eqn:Hh; [|by eexists].
  exfalso. by apply (Hno xa ya h).
Qed.

(** The checks either pass or not. *)
Lemma checked_dec (l : Locals) :
  (∃ xa ya h, checked l xa ya h) ∨ (∀ xa ya h, ¬ checked l xa ya h).
Proof.
  unfold checked.
  destruct (hf_x l) as [xa |] eqn:Hx.
  2: { right. intros ? ? ? (? & _). done. }
  destruct (hf_y l) as [ya |] eqn:Hy.
  2: { right. intros ? ? ? (_ & ? & _). done. }
  destruct (Nat.ltb_spec 0 (length (x_labels xa))) as [Hpos | Hz].
  2: { right. intros ? ? ? (? & ? & ? & _). simplify_eq; lia. }
  destruct (Nat.eq_dec (length (x_labels xa)) (length (y_vals ya))) as [Heq | Hne].
  2: { right. intros ? ? ? (? & ? & ? & ? & _). simplify_eq; lia. }
  destruct (hovertext_series xa (hf_hovertext l)) as [h |] eqn:Hh.
  2: { right. intros ? ? ? (? & ? & ? & ? & ?). simplify_eq; congruence. }
  left. by exists xa, ya, h.
Qed.

(** ** The NaN block *)

Lemma try_except_pass_ok {S} (body : Mut S unit) (s : S) :
  (try_except_pass body s).1 = Ok tt.
Proof. reflexivity. Qed.

(** When the mask cannot be computed nothing is assigned. *)
Lemma remove_nans_no_mask (l : Locals) (e : exn) :
  nan_values_mask (hf_y l) = Raise e → remove_nans l = l.
Proof.
  intros H. unfold remove_nans, try_except_pass, remove_nans_body. run_mut.
  by rewrite H.
Qed.

Lemma mask_select_length {A} (mask : list bool) (l : list A) :
  (length (mask_select mask l) <= length l)%nat.
Proof.
  revert l. induction mask as [|b mask IH]; intros [|a l]; simpl; try lia.
  specialize (IH l). destruct b; simpl; lia.
Qed.

(** Masking positions and values by the not-NaN mask of the values keeps
    exactly the pairs whose value is a number. *)
Lemma zip_mask_select (xs : list Q) (ys : list yval) :
  length xs = length ys →
  zip (mask_select (map (λ v, negb (isnan v)) ys) xs)
      (mask_select (map (λ v, negb (isnan v)) ys) ys)
  = List.filter (λ p, negb (isnan p.2)) (zip xs ys).
Proof.
  revert ys. induction xs as [|a xs IH]; intros [|v ys] Hlen; simpl in *; try done.
  destruct (isnan v); simpl; rewrite IH by lia; done.
Qed.

Lemma mask_select_lengths {A B} (mask : list bool) (l : list A) (l' : list B) :
  length l = length l' →
  length (mask_select mask l) = length (mask_select mask l').
Proof.
  revert l l'. induction mask as [|b mask IH]; intros [|a l] [|a' l'] H; simpl in *;
    try done.
  destruct b; simpl; rewrite (IH l l') by lia; done.
Qed.

(** With arrays that take a mask and cells that [np.isnan] accepts, the
    block assigns the masked positions and values. *)
Lemma remove_nans_masked (l : Locals) (xa : XArr) (ya : YArr) :
  hf_x l = Some xa → hf_y l = Some ya →
  supports_isnan (y_dtype ya) = true →
  maskable (x_cont xa) = true → maskable (y_cont ya) = true →
  length (x_labels xa) = length (y_vals ya) →
  hf_x (remove_nans l)
  = Some {| x_cont := x_cont xa; x_kind := x_kind xa;
            x_labels := mask_select (not_nan_mask ya) (x_labels xa) |}
  ∧ hf_y (remove_nans l)
    = Some (widen {| y_cont := y_cont ya; y_dtype := y_dtype ya;
                     y_vals := mask_select (not_nan_mask ya) (y_vals ya) |})
  ∧ hf_hovertext (remove_nans l)
    = match mask_hovertext (not_nan_mask ya) (hf_hovertext l) with
      | Ok h => h
      | Raise _ => hf_hovertext l
      end.
Proof.
  intros Hx Hy Hsup Hmx Hmy Hlen.
  unfold remove_nans, try_except_pass, remove_nans_body. run_mut.
  rewrite Hy. simpl. rewrite Hsup. fold (not_nan_mask ya).
  rewrite Hx. simpl. rewrite Hmx. simpl.
  assert (Hl : (length (x_labels xa) =? length (not_nan_mask ya))%nat = true).
  { apply Nat.eqb_eq. unfold not_nan_mask. by rewrite length_map. }
  rewrite Hl. simpl. rewrite Hmy. simpl.
  by destruct (mask_hovertext (not_nan_mask ya) (hf_hovertext l)).
Qed.

Lemma widen_vals (ya : YArr) : y_vals (widen ya) = y_vals ya.
Proof. unfold widen. by destruct (y_cont ya), (y_dtype ya). Qed.

Lemma mask_hovertext_cells (mask : list bool) (h : Hover) (cells : list (option string)) :
  hover_cells h = Some cells → length cells = length mask →
  mask_hovertext mask h = Ok (HArr ndarray (mask_select mask cells)).
Proof.
  intros Hc Hlen. unfold mask_hovertext.
  assert (Hl : (length cells =? length mask)%nat = true) by by apply Nat.eqb_eq.
  destruct h as [| s | c cs | k rows]; simpl in Hc; try done.
  - destruct c; simplify_eq; by rewrite Hl.
  - simplify_eq. by rewrite Hl.
Qed.

(** ** What admission stores *)

(** A scatter trace that [add_trace] accepts passed the checks and took one
    of the two paths. *)
Lemma add_trace_ok_inv (args : AddArgs) (self : FigureResampler) (trace : Trace)
    (st' : FigureResampler * Trace) :
  is_high_frequency trace = true →
  add_trace args (self, trace) = (Ok tt, st') →
  ∃ xa ya h,
    checked (admission_locals args trace) xa ya h
    ∧ if to_store args self (length (x_labels xa)) then
        is_monotonic_increasing (series_keys (make_series xa ya)) = true
        ∧ check_update_trace_data (register args self (new_entry args self xa ya h))
            None None (with_default_name self (set_text HNone (tagged args trace)))
          = (Ok tt, st'.2)
        ∧ st'.1 = set_data (data self ++ [st'.2])
                    (register args self (new_entry args self xa ya h))
      else
        st' = (set_data (data self ++ [raw_trace args trace xa ya h]) self,
               raw_trace args trace xa ya h).
Proof.
  intros Hhf Hrun.
  destruct (checked_dec (admission_locals args trace)) as [(xa & ya & h & Hc) | Hno].
  2: { destruct (add_trace_check_fails args self trace Hhf Hno) as [e He]. congruence. }
  exists xa, ya, h. split; [exact Hc |].
  destruct (to_store args self (length (x_labels xa))) eqn:Hst.
  - destruct (is_monotonic_increasing (series_keys (make_series xa ya))) eqn:Hm.
    2: { rewrite (add_trace_unsorted args self trace xa ya h Hhf Hc Hst Hm) in Hrun.
         done. }
    split; [done |].
    rewrite (add_trace_stored args self trace xa ya h Hhf Hc Hst Hm) in Hrun.
    destruct (check_update_trace_data _ None None _) as [[[] | e] t']; [|done].
    simpl in Hrun. by simplify_eq.
  - rewrite (add_trace_raw args self trace xa ya h Hhf Hc Hst) in Hrun. by simplify_eq.
Qed.

Lemma make_series_nonempty (xa : XArr) (ya : YArr) :
  (0 < length (x_labels xa))%nat → length (x_labels xa) = length (y_vals ya) →
  s_samples (make_series xa ya) ≠ [].
Proof.
  unfold make_series. simpl.
  destruct (x_labels xa), (y_vals ya); simpl; intros; try done; lia.
Qed.

(** Whatever [add_trace] does, the store afterwards is the store before, or
    the store before with one valid entry put under the drawn uuid. *)
Lemma add_trace_store (args : AddArgs) (self : FigureResampler) (trace : Trace) :
  _hf_data (add_trace args (self, trace)).2.1 = _hf_data self
  ∨ ∃ e, _hf_data (add_trace args (self, trace)).2.1 = <[a_uuid4 args := e]> (_hf_data self)
         ∧ valid_entry e.
Proof.
  destruct (is_high_frequency trace) eqn:Hhf.
  2: { left. by apply add_trace_other_store. }
  destruct (checked_dec (admission_locals args trace)) as [(xa & ya & h & Hc) | Hno].
  2: { destruct (add_trace_check_fails args self trace Hhf Hno) as [e ->]. by left. }
  destruct (to_store args self (length (x_labels xa))) eqn:Hst.
  2: { rewrite (add_trace_raw args self trace xa ya h Hhf Hc Hst). by left. }
  destruct (is_monotonic_increasing (series_keys (make_series xa ya))) eqn:Hm.
  2: { rewrite (add_trace_unsorted args self trace xa ya h Hhf Hc Hst Hm). by left. }
  right. exists (new_entry args self xa ya h).
  rewrite (add_trace_stored args self trace xa ya h Hhf Hc Hst Hm).
  split.
  - by destruct (check_update_trace_data _ None None _) as [[[] | e] t'].
  - split; [|exact Hm]. destruct Hc as (_ & _ & Hpos & Hlen & _).
    by apply make_series_nonempty.
Qed.

(** X12.  A trace of any type other than scatter and scattergl never
    touches the store.  When [add_trace] accepts a trace under a uuid that
    is not yet in the store: for a scatter or scattergl trace the checks
    passed on the data left by the NaN block, an entry exists under the
    uuid afterwards if and only if the number of samples exceeds the budget
    or [limit_to_view] is set, in that case the trace is what the
    synchronizer makes of it without bounds, and otherwise the trace carries
    the data as it is and the store is unchanged; for any other type the
    trace only has [hf_x] and [hf_y] merged into x and y (besides the uuid
    every trace is stamped with).  In each case the trace joins the data of
    the figure. *)
Theorem add_trace_admission (args : AddArgs) (self : FigureResampler) (trace : Trace) :
  (is_high_frequency trace = false →
   _hf_data (add_trace args (self, trace)).2.1 = _hf_data self)
  ∧ ∀ self' trace',
      add_trace args (self, trace) = (Ok tt, (self', trace')) →
      _hf_data self !! a_uuid4 args = None →
      data self' = (data self ++ [trace'])%list
      ∧ if is_high_frequency trace then
          ∃ xa ya h,
            checked (admission_locals args trace) xa ya h
            ∧ (is_Some (_hf_data self' !! a_uuid4 args)
               ↔ to_store args self (length (x_labels xa)) = true)
            ∧ if to_store args self (length (x_labels xa)) then
                _hf_data self'
                = <[a_uuid4 args := new_entry args self xa ya h]> (_hf_data self)
                ∧ check_update_trace_data
                    (register args self (new_entry args self xa ya h)) None None
                    (with_default_name self (set_text HNone (tagged args trace)))
                  = (Ok tt, trace')
              else
                _hf_data self' = _hf_data self
                ∧ trace' = raw_trace args trace xa ya h
        else
          _hf_data self' = _hf_data self ∧ trace' = merged_trace args trace.
Proof.
  split; [apply add_trace_other_store |].
  intros self' trace' Hrun Hfresh.
  destruct (is_high_frequency trace) eqn:Hhf.
  - destruct (add_trace_ok_inv args self trace _ Hhf Hrun) as (xa & ya & h & Hc & Hpath).
    destruct (to_store args self (length (x_labels xa))) eqn:Hst.
    + destruct Hpath as (Hm & Hsync & Hself). simpl in Hsync, Hself. subst self'.
      split; [done |]. exists xa, ya, h. rewrite Hst. split; [done |].
      split; [|done].
      split; [done |]. intros _. simpl. rewrite lookup_insert_eq. by eexists.
    + simplify_eq. split; [done |]. exists xa, ya, h. rewrite Hst. split; [done |].
      split; [|done]. simpl. rewrite Hfresh. split; [by intros [? ?] | done].
  - apply (add_trace_other_ok args self trace _ Hhf) in Hrun. by simplify_eq.
Qed.

Lemma add_trace_admission_witness :
  let out := add_trace (five_args "u") (fig_tests, empty_trace "scatter" (Some "test")) in
  out = (Ok tt, out.2)
  ∧ _hf_data fig_tests !! "u" = None
  ∧ data out.2.1 = [out.2.2]
  ∧ is_Some (_hf_data out.2.1 !! "u").
Proof.
  cbv zeta.
  pose proof (proj2 (add_trace_admission (five_args "u") fig_tests
                       (empty_trace "scatter" (Some "test")))
                (add_trace (five_args "u")
                   (fig_tests, empty_trace "scatter" (Some "test"))).2.1
                (add_trace (five_args "u")
                   (fig_tests, empty_trace "scatter" (Some "test"))).2.2
                eq_refl eq_refl) as [Hdata Hhf].
  split; [reflexivity |]. split; [reflexivity |]. split; [exact Hdata |].
  vm_compute. by eexists.
Defined.

(** A bar trace: nothing is stored, [hf_x] and [hf_y] become its x and y. *)
Example bar_trace_passes_through :
  let out := add_trace (five_args "u") (fig_tests, empty_trace "bar" (Some "b")) in
  out.1 = Ok tt
  ∧ _hf_data out.2.1 = ∅
  ∧ out.2.2 = set_y (Some five_y) (set_x (Some five_x)
                (set_uid (Some "u") (empty_trace "bar" (Some "b")))).
Proof. repeat split; reflexivity. Qed.

(** C2.  For a trace of another type than scatter and scattergl, with
    [hf_x] and [hf_y] merged in and an x that is not empty, line 498 takes
    the length of the comparison of x with the length of y.  When x is a
    tuple or a list, as plotly keeps an x given as a list, that comparison
    is a bool and the call raises [TypeError], and so it does when there is
    no y: the trace is not passed through, the figure gets no trace.  When
    x is an array the trace is handed to [super().add_trace] whatever the
    length of y is. *)
Theorem other_trace_length_check (args : AddArgs) (self : FigureResampler) (trace : Trace)
    (xa : XArr) :
  is_high_frequency trace = false →
  x (merged_trace args trace) = Some xa →
  (0 < length (x_labels xa))%nat →
  add_trace args (self, trace)
  = if bool_decide (is_Some (y (merged_trace args trace))) && maskable (x_cont xa)
    then super_add_trace (self, merged_trace args trace)
    else (Raise TypeError, (self, merged_trace args trace)).
Proof.
  intros Hhf Hx Hlen. run_add. fold (tagged args trace).
  rewrite is_high_frequency_tagged, Hhf. run_mut. cbn [fst snd].
  change (set_y _ (set_x _ (tagged args trace))) with (merged_trace args trace).
  rewrite Hx. cbn [len_x]. apply Nat.ltb_lt in Hlen. rewrite Hlen.
  destruct (y (merged_trace args trace)) as [ya |]; [|done].
  cbn [len_y]. rewrite bool_decide_eq_true_2 by eauto.
  by destruct (maskable (x_cont xa)).
Qed.

Lemma other_trace_length_check_witness :
  let out := add_trace (no_args "u") (fig_default, tuple_bar) in
  is_high_frequency tuple_bar = false
  ∧ x (merged_trace (no_args "u") tuple_bar) = Some tuple_x
  ∧ out.1 = Raise TypeError
  ∧ data out.2.1 = [] ∧ _hf_data out.2.1 = ∅.
Proof.
  cbv zeta.
  rewrite (other_trace_length_check (no_args "u") fig_default tuple_bar tuple_x
             eq_refl eq_refl ltac:(simpl; lia)).
  repeat split; reflexivity.
Defined.

(** The same on a histogram, which has no y, and the other way round on a
    bar trace over arrays of three positions and two values, which is
    accepted. *)
Example histogram_is_refused :
  (add_trace (no_args "u") (fig_default, histogram)).1 = Raise TypeError.
Proof. reflexivity. Qed.

Example lengths_are_not_compared :
  let out := add_trace short_y_args (fig_default, empty_trace "bar" (Some "b")) in
  out.1 = Ok tt
  ∧ (x out.2.2, y out.2.2) = (Some nan_x, Some two_y)
  ∧ data out.2.1 = [out.2.2].
Proof. repeat split; reflexivity. Qed.

(** ** NaN values at admission *)

(** C5, as stated, fails: with the values 1, NaN, 3 in an object array the
    stored series keeps the NaN, and the trace shows it. *)
Lemma object_array_keeps_nan_counterexample :
  let out := add_trace (nan_args object_) (fig_default, empty_trace "scatter" (Some "a")) in
  out.1 = Ok tt
  ∧ (s_samples ∘ hf_series <$> _hf_data out.2.1 !! "u")
    = Some [(0, Num 1); (1, NaN); (2, Num 3)]%Q.
Proof. split; reflexivity. Qed.

(** The example of the specification, with float cells. *)
Example float_array_drops_nan :
  let out := add_trace (nan_args float64) (fig_default, empty_trace "scatter" (Some "a")) in
  out.1 = Ok tt
  ∧ (s_samples ∘ hf_series <$> _hf_data out.2.1 !! "u") = Some [(0, Num 1); (2, Num 3)]%Q
  ∧ (e_hovertext <$> _hf_data out.2.1 !! "u")
    = Some (HSeries Int64Index [(0, Some "a"); (2, Some "c")]%Q).
Proof. repeat split; reflexivity. Qed.

(** C5, amended.  When the cells of [hf_y] are of a dtype that [np.isnan]
    accepts and [hf_x] and [hf_y] are arrays of one length that take a
    boolean mask, a trace that is admitted and stored is stored with exactly
    the (position, value) pairs whose value is not NaN, in their order; and
    a hovertext given as list, ndarray or Series of that length is stored
    cut by the same mask. *)
Theorem admitted_series_without_nans (args : AddArgs) (self : FigureResampler)
    (trace : Trace) (st' : FigureResampler * Trace) (xa : XArr) (ya : YArr) :
  is_high_frequency trace = true →
  hf_x (initial_locals args (tagged args trace)) = Some xa →
  hf_y (initial_locals args (tagged args trace)) = Some ya →
  supports_isnan (y_dtype ya) = true →
  maskable (x_cont xa) = true → maskable (y_cont ya) = true →
  length (x_labels xa) = length (y_vals ya) →
  to_store args self (length (non_nan_pairs xa ya)) = true →
  add_trace args (self, trace) = (Ok tt, st') →
  ∃ e, _hf_data st'.1 !! a_uuid4 args = Some e
       ∧ s_samples (hf_series e) = non_nan_pairs xa ya
       ∧ ∀ cells,
           hover_cells (hf_hovertext (initial_locals args (tagged args trace))) = Some cells →
           length cells = length (y_vals ya) →
           e_hovertext e
           = HSeries (x_kind xa)
               (zip (mask_select (not_nan_mask ya) (x_labels xa))
                    (mask_select (not_nan_mask ya) cells)).
Proof.
  intros Hhf Hx Hy Hsup Hmx Hmy Hlen Hst Hrun.
  destruct (remove_nans_masked _ xa ya Hx Hy Hsup Hmx Hmy Hlen) as (Hx' & Hy' & Hh').
  destruct (add_trace_ok_inv args self trace _ Hhf Hrun) as (xa' & ya' & h & Hc & Hpath).
  destruct Hc as (Hcx & Hcy & Hpos & Hleq & Hhs).
  unfold admission_locals in Hcx, Hcy, Hhs.
  rewrite Hx' in Hcx. rewrite Hy' in Hcy. simplify_eq.
  assert (Hpairs : s_samples (make_series
             {| x_cont := x_cont xa; x_kind := x_kind xa;
                x_labels := mask_select (not_nan_mask ya) (x_labels xa) |}
             (widen {| y_cont := y_cont ya; y_dtype := y_dtype ya;
                       y_vals := mask_select (not_nan_mask ya) (y_vals ya) |}))
           = non_nan_pairs xa ya).
  { unfold make_series. simpl. rewrite widen_vals. simpl.
    by apply zip_mask_select. }
  simpl in Hpath.
  assert (Hn : length (mask_select (not_nan_mask ya) (x_labels xa))
               = length (non_nan_pairs xa ya)).
  { rewrite <- Hpairs. unfold make_series. simpl. rewrite widen_vals. simpl.
    rewrite length_zip. simpl in Hleq. rewrite widen_vals in Hleq. simpl in Hleq. lia. }
  rewrite Hn, Hst in Hpath. destruct Hpath as (Hm & Hsync & Hself).
  eexists. split.
  { rewrite Hself. simpl. apply lookup_insert_eq. }
  split; [exact Hpairs |].
  intros cells Hcells Hclen. simpl.
  rewrite Hh' in Hhs.
  rewrite (mask_hovertext_cells _ _ cells Hcells) in Hhs.
  2: { unfold not_nan_mask. by rewrite length_map. }
  simpl in Hhs.
  rewrite (mask_select_lengths (not_nan_mask ya) cells (x_labels xa)) in Hhs by lia.
  rewrite Nat.eqb_refl in Hhs. by simplify_eq.
Qed.

Lemma admitted_series_without_nans_witness :
  let out := add_trace (nan_args float64) (fig_default, empty_trace "scatter" (Some "a")) in
  out = (Ok tt, out.2)
  ∧ ∃ e, _hf_data out.2.1 !! "u" = Some e
         ∧ s_samples (hf_series e) = [(0, Num 1); (2, Num 3)]%Q.
Proof.
  cbv zeta. split; [reflexivity |].
  destruct (admitted_series_without_nans (nan_args float64) fig_default
              (empty_trace "scatter" (Some "a"))
              (add_trace (nan_args float64)
                 (fig_default, empty_trace "scatter" (Some "a"))).2
              nan_x (nan_y float64)
              eq_refl eq_refl eq_refl eq_refl eq_refl eq_refl eq_refl eq_refl eq_refl)
    as (e & He & Hs & _).
  exists e. split; [exact He | exact Hs].
Defined.

(** ** Rejected input *)

(** C6, as stated, fails: two points whose positions go down, within the
    budget and without [limit_to_view], are accepted and shown as they are;
    nothing is stored. *)
Lemma unsorted_within_budget_counterexample :
  let trace := empty_trace "scatter" (Some "a") in
  let out := add_trace unsorted_args (fig_default, trace) in
  is_high_frequency trace = true
  ∧ is_monotonic_increasing [2; 1]%Q = false
  ∧ out.1 = Ok tt
  ∧ x out.2.2 = Some (int_array [2; 1]%Q)
  ∧ _hf_data out.2.1 = ∅.
Proof. repeat split; reflexivity. Qed.

(** C6, amended.  Admission of a scatter or scattergl trace fails with
    [AssertionError], the store unchanged, when no sample is left after the
    NaN block, and when the positions are not monotonically non-decreasing
    and the trace is to be stored (over budget or [limit_to_view]); in every
    case the store afterwards is the store before, or the store before with
    one entry that has at least one sample and sorted positions. *)
Theorem admission_rejects (args : AddArgs) (self : FigureResampler) (trace : Trace) :
  is_high_frequency trace = true →
  let l := admission_locals args trace in
  let out := add_trace args (self, trace) in
  (len_x (hf_x l) = Ok 0%nat →
   out.1 = Raise AssertionError ∧ _hf_data out.2.1 = _hf_data self)
  ∧ (∀ xa ya h,
       checked l xa ya h →
       to_store args self (length (x_labels xa)) = true →
       is_monotonic_increasing (series_keys (make_series xa ya)) = false →
       out.1 = Raise AssertionError ∧ _hf_data out.2.1 = _hf_data self)
  ∧ (_hf_data out.2.1 = _hf_data self
     ∨ ∃ e, _hf_data out.2.1 = <[a_uuid4 args := e]> (_hf_data self) ∧ valid_entry e).
Proof.
  intros Hhf. cbv zeta. split; [|split].
  - intros Hlen. by rewrite (add_trace_empty args self trace Hhf Hlen).
  - intros xa ya h Hc Hst Hm.
    by rewrite (add_trace_unsorted args self trace xa ya h Hhf Hc Hst Hm).
  - apply add_trace_store.
Qed.

Lemma admission_rejects_witness :
  let trace := empty_trace "scatter" (Some "a") in
  let out := add_trace all_nan_args (fig_default, trace) in
  is_high_frequency trace = true
  ∧ len_x (hf_x (admission_locals all_nan_args trace)) = Ok 0%nat
  ∧ out.1 = Raise AssertionError
  ∧ _hf_data out.2.1 = ∅.
Proof.
  cbv zeta. split; [reflexivity |]. split; [reflexivity |].
  exact (proj1 (admission_rejects all_nan_args fig_default
                  (empty_trace "scatter" (Some "a")) eq_refl) eq_refl).
Defined.

(** Positions that go down on a trace that [limit_to_view] has stored. *)
Example unsorted_limit_to_view :
  let args := {| a_max_n_samples := None; a_downsampler := None; a_limit_to_view := true;
                 a_hf_x := a_hf_x unsorted_args; a_hf_y := a_hf_y unsorted_args;
                 a_hf_hovertext := HNone; a_uuid4 := "u" |} in
  let out := add_trace args (fig_default, empty_trace "scatter" (Some "a")) in
  out.1 = Raise AssertionError ∧ _hf_data out.2.1 = ∅.
Proof. split; reflexivity. Qed.

(** ** The swallowed exception *)

(** C10.  The NaN block never raises.  When the cells of [hf_y] are of a
    dtype that [np.isnan] rejects, the block assigns nothing: admission goes
    on with [hf_x], [hf_y] and the hovertext as they came, and a trace that
    is then stored is stored with every (position, value) pair, NaN values
    included. *)
Theorem nan_block_swallows (args : AddArgs) (self : FigureResampler) (trace : Trace)
    (ya : YArr) :
  is_high_frequency trace = true →
  hf_y (initial_locals args (tagged args trace)) = Some ya →
  supports_isnan (y_dtype ya) = false →
  (∀ l, (try_except_pass remove_nans_body l).1 = Ok tt)
  ∧ admission_locals args trace = initial_locals args (tagged args trace)
  ∧ add_trace args (self, trace)
    = admit_high_frequency args (budget args self)
        (initial_locals args (tagged args trace))
        (self, set_text HNone (tagged args trace))
  ∧ ∀ st' xa,
      hf_x (initial_locals args (tagged args trace)) = Some xa →
      add_trace args (self, trace) = (Ok tt, st') →
      to_store args self (length (x_labels xa)) = true →
      ∃ e, _hf_data st'.1 !! a_uuid4 args = Some e
           ∧ s_samples (hf_series e) = zip (x_labels xa) (y_vals ya).
Proof.
  intros Hhf Hy Hsup.
  assert (Hl : admission_locals args trace = initial_locals args (tagged args trace)).
  { unfold admission_locals. apply remove_nans_no_mask with TypeError.
    rewrite Hy. simpl. by rewrite Hsup. }
  split; [done |]. split; [exact Hl |]. split.
  - unfold add_trace. run_mut. unfold on_trace. run_mut. cbn [fst snd].
    fold (tagged args trace). rewrite is_high_frequency_tagged, Hhf.
    fold (admission_locals args trace). by rewrite Hl.
  - intros st' xa Hx Hrun Hst.
    destruct (add_trace_ok_inv args self trace _ Hhf Hrun) as (xa' & ya' & h & Hc & Hpath).
    destruct Hc as (Hcx & Hcy & _). rewrite Hl in Hcx, Hcy. simplify_eq.
    rewrite Hst in Hpath. destruct Hpath as (_ & _ & Hself).
    exists (new_entry args self xa ya h). split; [|reflexivity].
    rewrite Hself. simpl. apply lookup_insert_eq.
Qed.

Lemma nan_block_swallows_witness :
  let trace := empty_trace "scatter" (Some "a") in
  is_high_frequency trace = true
  ∧ hf_y (initial_locals (nan_args object_) (tagged (nan_args object_) trace))
    = Some (nan_y object_)
  ∧ supports_isnan (y_dtype (nan_y object_)) = false
  ∧ admission_locals (nan_args object_) trace
    = initial_locals (nan_args object_) (tagged (nan_args object_) trace).
Proof.
  cbv zeta. split; [reflexivity |]. split; [reflexivity |]. split; [reflexivity |].
  exact (proj1 (proj2 (nan_block_swallows (nan_args object_) fig_default
                         (empty_trace "scatter" (Some "a")) (nan_y object_)
                         eq_refl eq_refl eq_refl))).
Defined.

(** ** The batch update *)

Lemma for_each_length {S} (body : Mut S unit) (l : list S) :
  length (for_each body l).2 = length l.
Proof.
  induction l as [|s l IH]; simpl; [done |].
  destruct (body s) as [[[] | e] s']; simpl; [|done].
  destruct (for_each body l) as [r l']. simpl in *. by rewrite IH.
Qed.

(** An element that the body leaves as it is, is the same after the loop. *)
Lemma for_each_unchanged {S} (body : Mut S unit) (l : list S) (i : nat) (s : S) :
  l !! i = Some s → (body s).2 = s → (for_each body l).2 !! i = Some s.
Proof.
  revert i. induction l as [|s0 l IH]; intros i Hi Hs; [done |]. simpl.
  destruct i as [|i]; simpl in Hi.
  - simplify_eq. destruct (body s) as [[[] | e] s'] eqn:Hb; simpl in *.
    + destruct (for_each body l) as [r l']. simpl. by rewrite Hs.
    + by rewrite Hs.
  - destruct (body s0) as [[[] | e] s'] eqn:Hb; simpl.
    + specialize (IH i Hi Hs). by destruct (for_each body l) as [r l'].
    + exact Hi.
Qed.

(** After a loop that ran to its end every element is what the body made of
    it, and the body succeeded on it. *)
Lemma for_each_ok {S} (body : Mut S unit) (l : list S) (i : nat) (s : S) :
  (for_each body l).1 = Ok tt → l !! i = Some s →
  body s = (Ok tt, (body s).2) ∧ (for_each body l).2 !! i = Some (body s).2.
Proof.
  revert i. induction l as [|s0 l IH]; intros i Hok Hi; [done |]. simpl in *.
  destruct (body s0) as [[[] | e] s'] eqn:Hb; simpl in *; [|done].
  destruct (for_each body l) as [r l'] eqn:Hl. simpl in *.
  destruct i as [|i]; simpl in Hi.
  - simplify_eq. by rewrite Hb.
  - by apply IH.
Qed.

Lemma update_one_skips (self : FigureResampler) (layout : gmap string AxisLayout)
    (start stop : option Bound) (xaxis_filter : option string) (t : Trace) :
  passes_filter layout xaxis_filter t ≠ Ok true →
  (update_one self layout start stop xaxis_filter t).2 = t.
Proof.
  intros H. unfold update_one. run_mut.
  by destruct (passes_filter layout xaxis_filter t) as [[] | e].
Qed.

Lemma update_one_runs (self : FigureResampler) (layout : gmap string AxisLayout)
    (start stop : option Bound) (xaxis_filter : option string) (t : Trace) :
  passes_filter layout xaxis_filter t = Ok true →
  update_one self layout start stop xaxis_filter t
  = check_update_trace_data self start stop t.
Proof. intros H. unfold update_one. run_mut. by rewrite H. Qed.

Lemma lstrip_digits (d : string) :
  all_digits d = true → lstrip "xaxis_filter" d = d.
Proof.
  destruct d as [|c d]; [done |]. intros H.
  change (all_digits (String c d)) with (char_in c "0123456789" && all_digits d) in H.
  apply andb_true_iff in H as [Hc _].
  assert (Hnot : char_in c "xaxis_filter" = false).
  { simpl in Hc. repeat (apply orb_true_iff in Hc as [Hc | Hc];
      [apply Ascii.eqb_eq in Hc; by subst c |]). done. }
  cbn [lstrip]. by rewrite Hnot.
Qed.

(** For a filter of the form xaxis, xaxis2, xaxis3, ... the test of the
    loop is the rule above. *)
Lemma passes_filter_rule (layout : gmap string AxisLayout) (d : string) (t : Trace) :
  all_digits d = true →
  passes_filter layout (Some ("xaxis" +:+ d)) t = filter_rule layout d t.
Proof.
  intros Hd. unfold passes_filter, filter_rule.
  change (lstrip "xaxis_filter" ("xaxis" +:+ d)) with (lstrip "xaxis_filter" d).
  rewrite (lstrip_digits d Hd).
  change (str_drop 1 ("xaxis" +:+ d)) with ("axis" +:+ d).
  change ("y" +:+ "axis" +:+ d) with ("yaxis" +:+ d).
  destruct (layout !! _) as [ax |]; [|done]. f_equal.
  destruct d as [|c d].
  - simpl. by rewrite orb_false_r, negb_involutive.
  - change (nonempty (String c d)) with true. cbn iota.
    assert (Hne : String.eqb ("x" +:+ String c d) "x" = false).
    { apply String.eqb_neq. done. }
    rewrite Hne. simpl. by rewrite negb_involutive.
Qed.

(** C7, as stated, fails: with two x-axes, a trace that names no y-axis is
    on the first subplot, yet a change of the second x-axis re-slices it. *)
Lemma batch_filter_counterexample :
  let out := check_update_figure_dict two_axis_store (Some (BNum 1)) (Some (BNum 3))
               (Some "xaxis2") two_axis_figure in
  plotly_anchor two_axis_layout first_subplot_trace = "x"
  ∧ out.1 = Ok tt
  ∧ fd_data out.2 !! 0%nat ≠ Some first_subplot_trace
  ∧ (x <$> fd_data out.2 !! 0%nat)
    = Some (Some {| x_cont := pd_index; x_kind := Int64Index; x_labels := [1; 2]%Q |}).
Proof.
  cbv zeta. split; [reflexivity |]. split; [reflexivity |]. split; [|reflexivity].
  intros H. apply (f_equal (fmap x)) in H. vm_compute in H. discriminate H.
Qed.

(** C7, amended.  The batch update keeps the layout and the number of
    traces.  A trace that does not pass the test of the loop is left as it
    is, whatever happens to the others; when the update runs to its end,
    every trace that passes the test is what the synchronizer makes of it
    with the new range.  Without a filter every trace passes; with the
    filter xaxis, xaxis2, ... the test looks at the layout entry of the
    y-axis of the trace (for a trace that names none: of the y-axis with the
    number of the filter) and passes the trace when that entry is anchored
    to the x-axis of the filter or, for the first x-axis, has no anchor. *)
Theorem batch_update_frame (self : FigureResampler) (start stop : option Bound)
    (xaxis_filter : option string) (figure : FigureDict) :
  let out := check_update_figure_dict self start stop xaxis_filter figure in
  fd_layout out.2 = fd_layout figure
  ∧ length (fd_data out.2) = length (fd_data figure)
  ∧ (∀ i t, fd_data figure !! i = Some t →
       (passes_filter (fd_layout figure) xaxis_filter t ≠ Ok true →
        fd_data out.2 !! i = Some t)
       ∧ (out.1 = Ok tt → passes_filter (fd_layout figure) xaxis_filter t = Ok true →
          (check_update_trace_data self start stop t).1 = Ok tt
          ∧ fd_data out.2 !! i = Some (check_update_trace_data self start stop t).2))
  ∧ (xaxis_filter = None → ∀ t, passes_filter (fd_layout figure) xaxis_filter t = Ok true)
  ∧ (∀ d t, all_digits d = true → xaxis_filter = Some ("xaxis" +:+ d) →
       passes_filter (fd_layout figure) xaxis_filter t = filter_rule (fd_layout figure) d t).
Proof.
  cbv zeta. unfold check_update_figure_dict.
  pose proof (for_each_length (update_one self (fd_layout figure) start stop xaxis_filter)
                (fd_data figure)) as Hlen.
  destruct (for_each _ (fd_data figure)) as [r d] eqn:Hloop. simpl in *.
  split; [done |]. split; [done |]. split; [|split].
  - intros i t Hi. split.
    + intros Hskip.
      pose proof (for_each_unchanged _ _ i t Hi
                    (update_one_skips self _ start stop _ t Hskip)) as H.
      by rewrite Hloop in H.
    + intros -> Hpass.
      pose proof (for_each_ok (update_one self (fd_layout figure) start stop xaxis_filter)
                    (fd_data figure) i t) as H.
      rewrite Hloop in H. destruct (H eq_refl Hi) as [Hb Hl].
      rewrite update_one_runs in Hb, Hl by done. split; [by rewrite Hb | done].
  - by intros ->.
  - intros d' t Hd ->. by apply passes_filter_rule.
Qed.

Lemma batch_update_frame_witness :
  let out := check_update_figure_dict two_axis_store (Some (BNum 1)) (Some (BNum 3))
               (Some "xaxis") two_axis_figure in
  fd_data two_axis_figure !! 1%nat = Some second_subplot_trace
  ∧ passes_filter two_axis_layout (Some "xaxis") second_subplot_trace ≠ Ok true
  ∧ fd_data out.2 !! 1%nat = Some second_subplot_trace.
Proof.
  cbv zeta.
  assert (H : passes_filter two_axis_layout (Some "xaxis") second_subplot_trace ≠ Ok true).
  { intros H. vm_compute in H. discriminate H. }
  split; [reflexivity |]. split; [exact H |].
  exact (proj1 (proj1 (proj2 (proj2 (batch_update_frame two_axis_store
           (Some (BNum 1)) (Some (BNum 3)) (Some "xaxis") two_axis_figure)))
           1%nat second_subplot_trace eq_refl) H).
Defined.

(** * Further properties *)

(** ** Slices *)

Lemma slice_linear_half_open_witness :
  numeric_kind (s_kind int_series) = true
  ∧ is_monotonic_increasing (series_keys int_series) = true
  ∧ given_or (Some (BNum (1 # 2))) (head (map fst (s_samples int_series))) = Some (1 # 2)
  ∧ given_or None (last (map fst (s_samples int_series))) = Some 2%Q
  ∧ slice_linear int_series (Some (BNum (1 # 2))) None
    = Ok (with_samples int_series [(0, Num 10); (1, Num 20)]%Q).
Proof.
  split; [reflexivity |]. split; [reflexivity |]. split; [reflexivity |].
  split; [reflexivity |].
  exact (slice_linear_half_open int_series (Some (BNum (1 # 2))) None (1 # 2) 2
           eq_refl eq_refl eq_refl eq_refl).
Defined.

Lemma slice_time_closed_witness :
  s_kind utc_series = DatetimeIndex (Some UTC)
  ∧ is_monotonic_increasing (series_keys utc_series) = true
  ∧ localizable (Some UTC) (Some (naive 1)) = true
  ∧ zone_mismatch (Some UTC) (Some (naive 1)) = false
  ∧ _slice_time utc_series (Some (naive 1)) None
    = Ok (with_samples utc_series [(1, Num 20); (2, Num 30)]%Q).
Proof.
  split; [reflexivity |]. split; [reflexivity |]. split; [reflexivity |].
  split; [reflexivity |].
  exact (slice_time_closed utc_series (Some UTC) (Some (naive 1)) None
           eq_refl eq_refl eq_refl eq_refl eq_refl eq_refl eq_refl eq_refl eq_refl).
Defined.

Lemma monotonic_drop (n : nat) (l : list Q) :
  is_monotonic_increasing l = true → is_monotonic_increasing (drop n l) = true.
Proof.
  revert l. induction n as [|n IH]; intros [|a l] H; simpl; try done.
  apply IH. by apply monotonic_tail in H.
Qed.

Lemma monotonic_take (n : nat) (l : list Q) :
  is_monotonic_increasing l = true → is_monotonic_increasing (take n l) = true.
Proof.
  revert l. induction n as [|n IH]; intros [|a l] H; try done.
  pose proof (IH l (monotonic_tail _ _ H)) as IHl.
  destruct n as [|n]; [done |]. destruct l as [|b l]; [done |].
  simpl in H. apply andb_true_iff in H as [Hab _].
  change (take (S (S n)) (a :: b :: l)) with (a :: b :: take n l).
  change (take (S n) (b :: l)) with (b :: take n l) in IHl.
  simpl. simpl in IHl. by rewrite Hab, IHl.
Qed.

Lemma series_keys_iloc (s : Series) (lo hi : nat) :
  series_keys (iloc s lo hi) = take (hi - lo) (drop lo (series_keys s)).
Proof. unfold series_keys, iloc. simpl. by rewrite skipn_map, firstn_map. Qed.

Lemma slice_linear_is_iloc (s view : Series) (start end_ : option Bound) :
  slice_linear s start end_ = Ok view → ∃ lo hi, view = iloc s lo hi.
Proof.
  unfold slice_linear, mbind, result_bind. intros H.
  repeat match type of H with
         | match ?r with Ok _ => _ | Raise _ => _ end = _ =>
           destruct r; [|discriminate H]
         end.
  injection H as <-. eauto.
Qed.

Lemma label_slice_is_iloc (s view : Series) (a b : option Timestamp) :
  label_slice s a b = Ok view → ∃ lo hi, view = iloc s lo hi.
Proof.
  unfold label_slice, mbind, result_bind. intros H.
  repeat match type of H with
         | match ?r with Ok _ => _ | Raise _ => _ end = _ =>
           destruct r; [|discriminate H]
         end.
  injection H as <-. eauto.
Qed.

Lemma slice_time_is_iloc (s view : Series) (a b : option Timestamp) :
  _slice_time s a b = Ok view → ∃ lo hi, view = iloc s lo hi.
Proof.
  unfold _slice_time, mbind, result_bind. intros H.
  repeat match type of H with
         | match ?r with Ok _ => _ | Raise _ => _ end = _ =>
           destruct r; [|discriminate H]
         end.
  by apply label_slice_is_iloc in H.
Qed.

(** X3.  Whatever the bounds, a view that the slicer returns is one
    contiguous run of the stored samples, in their order: it has the index
    kind and dtype of the stored series, no more samples than it, and sorted
    keys when the stored series has. *)
Theorem slice_view_contiguous (hf_data : HFEntry) (start end_ : option Bound)
    (view : Series) :
  slice_view hf_data start end_ = Ok view →
  ∃ lo hi,
    view = iloc (hf_series hf_data) lo hi
    ∧ (series_len view <= series_len (hf_series hf_data))%nat
    ∧ (is_monotonic_increasing (series_keys (hf_series hf_data)) = true →
       is_monotonic_increasing (series_keys view) = true).
Proof.
  intros H.
  assert (Hi : ∃ lo hi, view = iloc (hf_series hf_data) lo hi).
  { unfold slice_view in H. destruct (axis_type hf_data).
    - by apply slice_time_is_iloc in H.
    - by apply slice_linear_is_iloc in H. }
  destruct Hi as (lo & hi & ->). exists lo, hi. split; [done |]. split.
  - unfold series_len, iloc. simpl. rewrite length_take, length_drop. lia.
  - intros Hs. rewrite series_keys_iloc. by apply monotonic_take, monotonic_drop.
Qed.

Lemma slice_view_contiguous_witness :
  slice_view (entry_of int_series linear 5 HNone) (Some (BNum 1)) (Some (BNum 3))
  = Ok (with_samples int_series [(1, Num 20); (2, Num 30)]%Q)
  ∧ ∃ lo hi,
      with_samples int_series [(1, Num 20); (2, Num 30)]%Q = iloc int_series lo hi.
Proof.
  split; [reflexivity |].
  destruct (slice_view_contiguous (entry_of int_series linear 5 HNone)
              (Some (BNum 1)) (Some (BNum 3))
              (with_samples int_series [(1, Num 20); (2, Num 30)]%Q) eq_refl)
    as (lo & hi & H & _).
  exists lo, hi. exact H.
Defined.

(** ** The synchronizer *)

Lemma sync_decorates_witness :
  let t := stored_trace "a" HNone in
  let out := check_update_trace_data five_store None None t in
  out = (Ok tt, out.2)
  ∧ view_exceeds five_store None None t = true
  ∧ ∃ n', name out.2 = Some n'
          ∧ decorated (_prefix five_store) (_suffix five_store) n' = true.
Proof.
  cbv zeta. split; [reflexivity |]. split; [reflexivity |].
  exact (sync_decorates five_store None None (stored_trace "a" HNone) _ eq_refl eq_refl).
Defined.

(** X4.  In every outcome, also when it raises, a run keeps the uid, type,
    text and y-axis of the trace.  A trace whose uid has no entry in the
    store (no uid, or a uid that is not in the store) is left as it is; and
    when the slicing raises, as on a timezone mismatch, the exception is the
    outcome and the trace is left as it is. *)
Theorem sync_frame (self : FigureResampler) (start end_ : option Bound) (t : Trace) :
  let out := check_update_trace_data self start end_ t in
  uid out.2 = uid t ∧ type_ out.2 = type_ t ∧ text out.2 = text t ∧ yaxis out.2 = yaxis t
  ∧ ((∀ u, uid t = Some u → _hf_data self !! u = None) → out.2 = t)
  ∧ (∀ hf_data e, _query_hf_data self t = Some hf_data →
       slice_view hf_data start end_ = Raise e → out = (Raise e, t)).
Proof.
  cbv zeta.
  destruct (_query_hf_data self t) as [hf |] eqn:Hq.
  2: { rewrite (sync_no_entry _ _ _ _ Hq). by repeat split. }
  assert (Hstored : ¬ ∀ u, uid t = Some u → _hf_data self !! u = None).
  { intros Hno. unfold _query_hf_data in Hq. destruct (uid t) as [u |]; [|done].
    simpl in Hq. by rewrite (Hno u eq_refl) in Hq. }
  destruct (slice_view hf start end_) as [view | e] eqn:Hs.
  2: { rewrite (sync_slice_raises _ _ _ _ _ e Hq Hs). repeat split; try done.
       intros ? ? [= <-] ?. congruence. }
  destruct (name t) as [n |] eqn:Hn.
  2: { rewrite (sync_no_name _ _ _ _ _ view Hq Hs Hn). repeat split; try done.
       intros ? ? [= <-] ?. congruence. }
  destruct (updated_hovertext hf (downsampler hf view (max_n_samples hf)))
    as [h | e] eqn:Hh.
  - rewrite (sync_ok _ _ _ _ _ view n h Hq Hs Hn Hh). repeat split; try done.
    intros ? ? [= <-] ?. congruence.
  - rewrite (sync_hovertext_raises _ _ _ _ _ view n e Hq Hs Hn Hh).
    repeat split; try done. intros ? ? [= <-] ?. congruence.
Qed.

Lemma sync_frame_witness :
  let t := stored_trace "a" HNone in
  let start := Some (BTime {| wall := 1; tz := Some Brussels |}) in
  _query_hf_data utc_store t = Some (entry_of utc_series date 5 HNone)
  ∧ slice_view (entry_of utc_series date 5 HNone) start None = Raise AssertionError
  ∧ check_update_trace_data utc_store start None t = (Raise AssertionError, t).
Proof.
  cbv zeta. split; [reflexivity |]. split; [reflexivity |].
  exact (proj2 (proj2 (proj2 (proj2 (proj2
           (sync_frame utc_store (Some (BTime {| wall := 1; tz := Some Brussels |}))
              None (stored_trace "a" HNone))))))
           (entry_of utc_series date 5 HNone) AssertionError eq_refl eq_refl).
Defined.

Lemma str_take_append (a b : string) : str_take (String.length a) (a +:+ b) = a.
Proof.
  induction a as [|c a IH]; [by destruct b |]. rewrite append_cons. simpl. by rewrite IH.
Qed.

Lemma nonempty_false (s : string) : nonempty s = false → s = "".
Proof. by destruct s. Qed.

(** With a decoration on one side only, stripping undoes decorating on any
    name that was not strippable to begin with. *)
Lemma undecorate_decorate (prefix suffix name : string) :
  prefix = "" ∨ suffix = "" →
  strippable prefix suffix name = false →
  undecorate_name prefix suffix (decorate_name prefix suffix name) = name.
Proof.
  intros Hside Hs. unfold strippable in Hs. apply orb_false_iff in Hs as [Hp Hsf].
  destruct (nonempty prefix) eqn:Enp, (nonempty suffix) eqn:Ens.
  - destruct Hside as [-> | ->]; done.
  - apply nonempty_false in Ens as ->. simpl in Hp. by apply undecorate_prefix_only.
  - apply nonempty_false in Enp as ->. simpl in Hsf.
    unfold decorate_name, undecorate_name, strip_suffix_assign, strip_prefix_assign.
    rewrite startswith_empty, append_empty_l, Hsf. cbn [negb nonempty String.length
      Nat.eqb andb]. rewrite Ens, endswith_append. cbn [andb].
    rewrite length_append.
    replace (String.length name + String.length suffix - String.length suffix)%nat
      with (String.length name) by lia.
    apply str_take_append.
  - apply nonempty_false in Enp as ->. apply nonempty_false in Ens as ->.
    unfold decorate_name, undecorate_name, strip_suffix_assign, strip_prefix_assign.
    rewrite startswith_empty, append_empty_l, !endswith_empty.
    cbn [negb nonempty String.length Nat.eqb andb]. apply append_empty_r.
Qed.

(** X6.  When only a prefix or only a suffix is configured (as by default)
    and the name of the trace is not strippable, a run on a view over
    budget followed by a run on a view within budget gives the trace its
    name back. *)
Theorem name_restored_after_narrowing (self : FigureResampler)
    (wide_start wide_end start end_ : option Bound) (t t' : Trace) (n : string) :
  _prefix self = "" ∨ _suffix self = "" →
  name t = Some n →
  strippable (_prefix self) (_suffix self) n = false →
  view_exceeds self wide_start wide_end t = true →
  view_exceeds self start end_ t = false →
  (check_update_trace_data self wide_start wide_end;;
   check_update_trace_data self start end_) t = (Ok tt, t') →
  name t' = Some n.
Proof.
  intros Hside Hn Hstrip Hwide Hnarrow Hrun.
  unfold mbind, mut_bind in Hrun.
  destruct (check_update_trace_data self wide_start wide_end t) as [[[] | e] t1] eqn:H1;
    [|done].
  unfold view_exceeds in Hwide, Hnarrow.
  destruct (_query_hf_data self t) as [hf |] eqn:Hq; [|done].
  destruct (sync_ok_inv _ _ _ _ _ _ Hq H1) as (v1 & n1 & h1 & Hs1 & Hn1 & Hh1 & ->).
  rewrite Hs1 in Hwide. simplify_eq.
  assert (Hq1 : _query_hf_data self (set_hovertext h1 (with_view self hf v1 n t)) = Some hf)
    by exact Hq.
  destruct (sync_ok_inv _ _ _ _ _ _ Hq1 Hrun) as (v2 & n2 & h2 & Hs2 & Hn2 & Hh2 & ->).
  rewrite Hs2 in Hnarrow. simpl in Hn2. simplify_eq. simpl. f_equal.
  unfold updated_name. rewrite Hnarrow, Hwide. by apply undecorate_decorate.
Qed.

Lemma name_restored_after_narrowing_witness :
  let t := stored_trace "a" HNone in
  let run := (check_update_trace_data five_store None None;;
              check_update_trace_data five_store (Some (BNum 1)) (Some (BNum 3))) t in
  _suffix five_store = ""
  ∧ strippable (_prefix five_store) (_suffix five_store) "a" = false
  ∧ view_exceeds five_store None None t = true
  ∧ view_exceeds five_store (Some (BNum 1)) (Some (BNum 3)) t = false
  ∧ run = (Ok tt, run.2)
  ∧ name run.2 = Some "a".
Proof.
  cbv zeta. split; [reflexivity |]. split; [reflexivity |]. split; [reflexivity |].
  split; [reflexivity |]. split; [reflexivity |].
  exact (name_restored_after_narrowing five_store None None (Some (BNum 1))
           (Some (BNum 3)) (stored_trace "a" HNone) _ "a"
           (or_intror eq_refl) eq_refl eq_refl eq_refl eq_refl eq_refl).
Defined.

(** ** Admission *)

Lemma self_eta (self : FigureResampler) :
  set_data (data self) (set_hf_data (_hf_data self) self) = self.
Proof. by destruct self. Qed.

(** The outcomes of [add_trace]: it raises with [self] as it was; or it
    appends the trace with the store as it was; or it stores a valid entry
    and then appends the trace or raises from the first view. *)
Lemma add_trace_cases (args : AddArgs) (self : FigureResampler) (trace : Trace) :
  (∃ e t', add_trace args (self, trace) = (Raise e, (self, t')))
  ∨ (∃ t', add_trace args (self, trace)
           = (Ok tt, (set_data (data self ++ [t']) self, t')))
  ∨ (∃ entry, valid_entry entry
       ∧ ((∃ e t', add_trace args (self, trace) = (Raise e, (register args self entry, t')))
          ∨ (∃ t', add_trace args (self, trace)
                   = (Ok tt, (set_data (data self ++ [t']) (register args self entry),
                              t'))))).
Proof.
  destruct (is_high_frequency trace) eqn:Hhf.
  - destruct (checked_dec (admission_locals args trace)) as [(xa & ya & h & Hc) | Hno].
    2: { left. destruct (add_trace_check_fails args self trace Hhf Hno) as [e He].
         by exists e, (set_text HNone (tagged args trace)). }
    destruct (to_store args self (length (x_labels xa))) eqn:Hst.
    2: { right. left. eexists. by apply (add_trace_raw args self trace xa ya h). }
    destruct (is_monotonic_increasing (series_keys (make_series xa ya))) eqn:Hm.
    2: { left. eexists _, _. by apply (add_trace_unsorted args self trace xa ya h). }
    right. right. exists (new_entry args self xa ya h). split.
    { split; [|exact Hm]. destruct Hc as (_ & _ & Hpos & Hlen & _).
      by apply make_series_nonempty. }
    rewrite (add_trace_stored args self trace xa ya h Hhf Hc Hst Hm).
    destruct (check_update_trace_data _ None None _) as [[[] | e] t']; simpl.
    + right. by exists t'.
    + left. by exists e, t'.
  - run_add. fold (tagged args trace).
    rewrite is_high_frequency_tagged, Hhf. run_mut. cbn [fst snd].
    change (set_y _ (set_x _ (tagged args trace))) with (merged_trace args trace).
    destruct (len_x (x (merged_trace args trace))) as [n |]; [|left; by eexists _, _].
    destruct (0 <? n)%nat; [|left; by eexists _, _].
    destruct (len_y (y (merged_trace args trace))) as [m |]; [|left; by eexists _, _].
    destruct (x (merged_trace args trace)) as [xa |]; [|left; by eexists _, _].
    destruct (maskable (x_cont xa)); [|left; by eexists _, _].
    right. left. by eexists.
Qed.

(** X8.  Whatever [add_trace] does, it leaves every entry under another uid
    and the configuration of the figure (prefix, suffix, default budget and
    default downsampler) as they were. *)
Theorem add_trace_frame (args : AddArgs) (self : FigureResampler) (trace : Trace) :
  let self' := (add_trace args (self, trace)).2.1 in
  (∀ u, u ≠ a_uuid4 args → _hf_data self' !! u = _hf_data self !! u)
  ∧ _prefix self' = _prefix self
  ∧ _suffix self' = _suffix self
  ∧ _global_n_shown_samples self' = _global_n_shown_samples self
  ∧ _global_downsampler self' = _global_downsampler self.
Proof.
  cbv zeta.
  destruct (add_trace_cases args self trace)
    as [(e & t' & ->) | [(t' & ->) | (entry & _ & [(e & t' & ->) | (t' & ->)])]];
    simpl; repeat split; try done; intros u Hu; by rewrite lookup_insert_ne.
Qed.

Lemma add_trace_frame_witness :
  let self' := (add_trace (five_args "v") (five_store, empty_trace "scatter" None)).2.1 in
  "u" ≠ "v" ∧ _hf_data self' !! "u" = _hf_data five_store !! "u".
Proof.
  cbv zeta. split; [done |].
  exact (proj1 (add_trace_frame (five_args "v") five_store (empty_trace "scatter" None))
           "u" ltac:(done)).
Defined.

(** X9.  A call of [add_trace] that raises adds no trace to the figure; a
    call that returns adds exactly the trace it was given, at the end. *)
Theorem add_trace_data (args : AddArgs) (self : FigureResampler) (trace : Trace) :
  let out := add_trace args (self, trace) in
  match out.1 with
  | Raise _ => data out.2.1 = data self
  | Ok _ => data out.2.1 = (data self ++ [out.2.2])%list
  end.
Proof.
  cbv zeta.
  destruct (add_trace_cases args self trace)
    as [(e & t' & ->) | [(t' & ->) | (entry & _ & [(e & t' & ->) | (t' & ->)])]];
    done.
Qed.

(** X10.  If every entry of the store has at least one sample and sorted
    positions, the same holds after [add_trace], whatever its outcome. *)
Theorem store_stays_valid (args : AddArgs) (self : FigureResampler) (trace : Trace) :
  (∀ u e, _hf_data self !! u = Some e → valid_entry e) →
  ∀ u e, _hf_data (add_trace args (self, trace)).2.1 !! u = Some e → valid_entry e.
Proof.
  intros Hinv u e.
  destruct (add_trace_cases args self trace)
    as [(e0 & t' & ->) | [(t' & ->) | (entry & Hv & [(e0 & t' & ->) | (t' & ->)])]];
    simpl; try apply Hinv.
  all: destruct (decide (a_uuid4 args = u)) as [<- | Hne];
    [rewrite lookup_insert_eq; by intros [= <-]
    | rewrite lookup_insert_ne by done; apply Hinv].
Qed.

Lemma store_stays_valid_witness :
  let self' := (add_trace (five_args "v") (five_store, empty_trace "scatter" None)).2.1 in
  (∀ u e, _hf_data five_store !! u = Some e → valid_entry e)
  ∧ ∀ u e, _hf_data self' !! u = Some e → valid_entry e.
Proof.
  cbv zeta.
  assert (H : ∀ u e, _hf_data five_store !! u = Some e → valid_entry e).
  { intros u e He. simpl in He. apply lookup_singleton_Some in He as [_ <-].
    split; [done | reflexivity]. }
  split; [exact H |].
  exact (store_stays_valid (five_args "v") five_store (empty_trace "scatter" None) H).
Defined.

Lemma checked_unique (l : Locals) (xa xa' : XArr) (ya ya' : YArr) (h h' : Hover) :
  checked l xa ya h → checked l xa' ya' h' → xa = xa' ∧ ya = ya' ∧ h = h'.
Proof.
  intros (Hx & Hy & _ & _ & Hh) (Hx' & Hy' & _ & _ & Hh'). simplify_eq.
  rewrite Hh in Hh'. by simplify_eq.
Qed.

Lemma with_default_name_uid (self : FigureResampler) (t : Trace) :
  uid (with_default_name self t) = uid t.
Proof. unfold with_default_name. by destruct (name t). Qed.

Lemma with_default_name_named (self : FigureResampler) (t : Trace) :
  ∃ n, name (with_default_name self t) = Some n.
Proof. unfold with_default_name. destruct (name t) eqn:E; simpl; eauto. Qed.

(** X11.  A trace that [add_trace] returns carries the drawn uuid.  When it
    was stored, the lookup of the trace in the store finds the entry made
    for it; when it was not (another trace type, or within budget without
    [limit_to_view]) and the uuid is new, the store holds no entry under the
    uuid, and every later run of the synchronizer leaves the trace as it
    is. *)
Theorem admitted_trace_lookup (args : AddArgs) (self self' : FigureResampler)
    (trace trace' : Trace) :
  add_trace args (self, trace) = (Ok tt, (self', trace')) →
  uid trace' = Some (a_uuid4 args)
  ∧ (∀ xa ya h,
       is_high_frequency trace = true →
       checked (admission_locals args trace) xa ya h →
       to_store args self (length (x_labels xa)) = true →
       _query_hf_data self' trace' = Some (new_entry args self xa ya h))
  ∧ (_hf_data self !! a_uuid4 args = None →
     (is_high_frequency trace = false
      ∨ ∃ xa ya h, checked (admission_locals args trace) xa ya h
                   ∧ to_store args self (length (x_labels xa)) = false) →
     _hf_data self' !! a_uuid4 args = None
     ∧ ∀ start end_, (check_update_trace_data self' start end_ trace').2 = trace').
Proof.
  intros Hrun.
  destruct (is_high_frequency trace) eqn:Hhf.
  - destruct (add_trace_ok_inv args self trace _ Hhf Hrun) as (xa & ya & h & Hc & Hpath).
    destruct (to_store args self (length (x_labels xa))) eqn:Hst.
    + destruct Hpath as (Hm & Hsync & Hself). simpl in Hsync, Hself.
      assert (Hq : _query_hf_data (register args self (new_entry args self xa ya h))
                     (with_default_name self (set_text HNone (tagged args trace)))
                   = Some (new_entry args self xa ya h)).
      { unfold _query_hf_data. rewrite with_default_name_uid. simpl.
        apply lookup_insert_eq. }
      destruct (sync_ok_inv _ _ _ _ _ _ Hq Hsync) as (v & n & h2 & _ & _ & _ & ->).
      assert (Hu : uid (set_hovertext h2
                     (with_view (register args self (new_entry args self xa ya h))
                        (new_entry args self xa ya h) v n
                        (with_default_name self (set_text HNone (tagged args trace)))))
                   = Some (a_uuid4 args)).
      { simpl. by rewrite with_default_name_uid. }
      split; [exact Hu |]. split.
      * intros xa' ya' h' _ Hc' _.
        destruct (checked_unique _ _ _ _ _ _ _ Hc Hc') as (<- & <- & <-).
        unfold _query_hf_data. rewrite Hu, Hself. simpl. apply lookup_insert_eq.
      * intros _ [? | (xa' & ya' & h' & Hc' & Hst')]; [done |].
        destruct (checked_unique _ _ _ _ _ _ _ Hc Hc') as (<- & <- & <-). congruence.
    + simplify_eq. split; [done |]. split.
      * intros xa' ya' h' _ Hc' Hst'.
        destruct (checked_unique _ _ _ _ _ _ _ Hc Hc') as (<- & <- & <-). congruence.
      * intros Hfresh _.
        assert (Hq : _query_hf_data
                       (set_data (data self ++ [raw_trace args trace xa ya h]) self)
                       (raw_trace args trace xa ya h) = None) by exact Hfresh.
        split; [exact Hfresh |]. intros start end_. by rewrite sync_no_entry.
  - apply (add_trace_other_ok args self trace _ Hhf) in Hrun. simplify_eq.
    split; [done |]. split; [done |]. intros Hfresh _.
    assert (Hq : _query_hf_data
                   (set_data (data self ++ [merged_trace args trace]) self)
                   (merged_trace args trace) = None) by exact Hfresh.
    split; [exact Hfresh |]. intros start end_. by rewrite sync_no_entry.
Qed.

Lemma admitted_trace_lookup_witness :
  let out := add_trace (five_args "u") (fig_default, empty_trace "bar" (Some "b")) in
  out = (Ok tt, out.2)
  ∧ uid out.2.2 = Some "u"
  ∧ _hf_data out.2.1 !! "u" = None.
Proof.
  cbv zeta.
  destruct (admitted_trace_lookup (five_args "u") fig_default
              (add_trace (five_args "u") (fig_default, empty_trace "bar" (Some "b"))).2.1
              (empty_trace "bar" (Some "b"))
              (add_trace (five_args "u") (fig_default, empty_trace "bar" (Some "b"))).2.2
              eq_refl) as (Hu & _ & Hnone).
  split; [reflexivity |]. split; [exact Hu |].
  exact (proj1 (Hnone eq_refl (or_introl eq_refl))).
Defined.

(** ** The NaN block *)

(** X13.  When the NaN block runs through on a numpy array or Series of
    values, what it leaves as [hf_y] is never of dtype uint8 or uint16:
    those are widened to uint32, any other dtype is kept, and the values are
    the masked ones. *)
Theorem nan_block_widens (l : Locals) (xa : XArr) (ya : YArr) :
  hf_x l = Some xa → hf_y l = Some ya →
  supports_isnan (y_dtype ya) = true →
  maskable (x_cont xa) = true →
  y_cont ya = ndarray ∨ y_cont ya = pd_series →
  length (x_labels xa) = length (y_vals ya) →
  ∃ ya', hf_y (remove_nans l) = Some ya'
         ∧ y_vals ya' = mask_select (not_nan_mask ya) (y_vals ya)
         ∧ y_dtype ya' ≠ uint8 ∧ y_dtype ya' ≠ uint16
         ∧ y_dtype ya' = match y_dtype ya with
                         | uint8 | uint16 => uint32
                         | d => d
                         end.
Proof.
  intros Hx Hy Hsup Hmx Hc Hlen.
  assert (Hmy : maskable (y_cont ya) = true) by (destruct Hc as [-> | ->]; done).
  destruct (remove_nans_masked l xa ya Hx Hy Hsup Hmx Hmy Hlen) as (_ & Hy' & _).
  eexists. split; [exact Hy' |]. rewrite widen_vals. unfold widen. simpl.
  destruct Hc as [-> | ->]; destruct (y_dtype ya); simpl; by repeat split.
Qed.

Lemma nan_block_widens_witness :
  let l := {| hf_x := Some nan_x; hf_y := Some uint8_y; hf_hovertext := HNone |} in
  ∃ ya', hf_y (remove_nans l) = Some ya'
         ∧ y_vals ya' = [Num 1; Num 2; Num 3]
         ∧ y_dtype ya' = uint32.
Proof.
  cbv zeta.
  destruct (nan_block_widens
              {| hf_x := Some nan_x; hf_y := Some uint8_y; hf_hovertext := HNone |}
              nan_x uint8_y eq_refl eq_refl eq_refl eq_refl (or_introl eq_refl) eq_refl)
    as (ya' & Hy & Hv & _ & _ & Hd).
  exists ya'. split; [exact Hy |]. split; [exact Hv | exact Hd].
Defined.

Lemma mask_select_all {A} (vals : list yval) (l : list A) :
  length l = length vals →
  existsb isnan vals = false →
  mask_select (map (λ v, negb (isnan v)) vals) l = l.
Proof.
  revert l. induction vals as [|v vals IH]; intros [|a l] Hlen Hex; simpl in *; try done.
  apply orb_false_iff in Hex as [Hv Hex]. rewrite Hv. simpl. f_equal. apply IH; [lia | done].
Qed.

Lemma mask_select_shorter {A} (vals : list yval) (l : list A) :
  length l = length vals →
  existsb isnan vals = true →
  (length (mask_select (map (λ v, negb (isnan v)) vals) l) < length l)%nat.
Proof.
  revert l. induction vals as [|v vals IH]; intros [|a l] Hlen Hex; simpl in *; try done.
  destruct (isnan v) eqn:Hv; simpl.
  - pose proof (mask_select_length (map (λ v, negb (isnan v)) vals) l). lia.
  - specialize (IH l ltac:(lia) Hex). lia.
Qed.

(** When [hf_x] takes the mask and [hf_y] does not, the block assigns the
    masked [hf_x] and leaves the rest. *)
Lemma remove_nans_x_only (l : Locals) (xa : XArr) (ya : YArr) :
  hf_x l = Some xa → hf_y l = Some ya →
  supports_isnan (y_dtype ya) = true →
  maskable (x_cont xa) = true → maskable (y_cont ya) = false →
  length (x_labels xa) = length (y_vals ya) →
  remove_nans l
  = set_hf_x (Some {| x_cont := x_cont xa; x_kind := x_kind xa;
                      x_labels := mask_select (not_nan_mask ya) (x_labels xa) |}) l.
Proof.
  intros Hx Hy Hsup Hmx Hmy Hlen.
  unfold remove_nans, try_except_pass, remove_nans_body. run_mut.
  rewrite Hy. simpl. rewrite Hsup. fold (not_nan_mask ya).
  rewrite Hx. simpl. rewrite Hmx. simpl.
  assert (Hl : (length (x_labels xa) =? length (not_nan_mask ya))%nat = true).
  { apply Nat.eqb_eq. unfold not_nan_mask. by rewrite length_map. }
  rewrite Hl. simpl. by rewrite Hmy.
Qed.

(** X14.  An x that is an array (it takes a boolean mask) together with a y
    that is a plain list or tuple of the same length holding a NaN: the NaN
    block cuts x and then gives up on y, so the lengths differ and
    [add_trace] raises [AssertionError] at line 433 or 434; nothing is
    stored and no trace is added. *)
Theorem array_x_list_y_with_nan (args : AddArgs) (self : FigureResampler) (trace : Trace)
    (xa : XArr) (ya : YArr) :
  is_high_frequency trace = true →
  hf_x (initial_locals args (tagged args trace)) = Some xa →
  hf_y (initial_locals args (tagged args trace)) = Some ya →
  supports_isnan (y_dtype ya) = true →
  maskable (x_cont xa) = true → maskable (y_cont ya) = false →
  length (x_labels xa) = length (y_vals ya) →
  existsb isnan (y_vals ya) = true →
  add_trace args (self, trace)
  = (Raise AssertionError, (self, set_text HNone (tagged args trace))).
Proof.
  intros Hhf Hx Hy Hsup Hmx Hmy Hlen Hnan.
  pose proof (remove_nans_x_only _ xa ya Hx Hy Hsup Hmx Hmy Hlen) as Hl.
  pose proof (mask_select_shorter (y_vals ya) (x_labels xa) Hlen Hnan) as Hshort.
  fold (not_nan_mask ya) in Hshort.
  run_add. fold (tagged args trace).
  rewrite is_high_frequency_tagged, Hhf. rewrite Hl.
  cbn [set_hf_x hf_x hf_y hf_hovertext]. rewrite Hy. run_mut.
  cbn [len_x len_y x_labels].
  destruct (Nat.ltb_spec 0 (length (mask_select (not_nan_mask ya) (x_labels xa))));
    [|done].
  destruct (Nat.eqb_spec (length (mask_select (not_nan_mask ya) (x_labels xa)))
              (length (y_vals ya))); [lia | done].
Qed.

Lemma array_x_list_y_with_nan_witness :
  let trace := empty_trace "scatter" (Some "a") in
  is_high_frequency trace = true
  ∧ maskable (x_cont nan_x) = true ∧ maskable (y_cont list_y) = false
  ∧ existsb isnan (y_vals list_y) = true
  ∧ add_trace list_y_args (fig_default, trace)
    = (Raise AssertionError, (fig_default, set_text HNone (tagged list_y_args trace))).
Proof.
  cbv zeta. split; [reflexivity |]. split; [reflexivity |]. split; [reflexivity |].
  split; [reflexivity |].
  exact (array_x_list_y_with_nan list_y_args fig_default (empty_trace "scatter" (Some "a"))
           nan_x list_y eq_refl eq_refl eq_refl eq_refl eq_refl eq_refl eq_refl eq_refl).
Defined.

(** ** The batch update *)

Lemma for_each_all_unchanged {S} (body : Mut S unit) (l : list S) :
  (∀ s, s ∈ l → (body s).2 = s) → (for_each body l).2 = l.
Proof.
  induction l as [|s l IH]; intros H; [done |]. simpl.
  pose proof (H s ltac:(left)) as Hs.
  assert (Hl : (for_each body l).2 = l) by (apply IH; intros; apply H; by right).
  destruct (body s) as [[[] | e] s']; simpl in *; [|by rewrite Hs].
  destruct (for_each body l) as [r l']. simpl in *. by rewrite Hs, Hl.
Qed.

Lemma for_each_all_ok {S} (body : Mut S unit) (l : list S) :
  (∀ s, s ∈ l → (body s).1 = Ok tt) → (for_each body l).1 = Ok tt.
Proof.
  induction l as [|s l IH]; intros H; [done |]. simpl.
  pose proof (H s ltac:(left)) as Hs.
  assert (Hl : (for_each body l).1 = Ok tt) by (apply IH; intros; apply H; by right).
  destruct (body s) as [[[] | e] s']; simpl in *; [|done].
  by destruct (for_each body l) as [r l'].
Qed.

Lemma update_one_no_entry (self : FigureResampler) (layout : gmap string AxisLayout)
    (start stop : option Bound) (xaxis_filter : option string) (t : Trace) :
  _query_hf_data self t = None →
  (update_one self layout start stop xaxis_filter t).2 = t.
Proof.
  intros Hq. unfold update_one. run_mut.
  destruct (passes_filter layout xaxis_filter t) as [[] | e]; try done.
  by rewrite (sync_no_entry _ _ _ _ Hq).
Qed.

Lemma batch_no_entries_state (self : FigureResampler) (start stop : option Bound)
    (xaxis_filter : option string) (figure : FigureDict) :
  (∀ t, t ∈ fd_data figure → _query_hf_data self t = None) →
  (check_update_figure_dict self start stop xaxis_filter figure).2 = figure.
Proof.
  intros Hno. unfold check_update_figure_dict.
  pose proof (for_each_all_unchanged
                (update_one self (fd_layout figure) start stop xaxis_filter)
                (fd_data figure)) as H.
  destruct (for_each _ (fd_data figure)) as [r d]. simpl in *.
  rewrite H; [by destruct figure |].
  intros t Ht. by apply update_one_no_entry, Hno.
Qed.

(** X15.  A batch update over a figure none of whose traces has an entry
    returns the figure dict as it was, whatever the range and the filter;
    without a filter it does so without exception. *)
Theorem batch_without_entries (self : FigureResampler) (start stop : option Bound)
    (xaxis_filter : option string) (figure : FigureDict) :
  (∀ t, t ∈ fd_data figure → _query_hf_data self t = None) →
  (check_update_figure_dict self start stop xaxis_filter figure).2 = figure
  ∧ (xaxis_filter = None →
     check_update_figure_dict self start stop xaxis_filter figure = (Ok tt, figure)).
Proof.
  intros Hno.
  pose proof (batch_no_entries_state self start stop xaxis_filter figure Hno) as H2.
  split; [exact H2 |]. intros ->.
  assert (H1 : (check_update_figure_dict self start stop None figure).1 = Ok tt).
  { unfold check_update_figure_dict.
    pose proof (for_each_all_ok (update_one self (fd_layout figure) start stop None)
                  (fd_data figure)) as H.
    destruct (for_each _ (fd_data figure)) as [r d]. simpl in *. apply H.
    intros t Ht. unfold update_one. run_mut. simpl.
    by rewrite (sync_no_entry _ _ _ _ (Hno t Ht)). }
  destruct (check_update_figure_dict self start stop None figure) as [r f].
  simpl in *. by subst.
Qed.

Lemma batch_without_entries_witness :
  (∀ t, t ∈ fd_data two_axis_figure → _query_hf_data fig_default t = None)
  ∧ check_update_figure_dict fig_default (Some (BNum 1)) (Some (BNum 3)) None
      two_axis_figure
    = (Ok tt, two_axis_figure).
Proof.
  assert (H : ∀ t, t ∈ fd_data two_axis_figure → _query_hf_data fig_default t = None).
  { intros t Ht. unfold _query_hf_data. by destruct (uid t). }
  split; [exact H |].
  exact (proj2 (batch_without_entries fig_default (Some (BNum 1)) (Some (BNum 3)) None
                  two_axis_figure H) eq_refl).
Defined.

Lemma for_each_stops {S} (body : Mut S unit) (before after : list S) (s s' : S) (e : exn) :
  (∀ s0, s0 ∈ before → (body s0).1 = Ok tt) →
  body s = (Raise e, s') →
  for_each body (before ++ s :: after)
  = (Raise e, (map (λ s0, (body s0).2) before ++ s' :: after)%list).
Proof.
  intros Hok Hs. induction before as [|s0 before IH]; simpl.
  - by rewrite Hs.
  - pose proof (Hok s0 ltac:(left)) as H0.
    destruct (body s0) as [[[] | e0] s0']; simpl in *; [|done].
    rewrite IH; [done |]. intros; apply Hok; by right.
Qed.

(** X16.  The batch update stops at the first trace on which the loop body
    raises: the exception is the outcome, the traces before it carry their
    new view, the failing trace is as the failed run left it, and the traces
    after it are untouched. *)
Theorem batch_stops_at_first_error (self : FigureResampler) (start stop : option Bound)
    (xaxis_filter : option string) (figure : FigureDict)
    (before after : list Trace) (t t' : Trace) (e : exn) :
  fd_data figure = (before ++ t :: after)%list →
  (∀ t0, t0 ∈ before →
     (update_one self (fd_layout figure) start stop xaxis_filter t0).1 = Ok tt) →
  update_one self (fd_layout figure) start stop xaxis_filter t = (Raise e, t') →
  check_update_figure_dict self start stop xaxis_filter figure
  = (Raise e,
     {| fd_data :=
          (map (λ t0, (update_one self (fd_layout figure) start stop xaxis_filter t0).2)
               before ++ t' :: after)%list;
        fd_layout := fd_layout figure |}).
Proof.
  intros Hd Hok Ht. unfold check_update_figure_dict. rewrite Hd.
  by rewrite (for_each_stops _ before after t t' e Hok Ht).
Qed.

Lemma batch_stops_at_first_error_witness :
  check_update_figure_dict mixed_store (Some one_utc) None None mixed_figure
  = (Raise TypeError,
     {| fd_data := [(check_update_trace_data mixed_store (Some one_utc) None time_trace).2;
                    stored_trace "a" HNone; stored_trace "b" HNone];
        fd_layout := ∅ |}).
Proof.
  exact (batch_stops_at_first_error mixed_store (Some one_utc) None None mixed_figure
           [time_trace] [stored_trace "b" HNone]
           (stored_trace "a" HNone) (stored_trace "a" HNone)
           TypeError eq_refl
           ltac:(intros t0 Ht0; apply list_elem_of_singleton in Ht0 as ->; reflexivity)
           eq_refl).
Defined.

(** ** The callback of [show_dash] *)

Lemma startswith_iff (s p : string) :
  startswith s p = true ↔ ∃ rest, s = p +:+ rest.
Proof.
  unfold startswith. revert s. induction p as [|c p IH]; intros s.
  - split; [|by destruct s]. intros _. exists s. by rewrite append_empty_l.
  - destruct s as [|c' s]; simpl.
    + split; [done |]. intros [rest H]. by rewrite append_cons in H.
    + destruct (ascii_dec c c') as [<- | Hne].
      * rewrite IH. split; intros [rest H]; exists rest.
        -- by rewrite append_cons, H.
        -- rewrite append_cons in H. by injection H.
      * split; [done |]. intros [rest H]. rewrite append_cons in H.
        injection H as H1 H2. by destruct Hne.
Qed.

Lemma match_digits_dot_spec (literal s : string) :
  match_digits_dot literal s = true
  ↔ ∃ d c rest, s = d +:+ String c (literal +:+ rest)
                ∧ all_digits d = true ∧ c ≠ newline.
Proof.
  induction s as [|c s IH]; cbn [match_digits_dot].
  - split; [done |]. intros (d & c & rest & H & _).
    destruct d; [rewrite append_empty_l in H | rewrite append_cons in H]; done.
  - rewrite orb_true_iff, !andb_true_iff, negb_true_iff, IH, startswith_iff. split.
    + intros [[Hc [rest ->]] | [Hd (d & c' & rest & -> & Hall & Hc')]].
      * exists "", c, rest. rewrite append_empty_l. repeat split.
        intros ->. by rewrite Ascii.eqb_refl in Hc.
      * exists (String c d), c', rest. rewrite append_cons. repeat split; [|done].
        cbn [all_digits]. unfold is_digit in Hd. by rewrite Hd, Hall.
    + intros (d & c' & rest & H & Hall & Hc'). destruct d as [|c0 d].
      * rewrite append_empty_l in H. injection H as -> ->. left. split; [|by exists rest].
        by apply Ascii.eqb_neq.
      * rewrite append_cons in H. injection H as -> ->. cbn [all_digits] in Hall.
        apply andb_true_iff in Hall as [Hc0 Hall]. right. split; [done |].
        by exists d, c', rest.
Qed.

Lemma re_match_axis_iff (literal item : string) :
  re_match_axis literal item = true
  ↔ ∃ d c rest, item = "xaxis" +:+ d +:+ String c (literal +:+ rest)
                ∧ all_digits d = true ∧ c ≠ newline.
Proof.
  unfold re_match_axis. rewrite andb_true_iff, startswith_iff. split.
  - intros [[tl ->] H].
    change 5%nat with (String.length "xaxis") in H. rewrite str_drop_append in H.
    apply match_digits_dot_spec in H as (d & c & rest & -> & Hall & Hc).
    by exists d, c, rest.
  - intros (d & c & rest & -> & Hall & Hc). split; [by eexists |].
    change 5%nat with (String.length "xaxis"). rewrite str_drop_append.
    apply match_digits_dot_spec. by exists d, c, rest.
Qed.

Lemma append_assoc (a b c : string) : (a +:+ b) +:+ c = a +:+ b +:+ c.
Proof. induction a as [|x a IH]; [by rewrite !append_empty_l |]. by rewrite !append_cons, IH. Qed.

Lemma digit_not (c x : ascii) : is_digit c = true → is_digit x = false → c ≠ x.
Proof. intros H1 H2 ->. congruence. Qed.

Lemma before_dot_digits (d rest : string) :
  all_digits d = true → before_dot (d +:+ String "." rest) = d.
Proof.
  induction d as [|c d IH]; intros H.
  - by rewrite append_empty_l.
  - cbn [all_digits] in H. apply andb_true_iff in H as [Hc Hd].
    rewrite append_cons. cbn [before_dot].
    destruct (Ascii.eqb c ".") eqn:E.
    + apply Ascii.eqb_eq in E. by destruct (digit_not c "." Hc eq_refl).
    + by rewrite IH.
Qed.

Lemma before_dot_axis_key (d field : string) :
  all_digits d = true → before_dot (axis_key (xaxis d) field) = xaxis d.
Proof.
  intros H. unfold axis_key, xaxis. rewrite append_assoc.
  change ("." +:+ field) with (String "." field).
  change ("xaxis" +:+ d +:+ String "." field)
    with (String "x" (String "a" (String "x" (String "i" (String "s"
            (d +:+ String "." field)))))).
  cbn [before_dot Ascii.eqb Bool.eqb]. by rewrite before_dot_digits.
Qed.

Lemma match_own_key (d field : string) :
  all_digits d = true → re_match_axis field (axis_key (xaxis d) field) = true.
Proof.
  intros H. apply re_match_axis_iff. exists d, "."%char, "". repeat split; [|done..].
  unfold axis_key, xaxis. by rewrite append_assoc, append_empty_r.
Qed.

Lemma match_needs_xaxis (literal k : string) :
  startswith k "xaxis" = false → re_match_axis literal k = false.
Proof. intros H. unfold re_match_axis. by rewrite H. Qed.

(** A key below an x-axis matches the pattern of another field only when
    that field is a prefix of its own. *)
Lemma match_other_key (d field literal : string) :
  all_digits d = true →
  startswith field literal = false →
  nonempty literal = true →
  (∀ c rest, literal = String c rest → is_digit c = false ∧ c ≠ "."%char) →
  re_match_axis literal (axis_key (xaxis d) field) = false.
Proof.
  intros Hd Hpre Hne Hl. apply not_true_is_false. intros H.
  apply re_match_axis_iff in H as (d' & c & rest & H & Hd' & Hc).
  unfold axis_key, xaxis in H. rewrite append_assoc in H.
  change ("." +:+ field) with (String "." field) in H.
  assert (H' : d +:+ String "." field = d' +:+ String c (literal +:+ rest)).
  { change ("xaxis" +:+ ?x) with (String "x" (String "a" (String "x" (String "i" (String "s" x))))) in H.
    by simplify_eq. }
  clear H. revert d' Hd' H'. induction d as [|x d IH]; intros d' Hd' H'.
  - rewrite append_empty_l in H'. destruct d' as [|x' d'].
    + rewrite append_empty_l in H'. injection H' as _ H'.
      assert (startswith field literal = true) by (apply startswith_iff; by exists rest).
      congruence.
    + rewrite append_cons in H'. injection H' as <- _.
      cbn [all_digits] in Hd'. apply andb_true_iff in Hd' as [Hx _]. done.
  - cbn [all_digits] in Hd. apply andb_true_iff in Hd as [Hx Hd].
    rewrite append_cons in H'. destruct d' as [|x' d'].
    + rewrite append_empty_l in H'. injection H' as -> H'.
      destruct literal as [|l0 literal]; [done |].
      destruct (Hl l0 literal eq_refl) as [Hl0 Hdot].
      rewrite append_cons in H'. destruct d as [|y d].
      * rewrite append_empty_l in H'. injection H' as E _. by destruct Hdot.
      * rewrite append_cons in H'. injection H' as -> _.
        cbn [all_digits] in Hd. apply andb_true_iff in Hd as [Hy _].
        unfold is_digit in Hl0. congruence.
    + rewrite append_cons in H'. injection H' as -> H'.
      cbn [all_digits] in Hd'. apply andb_true_iff in Hd' as [_ Hd'].
      by apply (IH Hd d').
Qed.

Lemma filter_none {A} (f : A → bool) (l : list A) :
  (∀ k, k ∈ l → f k = false) → List.filter f l = [].
Proof.
  induction l as [|x l IH]; intros H; [done |]. simpl.
  rewrite (H x) by left. apply IH. intros; apply H; by right.
Qed.

Lemma filter_unique {A} (f : A → bool) (l : list A) (k0 : A) :
  NoDup l → k0 ∈ l → f k0 = true → (∀ k, k ∈ l → f k = true → k = k0) →
  List.filter f l = [k0].
Proof.
  induction l as [|x l IH]; intros Hnd Hin Hk0 Huniq.
  - by apply elem_of_nil in Hin.
  - apply NoDup_cons in Hnd as [Hx Hnd]. simpl. destruct (f x) eqn:Hfx.
    + assert (x = k0) as -> by (apply Huniq; [left | done]).
      f_equal. apply filter_none. intros k Hk. apply not_true_is_false. intros Hfk.
      assert (k = k0) as -> by (apply Huniq; [by right | done]). done.
    + apply elem_of_cons in Hin as [-> | Hin]; [congruence |].
      apply IH; try done. intros; apply Huniq; [by right | done].
Qed.

Lemma filter_some {A} (f : A → bool) (l : list A) (k : A) :
  k ∈ l → f k = true → length (List.filter f l) ≠ 0%nat.
Proof.
  induction l as [|x l IH]; intros Hin Hk.
  - by apply elem_of_nil in Hin.
  - simpl. destruct (f x) eqn:Hfx; [done |].
    apply elem_of_cons in Hin as [-> | Hin]; [congruence |]. by apply IH.
Qed.

Lemma elem_of_keys (changed_layout : gmap string LayoutValue) (k : string) :
  k ∈ (map_to_list changed_layout).*1 ↔ is_Some (changed_layout !! k).
Proof.
  rewrite list_elem_of_fmap. split.
  - intros ([k' v] & -> & H). apply elem_of_map_to_list in H. by exists v.
  - intros [v H]. exists (k, v). split; [done |]. by apply elem_of_map_to_list.
Qed.

Lemma get_matches_none (literal : string) (changed_layout : gmap string LayoutValue) :
  (∀ k, is_Some (changed_layout !! k) → re_match_axis literal k = false) →
  get_matches literal (map_to_list changed_layout).*1 = [].
Proof.
  intros H. unfold get_matches. rewrite filter_none; [done |].
  intros k Hk. by apply H, elem_of_keys.
Qed.

Lemma get_matches_unique (literal : string) (changed_layout : gmap string LayoutValue)
    (k0 : string) :
  is_Some (changed_layout !! k0) →
  re_match_axis literal k0 = true →
  (∀ k, is_Some (changed_layout !! k) → re_match_axis literal k = true → k = k0) →
  get_matches literal (map_to_list changed_layout).*1 = [k0].
Proof.
  intros Hin Hk0 Huniq. unfold get_matches.
  rewrite (filter_unique _ _ k0); [done | apply NoDup_fst_map_to_list | | done |].
  - by apply elem_of_keys.
  - intros k Hk. by apply Huniq, elem_of_keys.
Qed.

Lemma get_matches_some (literal : string) (changed_layout : gmap string LayoutValue)
    (k : string) :
  is_Some (changed_layout !! k) →
  re_match_axis literal k = true →
  length (get_matches literal (map_to_list changed_layout).*1) ≠ 0%nat.
Proof.
  intros Hin Hk. unfold get_matches.
  rewrite (Permutation_length (merge_sort_Permutation _ _)).
  apply (filter_some _ _ k); [by apply elem_of_keys | done].
Qed.

Lemma elem_of_filter_list {A} (f : A → bool) (l : list A) (k : A) :
  k ∈ List.filter f l ↔ k ∈ l ∧ f k = true.
Proof. rewrite !list_elem_of_In. apply filter_In. Qed.

(** X17.  [get_matches] returns, in sorted order and once each, exactly the
    strings that read ["xaxis"], then digits, then any one character but a
    newline, then the literal of the pattern, then anything: the dot of the
    pattern is a wildcard and the match is not anchored at the end. *)
Theorem get_matches_spec (literal : string) (strings : list string) :
  Sorted str_le (get_matches literal strings)
  ∧ (NoDup strings → NoDup (get_matches literal strings))
  ∧ ∀ item, item ∈ get_matches literal strings
            ↔ item ∈ strings
              ∧ ∃ d c rest, item = "xaxis" +:+ d +:+ String c (literal +:+ rest)
                            ∧ all_digits d = true ∧ c ≠ newline.
Proof.
  unfold get_matches. split; [|split].
  - apply Sorted_merge_sort. intros a b. apply String.leb_total.
  - intros Hnd. rewrite merge_sort_Permutation.
    apply NoDup_ListNoDup, List.NoDup_filter, NoDup_ListNoDup, Hnd.
  - intros item. rewrite merge_sort_Permutation, elem_of_filter_list.
    by rewrite re_match_axis_iff.
Qed.

Lemma nonempty_event (changed_layout : gmap string LayoutValue) (k : string) :
  is_Some (changed_layout !! k) → bool_decide (changed_layout = ∅) = false.
Proof. intros [v H]. apply bool_decide_eq_false. intros ->. by rewrite lookup_empty in H. Qed.

(** X18.  An event without any key that starts with ["xaxis"] (no event, an
    empty one, a change of the y-range or of the drag mode) is ignored: the
    callback returns the figure dict as it came. *)
Theorem update_graph_ignores (self : FigureResampler)
    (changed_layout : option (gmap string LayoutValue)) (figure : FigureDict) :
  (∀ cl k, changed_layout = Some cl → is_Some (cl !! k) → startswith k "xaxis" = false) →
  update_graph self changed_layout figure = (Ok tt, figure).
Proof.
  intros H. unfold update_graph. destruct changed_layout as [cl |]; [|done].
  case_bool_decide; [done |]. cbv zeta.
  rewrite !get_matches_none; [done | ..];
    intros k Hk; apply match_needs_xaxis; by apply (H cl).
Qed.

Lemma update_graph_ignores_witness :
  update_graph (small_store fig_default HNone) (Some y_event) two_axis_figure
  = (Ok tt, two_axis_figure).
Proof.
  apply update_graph_ignores. intros cl k [= <-] [v Hk]. unfold y_event in Hk.
  apply lookup_insert_Some in Hk as [[<- _] | [_ Hk]]; [reflexivity |].
  apply lookup_singleton_Some in Hk as [<- _]. reflexivity.
Defined.

Lemma range_keys_apart (d : string) :
  all_digits d = true →
  re_match_axis "range[0]" (axis_key (xaxis d) "range[1]") = false
  ∧ re_match_axis "range[1]" (axis_key (xaxis d) "range[0]") = false.
Proof.
  intros Hd. split; apply match_other_key; try done;
    intros c rest [= <- <-]; by split.
Qed.

Lemma xaxis_inj (d d' : string) : xaxis d = xaxis d' → d = d'.
Proof. unfold xaxis. cbv [String.append]. by intros [= ->]. Qed.

Lemma axis_key_inj (d d' field : string) :
  all_digits d = true → all_digits d' = true →
  axis_key (xaxis d) field = axis_key (xaxis d') field → d = d'.
Proof.
  intros Hd Hd' H. apply xaxis_inj.
  by rewrite <- (before_dot_axis_key d field), <- (before_dot_axis_key d' field), H.
Qed.

(** X19.  A zoom on one x-axis: when the event carries the two ends of the
    range of the axis [xaxis<d>] and no other key that starts with
    ["xaxis"], the callback is one batch update with these two bounds and
    the filter [xaxis<d>]. *)
Theorem range_event_one_axis (self : FigureResampler)
    (changed_layout : gmap string LayoutValue) (d : string) (a b : Bound)
    (figure : FigureDict) :
  all_digits d = true →
  changed_layout !! axis_key (xaxis d) "range[0]" = Some (VBound a) →
  changed_layout !! axis_key (xaxis d) "range[1]" = Some (VBound b) →
  (∀ k, is_Some (changed_layout !! k) →
        k = axis_key (xaxis d) "range[0]" ∨ k = axis_key (xaxis d) "range[1]"
        ∨ startswith k "xaxis" = false) →
  update_graph self (Some changed_layout) figure
  = check_update_figure_dict self (Some a) (Some b) (Some (xaxis d)) figure.
Proof.
  intros Hd Ha Hb Hkeys. destruct (range_keys_apart d Hd) as [H01 H10].
  unfold update_graph. rewrite (nonempty_event _ _ (mk_is_Some _ _ Ha)). cbv zeta.
  rewrite (get_matches_unique "range[0]" _ (axis_key (xaxis d) "range[0]"));
    [| by eexists | by apply match_own_key |].
  2:{ intros k Hk Hm. destruct (Hkeys k Hk) as [-> | [-> | Hx]]; [done | congruence |].
      rewrite (match_needs_xaxis _ _ Hx) in Hm. done. }
  rewrite (get_matches_unique "range[1]" _ (axis_key (xaxis d) "range[1]"));
    [| by eexists | by apply match_own_key |].
  2:{ intros k Hk Hm. destruct (Hkeys k Hk) as [-> | [-> | Hx]]; [congruence | done |].
      rewrite (match_needs_xaxis _ _ Hx) in Hm. done. }
  cbn [length Nat.eqb negb andb zip zip_with update_ranges]. run_mut.
  rewrite !before_dot_axis_key by done. rewrite String.eqb_refl.
  unfold layout_item. rewrite Ha, Hb. run_mut.
  by destruct (check_update_figure_dict _ _ _ _ figure) as [[[] | e] f].
Qed.

Lemma range_event_one_axis_witness :
  update_graph two_axis_store (Some zoom_event) two_axis_figure
  = check_update_figure_dict two_axis_store (Some (BNum 1)) (Some (BNum 3))
      (Some "xaxis2") two_axis_figure.
Proof.
  apply (range_event_one_axis two_axis_store zoom_event "2" (BNum 1) (BNum 3));
    [reflexivity | reflexivity | reflexivity |].
  intros k [v Hk]. unfold zoom_event in Hk.
  apply lookup_insert_Some in Hk as [[<- _] | [_ Hk]]; [by left |].
  apply lookup_insert_Some in Hk as [[<- _] | [_ Hk]]; [by right; left |].
  apply lookup_singleton_Some in Hk as [<- _]. by right; right.
Defined.

(** X20.  A reset of the axes: when the event carries an autorange key of
    some x-axis and every key that starts with ["xaxis"] is an autorange key
    of an x-axis, the callback is one batch update of all traces to the full
    range, without filter. *)
Theorem autorange_event (self : FigureResampler)
    (changed_layout : gmap string LayoutValue) (d : string) (figure : FigureDict) :
  all_digits d = true →
  is_Some (changed_layout !! axis_key (xaxis d) "autorange") →
  (∀ k, is_Some (changed_layout !! k) →
        (∃ d', all_digits d' = true ∧ k = axis_key (xaxis d') "autorange")
        ∨ startswith k "xaxis" = false) →
  update_graph self (Some changed_layout) figure
  = check_update_figure_dict self None None None figure.
Proof.
  intros Hd Hin Hkeys. unfold update_graph. rewrite (nonempty_event _ _ Hin). cbv zeta.
  rewrite (get_matches_none "range[0]").
  2:{ intros k Hk. destruct (Hkeys k Hk) as [(d' & Hd' & ->) | Hx];
        [| by apply match_needs_xaxis].
      apply match_other_key; try done. intros c rest [= <- <-]. by split. }
  cbn [length Nat.eqb negb andb].
  pose proof (get_matches_some "autorange" _ _ Hin (match_own_key d "autorange" Hd)) as Hn.
  apply Nat.eqb_neq in Hn. by rewrite Hn.
Qed.

Lemma autorange_event_witness :
  update_graph two_axis_store (Some reset_event) two_axis_figure
  = check_update_figure_dict two_axis_store None None None two_axis_figure.
Proof.
  apply (autorange_event two_axis_store reset_event "");
    [reflexivity | by eexists |].
  intros k [v Hk]. unfold reset_event in Hk.
  apply lookup_insert_Some in Hk as [[<- _] | [_ Hk]]; [left; by exists "" |].
  apply lookup_insert_Some in Hk as [[<- _] | [_ Hk]]; [left; by exists "2" |].
  apply lookup_singleton_Some in Hk as [<- _]. by right.
Defined.

(** X21.  An event that carries the start of the range of one x-axis and the
    stop of the range of another one, and no other key that starts with
    ["xaxis"], fails the assertion of the loop: the callback raises and the
    figure dict is as it came. *)
Theorem crossed_range_event (self : FigureResampler)
    (changed_layout : gmap string LayoutValue) (d0 d1 : string) (figure : FigureDict) :
  all_digits d0 = true → all_digits d1 = true → d0 ≠ d1 →
  is_Some (changed_layout !! axis_key (xaxis d0) "range[0]") →
  is_Some (changed_layout !! axis_key (xaxis d1) "range[1]") →
  (∀ k, is_Some (changed_layout !! k) →
        k = axis_key (xaxis d0) "range[0]" ∨ k = axis_key (xaxis d1) "range[1]"
        ∨ startswith k "xaxis" = false) →
  update_graph self (Some changed_layout) figure = (Raise AssertionError, figure).
Proof.
  intros Hd0 Hd1 Hne H0 H1 Hkeys.
  destruct (range_keys_apart d0 Hd0) as [_ H10].
  destruct (range_keys_apart d1 Hd1) as [H01 _].
  unfold update_graph. rewrite (nonempty_event _ _ H0). cbv zeta.
  rewrite (get_matches_unique "range[0]" _ (axis_key (xaxis d0) "range[0]"));
    [| done | by apply match_own_key |].
  2:{ intros k Hk Hm. destruct (Hkeys k Hk) as [-> | [-> | Hx]]; [done | congruence |].
      rewrite (match_needs_xaxis _ _ Hx) in Hm. done. }
  rewrite (get_matches_unique "range[1]" _ (axis_key (xaxis d1) "range[1]"));
    [| done | by apply match_own_key |].
  2:{ intros k Hk Hm. destruct (Hkeys k Hk) as [-> | [-> | Hx]]; [congruence | done |].
      rewrite (match_needs_xaxis _ _ Hx) in Hm. done. }
  cbn [length Nat.eqb negb andb zip zip_with update_ranges]. run_mut.
  rewrite !before_dot_axis_key by done.
  assert (E : String.eqb (xaxis d0) (xaxis d1) = false).
  { apply String.eqb_neq. intros H. by apply Hne, xaxis_inj. }
  by rewrite E.
Qed.

Lemma crossed_range_event_witness :
  update_graph two_axis_store (Some crossed_event) two_axis_figure
  = (Raise AssertionError, two_axis_figure).
Proof.
  apply (crossed_range_event two_axis_store crossed_event "" "2");
    [reflexivity | reflexivity | done | by eexists | by eexists |].
  intros k [v Hk]. unfold crossed_event in Hk.
  apply lookup_insert_Some in Hk as [[<- _] | [_ Hk]]; [by left |].
  apply lookup_singleton_Some in Hk as [<- _]. by right; left.
Defined.

Lemma update_ranges_no_entries (self : FigureResampler)
    (changed_layout : gmap string LayoutValue) (pairs : list (string * string))
    (figure : FigureDict) :
  (∀ t, t ∈ fd_data figure → _query_hf_data self t = None) →
  (update_ranges self changed_layout pairs figure).2 = figure.
Proof.
  intros Hno. induction pairs as [|[ks ke] pairs IH]; [done |].
  cbn [update_ranges]. run_mut.
  destruct (String.eqb (before_dot ks) (before_dot ke)); [|done].
  destruct (layout_item changed_layout ks) as [start | e]; [|done].
  destruct (layout_item changed_layout ke) as [stop | e]; [|done]. run_mut.
  pose proof (batch_no_entries_state self start stop (Some (before_dot ks)) figure Hno) as H.
  destruct (check_update_figure_dict self start stop (Some (before_dot ks)) figure)
    as [[[] | e] f]; simpl in H; subst f; [exact IH | done].
Qed.

Lemma update_graph_no_entries (self : FigureResampler)
    (changed_layout : option (gmap string LayoutValue)) (figure : FigureDict) :
  (∀ t, t ∈ fd_data figure → _query_hf_data self t = None) →
  (update_graph self changed_layout figure).2 = figure.
Proof.
  intros Hno. unfold update_graph. destruct changed_layout as [cl |]; [|done].
  case_bool_decide; [done |]. cbv zeta.
  destruct (_ && _); [by apply update_ranges_no_entries |].
  destruct (negb _); [by apply batch_no_entries_state | done].
Qed.

(** X22.  A resampler as the constructor returns it has an empty store, so
    the callback of its app never changes a figure dict, whatever the event
    is and whatever traces the figure dict holds. *)
Theorem fresh_resampler_keeps_figure (figure_data : list Trace) (n : Z)
    (downsampler : Downsampler) (prefix_suffix : list string) (self : FigureResampler)
    (changed_layout : option (gmap string LayoutValue)) (figure : FigureDict) :
  __init__ figure_data n downsampler prefix_suffix = Ok self →
  (update_graph self changed_layout figure).2 = figure.
Proof.
  intros Hinit. apply update_graph_no_entries. intros t _.
  unfold __init__ in Hinit.
  destruct prefix_suffix as [|p [|q [|]]]; simplify_eq.
  unfold _query_hf_data. by destruct (uid t).
Qed.

Lemma fresh_resampler_keeps_figure_witness :
  __init__ [] 2 EveryNthPoint [default_prefix; default_suffix] = Ok fig_default
  ∧ (update_graph fig_default (Some zoom_event) two_axis_figure).2 = two_axis_figure.
Proof.
  split; [reflexivity |].
  exact (fresh_resampler_keeps_figure [] 2 EveryNthPoint [default_prefix; default_suffix] fig_default
           (Some zoom_event) two_axis_figure eq_refl).
Defined.
